(** * Unmasked (DeepScan UI): the browser client, embedded and verified

    The development follows the TypeScript sources of the React client:
    the fetch wrappers of [services/*Api.ts], the session handling of
    [AuthContext], the notification state of [AppHeader], the polling
    effects, the password form of [Profile], the upload guards and the
    CSV/PDF export of [AdminContent].

    JavaScript values are modelled as far as the code observes them:
    strings, booleans, [null]/[undefined], arrays and plain objects are
    concrete; IEEE numbers and the built-ins that format or parse text
    ([Number.prototype.toString], [toFixed], [JSON.stringify],
    [JSON.parse], [URLSearchParams]) are operations of an interface, as
    they belong to the JavaScript engine and not to this repository.
    A string holds its text in UTF-8, byte by byte, as the literals of
    this file do. The classes of the regular expressions the code uses
    ([a-z], [A-Z], [0-9] and their complement) tell the same of the
    bytes of a text as of its UTF-16 code units, since the bytes of a
    character outside ASCII all lie outside ASCII; the [length] of a
    password counts code units ([length_utf16]). *)

From Stdlib Require Import ZArith QArith String Ascii List DecimalString Decimal
  DecimalFacts DecimalNat Lia Bool.
From stdpp Require Import base strings list gmap.

Open Scope string_scope.
Open Scope list_scope.
Set Warnings "-register-all".

(** ** Numbers of the JavaScript engine *)

Class NumberOps := {
  Number : Type;
  num_of_Z : Z -> Number;
  num_mul : Number -> Number -> Number;
  num_div : Number -> Number -> Number;
  (* ToBoolean on a number: false exactly for +0, -0 and NaN *)
  num_truthy : Number -> bool;
  (* Number::toString, radix 10 *)
  num_toString : Number -> string;
  (* Number.prototype.toFixed(digits) *)
  num_toFixed : nat -> Number -> string
}.

(** Decimal rendering of a natural number, as a template literal does
    for an integer such as [response.status] or an array length. *)
Definition nat_to_string (n : nat) : string :=
  NilEmpty.string_of_uint (Nat.to_uint n).

(** [text.length], the number of UTF-16 code units of a text, read
    off its UTF-8 bytes: the first byte of a character of one to three
    bytes stands for one code unit, the first byte of a character of
    four bytes ([11110xxx], a character beyond U+FFFF) for the two of a
    surrogate pair, and a continuation byte ([10xxxxxx]) for none. *)
Definition code_units (byte : ascii) : nat :=
  let n := nat_of_ascii byte in
  if (n <? 128)%nat then 1
  else if (n <? 192)%nat then 0
  else if (n <? 240)%nat then 1
  else 2.

Fixpoint length_utf16 (text : string) : nat :=
  match text with
  | EmptyString => 0
  | String byte rest => code_units byte + length_utf16 rest
  end.

Section Model.
Context `{NumberOps}.

(** ** JavaScript values *)

Inductive JsValue : Type :=
| JUndefined
| JNull
| JBool (b : bool)
| JNum (n : Number)
| JStr (s : string)
| JArr (items : list JsValue)
| JObj (fields : list (string * JsValue)).

(** What a [throw] or a rejected promise carries: an [Error] instance
    (any subclass) with its [message], or some other value. *)
Inductive Thrown : Type :=
| ErrorObj (message : string)
| NonError (v : JsValue).

(** The engine's built-ins the client calls. The texts of the engine's
    own [TypeError]s differ between browsers. *)
Class Engine := {
  JSON_stringify : JsValue -> string;
  (* [None]: JSON.parse throws a SyntaxError *)
  JSON_parse : string -> option JsValue;
  (* URLSearchParams.prototype.toString over the appended pairs *)
  URLSearchParams_toString : list (string * string) -> string;
  (* String.prototype.toLowerCase *)
  toLowerCase : string -> string;
  (* message of the TypeError raised when a property of null or
     undefined is read *)
  typeError_read_property : string -> string;
  (* message of the TypeError raised when an object has no primitive
     value *)
  typeError_to_primitive : string
}.

Context `{Engine}.

(** ToBoolean *)
Definition truthy (v : JsValue) : bool :=
  match v with
  | JUndefined | JNull => false
  | JBool b => b
  | JNum n => num_truthy n
  | JStr s => negb (String.eqb s "")
  | JArr _ | JObj _ => true
  end.

(** Own data property of a plain object (first binding of the key). *)
Fixpoint lookup_field (k : string) (fields : list (string * JsValue)) : option JsValue :=
  match fields with
  | [] => None
  | (k', v) :: rest => if String.eqb k k' then Some v else lookup_field k rest
  end.

(** [v.k] for the data keys the client reads ([message], [status],
    [user], [token], ...): none of them is defined on a prototype, so a
    primitive or an array yields [undefined]; reading from [null] or
    [undefined] throws. *)
Definition get_prop (v : JsValue) (k : string) : Thrown + JsValue :=
  match v with
  | JUndefined | JNull => inl (ErrorObj (typeError_read_property k))
  | JObj fields => inr (default JUndefined (lookup_field k fields))
  | _ => inr JUndefined
  end.

(** [v?.k]: optional chaining *)
Definition get_prop_opt (v : JsValue) (k : string) : JsValue :=
  match v with
  | JObj fields => default JUndefined (lookup_field k fields)
  | _ => JUndefined
  end.

(** ToString. An object parsed from JSON that carries an own
    [toString] key shadows [Object.prototype.toString] with a value that
    cannot be called, and has no primitive value: the conversion throws
    ([None]). Array.prototype.join renders [null] and [undefined]
    elements as the empty string. *)
Fixpoint ToString (v : JsValue) : option string :=
  match v with
  | JUndefined => Some "undefined"
  | JNull => Some "null"
  | JBool true => Some "true"
  | JBool false => Some "false"
  | JNum n => Some (num_toString n)
  | JStr s => Some s
  | JArr items =>
      let element (x : JsValue) : option string :=
        match x with
        | JUndefined | JNull => Some ""
        | _ => ToString x
        end in
      (fix join (l : list JsValue) : option string :=
         match l with
         | [] => Some ""
         | x :: rest =>
             match element x with
             | None => None
             | Some sx =>
                 match rest with
                 | [] => Some sx
                 | _ :: _ =>
                     match join rest with
                     | None => None
                     | Some sr => Some (sx +:+ "," +:+ sr)
                     end
                 end
             end
         end) items
  | JObj fields =>
      match lookup_field "toString" fields with
      | Some _ => None
      | None => Some "[object Object]"
      end
  end.

(** What [throw new Error(v)] ends up throwing: the new error, or the
    TypeError of the failed string conversion of [v]. *)
Definition new_Error (v : JsValue) : Thrown :=
  match v with
  | JUndefined => ErrorObj ""
  | _ =>
      match ToString v with
      | Some s => ErrorObj s
      | None => ErrorObj typeError_to_primitive
      end
  end.

(** [a || b] *)
Definition js_or (a b : JsValue) : JsValue := if truthy a then a else b.

(** [error instanceof Error ? error.message : fallback] *)
Definition message_of (error : Thrown) (fallback : string) : string :=
  match error with
  | ErrorObj m => m
  | NonError _ => fallback
  end.

End Model.

(** ** fetch, responses and asynchronous functions *)

Record File := {
  file_name : string;   (* File.name *)
  file_type : string;   (* File.type, the MIME type *)
  file_size : Z         (* File.size in bytes *)
}.

Inductive Body : Type :=
| BodyText (text : string)
| BodyFormData (entries : list (string * File)).

(** The arguments of one [fetch(url, init)] call. [req_method = None]:
    the init object has no [method] (fetch then issues a GET). *)
Record Request := {
  req_url : string;
  req_method : option string;
  req_headers : list (string * string);
  req_body : option Body
}.

Section Async.
Context `{NumberOps}.

(** A [Response] as the client reads it: the [ok] flag, the status code
    and what [response.json()] and [response.text()] settle with. *)
Record Response := {
  ok : bool;
  status : nat;
  body_json : Thrown + JsValue;
  body_text : Thrown + string
}.

Inductive FetchOutcome : Type :=
| Rejects (reason : Thrown)
| Resolves (response : Response).

(** An async function: it returns, throws, or awaits a fetch and goes
    on with what the fetch settles with. Writes to the console
    ([console.error]) have no effect on what follows and are left out. *)
Inductive Async (A : Type) : Type :=
| Fulfil (a : A)
| Reject (e : Thrown)
| AwaitFetch (req : Request) (k : FetchOutcome -> Async A).
Arguments Fulfil {A} a.
Arguments Reject {A} e.
Arguments AwaitFetch {A} req k.

Fixpoint bind {A B} (m : Async A) (f : A -> Async B) : Async B :=
  match m with
  | Fulfil a => f a
  | Reject e => Reject e
  | AwaitFetch req k => AwaitFetch req (fun o => bind (k o) f)
  end.

(** [try { m } catch (error) { handler error }] *)
Fixpoint try_catch {A} (m : Async A) (handler : Thrown -> Async A) : Async A :=
  match m with
  | Fulfil a => Fulfil a
  | Reject e => handler e
  | AwaitFetch req k => AwaitFetch req (fun o => try_catch (k o) handler)
  end.

#[export] Instance Async_ret : MRet Async := fun A a => Fulfil a.
#[export] Instance Async_bind : MBind Async := fun A B f m => bind m f.

(** [await fetch(url, init)] *)
Definition fetch (req : Request) : Async Response :=
  AwaitFetch req (fun o =>
    match o with
    | Rejects e => Reject e
    | Resolves r => Fulfil r
    end).

(** [await response.json()] *)
Definition await_json (response : Response) : Async JsValue :=
  match body_json response with
  | inl e => Reject e
  | inr v => Fulfil v
  end.

(** [await response.text()] *)
Definition await_text (response : Response) : Async string :=
  match body_text response with
  | inl e => Reject e
  | inr s => Fulfil s
  end.

(** [await response.json().catch(() => ({}))] *)
Definition json_or_empty (response : Response) : JsValue :=
  match body_json response with
  | inl _ => JObj []
  | inr v => v
  end.

(** Lifting of an expression that may throw. *)
Definition eval {A} (r : Thrown + A) : Async A :=
  match r with
  | inl e => Reject e
  | inr a => Fulfil a
  end.

(** Running an async function against a network: [net] answers each
    request from its state. The result is what the promise settles
    with, the requests issued in order, and the network's final state. *)
Fixpoint run {A S} (net : S -> Request -> FetchOutcome * S) (s : S) (m : Async A)
  : (Thrown + A) * list Request * S :=
  match m with
  | Fulfil a => (inr a, [], s)
  | Reject e => (inl e, [], s)
  | AwaitFetch req k =>
      let '(o, s') := net s req in
      let '(r, reqs, s'') := run net s' (k o) in
      (r, req :: reqs, s'')
  end.

(** A network that settles every fetch the same way. *)
Definition always (o : FetchOutcome) : unit -> Request -> FetchOutcome * unit :=
  fun _ _ => (o, tt).

End Async.
Arguments Fulfil {_ A} a.
Arguments Reject {_ A} e.
Arguments AwaitFetch {_ A} req k.

(** ** The statements every service method repeats *)

(** ['success' | 'error'], the [status] member of the declared
    response types. *)
Inductive Status := success | error.

(** ['admin' | 'user'] *)
Inductive Role := admin | user.

Section Wrappers.
Context `{NumberOps} `{!Engine}.

Definition API_BASE_URL : string := "http://localhost:5000/api".

(** [headers: { 'Content-Type': 'application/json' }] *)
Definition json_headers : list (string * string) :=
  [("Content-Type", "application/json")].

(** [`HTTP error! status: ${response.status}`] *)
Definition http_error_status (response : Response) : JsValue :=
  JStr ("HTTP error! status: " +:+ nat_to_string (status response)).

(** [if (!response.ok) {
       const errorData = await response.json().catch(() => ({}));
       throw new Error(errorData.message || `HTTP error! status: ...`);
     }
     return await response.json();] *)
Definition json_or_throw_body (response : Response) : Async JsValue :=
  if negb (ok response) then
    message ← eval (get_prop (json_or_empty response) "message");
    Reject (new_Error (js_or message (http_error_status response)))
  else await_json response.

(** [if (!response.ok) { throw new Error(`HTTP error! status: ...`); }
     return await response.json();] *)
Definition json_or_throw_status (response : Response) : Async JsValue :=
  if negb (ok response) then Reject (new_Error (http_error_status response))
  else await_json response.

(** [{ status: 'error',
       message: error instanceof Error ? error.message : fallback }] *)
Definition error_result (error : Thrown) (fallback : string) : list (string * JsValue) :=
  [("status", JStr "error"); ("message", JStr (message_of error fallback))].

(** [body: JSON.stringify({ ... })] *)
Definition json_body (fields : list (string * JsValue)) : option Body :=
  Some (BodyText (JSON_stringify (JObj fields))).

(** An optional member [k?: T] of an object that is serialised: absent
    when it is not given. *)
Definition optional_field {A} (k : string) (f : A -> JsValue) (o : option A)
  : list (string * JsValue) :=
  match o with
  | Some a => [(k, f a)]
  | None => []
  end.

(** [if (s) ...] on an optional string: given and not empty. *)
Definition given (o : option string) : bool :=
  match o with
  | Some s => negb (String.eqb s "")
  | None => false
  end.

(** [v === 'text'] *)
Definition is_string (v : JsValue) (text : string) : bool :=
  match v with
  | JStr s => String.eqb s text
  | _ => false
  end.

End Wrappers.

(** ** AdminApiService (services/adminApi.ts) *)

Module AdminApi.
Section AdminApiService.
Context `{NumberOps} `{!Engine}.

Record ReportFilters := {
  result : option string;
  user_id : option string;
  date_from : option string;
  date_to : option string
}.

Definition resetUserData (userId : string) : Async JsValue :=
  try_catch
    (response ← fetch {|
       req_url := API_BASE_URL +:+ "/admin/reset-data";
       req_method := Some "POST";
       req_headers := json_headers;
       req_body := json_body [("user_id", JStr userId)] |};
     json_or_throw_body response)
    (fun error => Fulfil (JObj (error_result error "Failed to reset user data"))).

Definition getAllUsers (adminId : string) : Async JsValue :=
  try_catch
    (response ← fetch {|
       req_url := API_BASE_URL +:+ "/admin/users?admin_id=" +:+ adminId;
       req_method := Some "GET";
       req_headers := json_headers;
       req_body := None |};
     json_or_throw_body response)
    (fun error => Fulfil (JObj (error_result error "Failed to fetch users"))).

Definition getUserDetails (userId adminId : string) : Async JsValue :=
  try_catch
    (response ← fetch {|
       req_url := API_BASE_URL +:+ "/admin/users/" +:+ userId +:+ "?admin_id=" +:+ adminId;
       req_method := Some "GET";
       req_headers := json_headers;
       req_body := None |};
     json_or_throw_body response)
    (fun error => Fulfil (JObj (error_result error "Failed to fetch user details"))).

Definition resetUserDataSingle (userId adminId : string) : Async JsValue :=
  try_catch
    (response ← fetch {|
       req_url := API_BASE_URL +:+ "/admin/users/" +:+ userId +:+ "/reset";
       req_method := Some "POST";
       req_headers := json_headers;
       req_body := json_body [("admin_id", JStr adminId)] |};
     json_or_throw_body response)
    (fun error => Fulfil (JObj (error_result error "Failed to reset user data"))).

Definition deleteUser (userId adminId : string) : Async JsValue :=
  try_catch
    (response ← fetch {|
       req_url := API_BASE_URL +:+ "/admin/users/" +:+ userId;
       req_method := Some "DELETE";
       req_headers := json_headers;
       req_body := json_body [("admin_id", JStr adminId)] |};
     json_or_throw_body response)
    (fun error => Fulfil (JObj (error_result error "Failed to delete user"))).

(** [let url = ...; if (filters?.result) { url += `&result=...` } ...] *)
Definition getAllReports_url (adminId : string) (filters : option ReportFilters) : string :=
  let url := API_BASE_URL +:+ "/admin/reports?admin_id=" +:+ adminId in
  let add (k : string) (o : option string) (url : string) : string :=
    if given o then url +:+ "&" +:+ k +:+ "=" +:+ default "" o else url in
  let url := add "result" (filters ≫= result) url in
  let url := add "user_id" (filters ≫= user_id) url in
  let url := add "date_from" (filters ≫= date_from) url in
  add "date_to" (filters ≫= date_to) url.

Definition getAllReports (adminId : string) (filters : option ReportFilters) : Async JsValue :=
  try_catch
    (response ← fetch {|
       req_url := getAllReports_url adminId filters;
       req_method := Some "GET";
       req_headers := json_headers;
       req_body := None |};
     json_or_throw_body response)
    (fun error => Fulfil (JObj (error_result error "Failed to fetch reports"))).

Definition deleteReport (reportId adminId : string) : Async JsValue :=
  try_catch
    (response ← fetch {|
       req_url := API_BASE_URL +:+ "/admin/reports/" +:+ reportId;
       req_method := Some "DELETE";
       req_headers := json_headers;
       req_body := json_body [("admin_id", JStr adminId)] |};
     json_or_throw_body response)
    (fun error => Fulfil (JObj (error_result error "Failed to delete report"))).

(** The declared types of what the methods resolve with, under which
    the pages read the results. *)

Record Report := {
  id : string;
  report_user_id : string;
  user_email : string;
  user_name : string;
  file_name : string;
  prediction : string;
  confidence : Number;
  frames_analyzed : Number;
  report_url : string;
  model_version : string;
  created_at : string
}.

Record Statistics := {
  total_reports : nat;
  fake_reports : nat;
  real_reports : nat;
  fake_percentage : Number;
  avg_confidence : Number;
  most_recent : option string
}.

Record ReportsResponse := {
  status : Status;
  reports : option (list Report);
  statistics : option Statistics;
  message : option string
}.

(** [{ status: 'success' | 'error'; message?: string }] *)
Record DeleteResponse := {
  delete_status : Status;
  delete_message : option string
}.

End AdminApiService.
End AdminApi.

(** ** SupportApiService *)

Module SupportApi.
Section SupportApiService.
Context `{NumberOps} `{!Engine}.

Record ExpertRequest := {
  er_user_id : string;
  er_name : string;
  er_email : string;
  er_file_reference : option string;
  er_description : string
}.

Definition ExpertRequest_fields (r : ExpertRequest) : list (string * JsValue) :=
  [("user_id", JStr (er_user_id r)); ("name", JStr (er_name r)); ("email", JStr (er_email r))]
  ++ optional_field "file_reference" JStr (er_file_reference r)
  ++ [("description", JStr (er_description r))].

Inductive ComplaintType := IdentityMisuse | FakeNews | ExplicitDeepfake | Harassment.

Definition ComplaintType_text (t : ComplaintType) : string :=
  match t with
  | IdentityMisuse => "Identity Misuse"
  | FakeNews => "Fake News"
  | ExplicitDeepfake => "Explicit Deepfake"
  | Harassment => "Harassment"
  end.

Record Complaint := {
  user_id : string;
  name : string;
  email : string;
  type : ComplaintType;
  description : string;
  evidence_file : option string
}.

Definition Complaint_fields (c : Complaint) : list (string * JsValue) :=
  [("user_id", JStr (user_id c)); ("name", JStr (name c)); ("email", JStr (email c));
   ("type", JStr (ComplaintType_text (type c))); ("description", JStr (description c))]
  ++ optional_field "evidence_file" JStr (evidence_file c).

Record Subscription := {
  sub_user_id : option string;
  sub_email : string
}.

Definition Subscription_fields (s : Subscription) : list (string * JsValue) :=
  optional_field "user_id" JStr (sub_user_id s) ++ [("email", JStr (sub_email s))].

Definition createExpertRequest (request : ExpertRequest) : Async JsValue :=
  try_catch
    (response ← fetch {|
       req_url := API_BASE_URL +:+ "/support/expert-request";
       req_method := Some "POST";
       req_headers := json_headers;
       req_body := json_body (ExpertRequest_fields request) |};
     json_or_throw_body response)
    (fun error => Fulfil (JObj (error_result error "Failed to create expert request"))).

Definition createComplaint (complaint : Complaint) : Async JsValue :=
  try_catch
    (response ← fetch {|
       req_url := API_BASE_URL +:+ "/support/complaint";
       req_method := Some "POST";
       req_headers := json_headers;
       req_body := json_body (Complaint_fields complaint) |};
     json_or_throw_body response)
    (fun error => Fulfil (JObj (error_result error "Failed to create complaint"))).

(** [const params = new URLSearchParams();
     if (id) params.append('id', id);
     if (email) params.append('email', email);] *)
Definition trackComplaint_params (id email : option string) : list (string * string) :=
  (if given id then [("id", default "" id)] else [])
  ++ (if given email then [("email", default "" email)] else []).

Definition trackComplaint (id email : option string) : Async JsValue :=
  try_catch
    (response ← fetch {|
       req_url := API_BASE_URL +:+ "/support/track-complaint?"
                  +:+ URLSearchParams_toString (trackComplaint_params id email);
       req_method := Some "GET";
       req_headers := json_headers;
       req_body := None |};
     json_or_throw_body response)
    (fun error => Fulfil (JObj (error_result error "Failed to track complaint"))).

Definition subscribeNewsletter (subscription : Subscription) : Async JsValue :=
  try_catch
    (response ← fetch {|
       req_url := API_BASE_URL +:+ "/support/subscribe";
       req_method := Some "POST";
       req_headers := json_headers;
       req_body := json_body (Subscription_fields subscription) |};
     json_or_throw_body response)
    (fun error => Fulfil (JObj (error_result error "Failed to subscribe"))).

Definition getDailyTips : Async JsValue :=
  try_catch
    (response ← fetch {|
       req_url := API_BASE_URL +:+ "/support/daily-tips";
       req_method := Some "GET";
       req_headers := json_headers;
       req_body := None |};
     json_or_throw_body response)
    (fun error => Fulfil (JObj (error_result error "Failed to fetch daily tips"
                                 ++ [("tips", JArr [])]))).

End SupportApiService.
End SupportApi.

(** ** DeepfakeApiService (services/deepfakeApi.ts) *)

(** The members of a [RequestInit] the client sets. *)
Record RequestInit := {
  init_method : option string;
  init_headers : option (list (string * string));
  init_body : option Body
}.

Definition no_options : RequestInit :=
  {| init_method := None; init_headers := None; init_body := None |}.

(** [{ headers: { 'Content-Type': 'application/json', ...options.headers },
       ...options }]: the spread of [options] comes last, so a [headers]
    member of [options] replaces the merged headers. *)
Definition makeRequest_init (url : string) (options : RequestInit) : Request :=
  {| req_url := url;
     req_method := init_method options;
     req_headers := match init_headers options with
                    | Some given_headers => given_headers
                    | None => [("Content-Type", "application/json")]
                    end;
     req_body := init_body options |}.

Module DeepfakeApi.
Section DeepfakeApiService.
Context `{NumberOps} `{!Engine}.

Inductive Prediction := real | fake.

Record PredictionResult := {
  prediction : Prediction;
  confidence : Number;
  fake_probability : Number;
  real_probability : Number;
  frames_analyzed : Number
}.

Definition makeRequest (endpoint : string) (options : RequestInit) : Async JsValue :=
  try_catch
    (response ← fetch (makeRequest_init (API_BASE_URL +:+ endpoint) options);
     json_or_throw_status response)
    (fun error => Fulfil (JObj (error_result error "Unknown error occurred"))).

Definition healthCheck : Async JsValue := makeRequest "/health" no_options.

(** [const formData = new FormData(); formData.append('file', file);]
    and a fetch with no [headers] at all. *)
Definition predictVideo (file : File) : Async JsValue :=
  let formData := [("file", file)] in
  try_catch
    (response ← fetch {|
       req_url := API_BASE_URL +:+ "/predict";
       req_method := Some "POST";
       req_headers := [];
       req_body := Some (BodyFormData formData) |};
     json_or_throw_status response)
    (fun error => Fulfil (JObj (error_result error "Prediction failed"))).

(** Default parameters: [datasetPath = '../UADFV'], [epochs = 30]. *)
Definition trainModel (datasetPath : option string) (epochs : option Number) : Async JsValue :=
  let datasetPath := default "../UADFV" datasetPath in
  let epochs := default (num_of_Z 30) epochs in
  makeRequest "/train"
    {| init_method := Some "POST";
       init_headers := None;
       init_body := json_body [("dataset_path", JStr datasetPath); ("epochs", JNum epochs)] |}.

Definition loadModel (modelPath : option string) : Async JsValue :=
  let modelPath := default "models/deepfake_model_50e.h5" modelPath in
  makeRequest "/load-model"
    {| init_method := Some "POST";
       init_headers := None;
       init_body := json_body [("model_path", JStr modelPath)] |}.

Definition getModelInfo : Async JsValue := makeRequest "/model-info" no_options.

Definition evaluateModel (datasetPath : option string) : Async JsValue :=
  let datasetPath := default "../UADFV" datasetPath in
  makeRequest "/evaluate"
    {| init_method := Some "POST";
       init_headers := None;
       init_body := json_body [("dataset_path", JStr datasetPath)] |}.

End DeepfakeApiService.
End DeepfakeApi.

(** ** AnalysesApiService (services/analysesApi.ts) *)

Module AnalysesApi.
Section AnalysesApiService.
Context `{NumberOps} `{!Engine}.

Record CreateAnalysisRequest := {
  user_id : string;
  file_name : string;
  prediction : string;
  confidence : Number;
  processing_time : option Number
}.

Definition CreateAnalysisRequest_fields (d : CreateAnalysisRequest) : list (string * JsValue) :=
  [("user_id", JStr (user_id d)); ("file_name", JStr (file_name d));
   ("prediction", JStr (prediction d)); ("confidence", JNum (confidence d))]
  ++ optional_field "processing_time" JNum (processing_time d).

Definition createAnalysis (data : CreateAnalysisRequest) : Async JsValue :=
  try_catch
    (response ← fetch {|
       req_url := API_BASE_URL +:+ "/analyses";
       req_method := Some "POST";
       req_headers := json_headers;
       req_body := json_body (CreateAnalysisRequest_fields data) |};
     json_or_throw_body response)
    (fun error => Fulfil (JObj (error_result error "Failed to record analysis"))).

End AnalysesApiService.
End AnalysesApi.

(** ** ReportsApiService (services/reportsApi.ts) *)

Module ReportsApi.
Section ReportsApiService.
Context `{NumberOps} `{!Engine}.

Record CreateReportRequest := {
  user_id : string;
  file_name : string;
  prediction : string;
  confidence : Number;
  frames_analyzed : option Number;
  report_url : string;
  model_version : option string
}.

Definition CreateReportRequest_fields (d : CreateReportRequest) : list (string * JsValue) :=
  [("user_id", JStr (user_id d)); ("file_name", JStr (file_name d));
   ("prediction", JStr (prediction d)); ("confidence", JNum (confidence d))]
  ++ optional_field "frames_analyzed" JNum (frames_analyzed d)
  ++ [("report_url", JStr (report_url d))]
  ++ optional_field "model_version" JStr (model_version d).

Definition getUserReports (userId : string) : Async JsValue :=
  try_catch
    (response ← fetch {|
       req_url := API_BASE_URL +:+ "/reports/" +:+ userId;
       req_method := Some "GET";
       req_headers := json_headers;
       req_body := None |};
     json_or_throw_status response)
    (fun error => Fulfil (JObj (error_result error "Failed to fetch reports"))).

Definition getAllReports (userId : string) : Async JsValue :=
  try_catch
    (response ← fetch {|
       req_url := API_BASE_URL +:+ "/reports?user_id=" +:+ userId;
       req_method := Some "GET";
       req_headers := json_headers;
       req_body := None |};
     json_or_throw_status response)
    (fun error => Fulfil (JObj (error_result error "Failed to fetch reports"))).

Definition createReport (data : CreateReportRequest) : Async JsValue :=
  try_catch
    (response ← fetch {|
       req_url := API_BASE_URL +:+ "/reports";
       req_method := Some "POST";
       req_headers := json_headers;
       req_body := json_body (CreateReportRequest_fields data) |};
     json_or_throw_body response)
    (fun error => Fulfil (JObj (error_result error "Failed to save report"))).

End ReportsApiService.
End ReportsApi.

(** ** HistoryApiService *)

Module HistoryApi.
Section HistoryApiService.
Context `{NumberOps} `{!Engine}.

Inductive ActionType := scan | news_view.

Definition ActionType_text (a : ActionType) : string :=
  match a with
  | scan => "scan"
  | news_view => "news_view"
  end.

Record CreateHistoryRequest := {
  user_id : string;
  action_type : ActionType;
  file_name : option string;
  prediction : option string;
  confidence : option Number;
  news_title : option string;
  news_url : option string;
  report_url : option string
}.

Definition CreateHistoryRequest_fields (d : CreateHistoryRequest) : list (string * JsValue) :=
  [("user_id", JStr (user_id d)); ("action_type", JStr (ActionType_text (action_type d)))]
  ++ optional_field "file_name" JStr (file_name d)
  ++ optional_field "prediction" JStr (prediction d)
  ++ optional_field "confidence" JNum (confidence d)
  ++ optional_field "news_title" JStr (news_title d)
  ++ optional_field "news_url" JStr (news_url d)
  ++ optional_field "report_url" JStr (report_url d).

Definition getHistory (userId : string) : Async JsValue :=
  try_catch
    (response ← fetch {|
       req_url := API_BASE_URL +:+ "/history/" +:+ userId;
       req_method := Some "GET";
       req_headers := json_headers;
       req_body := None |};
     json_or_throw_status response)
    (fun error => Fulfil (JObj (error_result error "Failed to fetch history"))).

Definition createHistory (data : CreateHistoryRequest) : Async JsValue :=
  try_catch
    (response ← fetch {|
       req_url := API_BASE_URL +:+ "/history";
       req_method := Some "POST";
       req_headers := json_headers;
       req_body := json_body (CreateHistoryRequest_fields data) |};
     json_or_throw_body response)
    (fun error => Fulfil (JObj (error_result error "Failed to record history"))).

End HistoryApiService.
End HistoryApi.

(** ** BlogsApiService (services/blogsApi.ts) *)

Module BlogsApi.
Section BlogsApiService.
Context `{NumberOps} `{!Engine}.

Definition getAllBlogs : Async JsValue :=
  try_catch
    (response ← fetch {|
       req_url := API_BASE_URL +:+ "/blogs";
       req_method := Some "GET";
       req_headers := json_headers;
       req_body := None |};
     json_or_throw_body response)
    (fun error => Fulfil (JObj (error_result error "Failed to fetch blogs"
                                 ++ [("blogs", JArr [])]))).

Definition getBlogById (blogId : string) : Async JsValue :=
  try_catch
    (response ← fetch {|
       req_url := API_BASE_URL +:+ "/blogs/" +:+ blogId;
       req_method := Some "GET";
       req_headers := json_headers;
       req_body := None |};
     json_or_throw_body response)
    (fun error => Fulfil (JObj (error_result error "Failed to fetch blog"))).

End BlogsApiService.
End BlogsApi.

(** ** ForumApiService *)

Module ForumApi.
Section ForumApiService.
Context `{NumberOps} `{!Engine}.

Inductive ForumTopic := Awareness | CyberSafety | AITechnology | LawPolicy | General.

(** [FORUM_TOPICS] *)
Definition ForumTopic_text (t : ForumTopic) : string :=
  match t with
  | Awareness => "Awareness"
  | CyberSafety => "Cyber Safety"
  | AITechnology => "AI Technology"
  | LawPolicy => "Law & Policy"
  | General => "General"
  end.

Definition makeRequest (endpoint : string) (options : RequestInit) : Async JsValue :=
  try_catch
    (response ← fetch (makeRequest_init (API_BASE_URL +:+ endpoint) options);
     json_or_throw_status response)
    (fun error => Fulfil (JObj (error_result error "Unknown error occurred"))).

(** [const params = new URLSearchParams();
     if (search) params.append('search', search);
     if (topic) params.append('topic', topic);
     const queryString = params.toString();
     const endpoint = `/forum/posts${queryString ? `?${queryString}` : ''}`;] *)
Definition getPosts_endpoint (search topic : option string) : string :=
  let params : list (string * string) :=
    ((if given search then [("search", default "" search)] else [])
     ++ (if given topic then [("topic", default "" topic)] else []))%list in
  let queryString := URLSearchParams_toString params in
  "/forum/posts" +:+ (if negb (String.eqb queryString "") then "?" +:+ queryString else "").

Definition getPosts (search topic : option string) : Async JsValue :=
  let endpoint := getPosts_endpoint search topic in
  try_catch
    (response ← fetch {|
       req_url := API_BASE_URL +:+ endpoint;
       req_method := Some "GET";
       req_headers := json_headers;
       req_body := None |};
     if negb (ok response) then
       errorText ← await_text response;
       Reject (new_Error (http_error_status response))
     else
       data ← await_json response;
       Fulfil data)
    (fun error => Fulfil (JObj
       (error_result error
          "Failed to connect to server. Please ensure the backend is running."
        ++ [("posts", JArr [])]))).

Definition createPost (user_id : string) (topic : ForumTopic) (content : string) : Async JsValue :=
  makeRequest "/forum/posts"
    {| init_method := Some "POST";
       init_headers := None;
       init_body := json_body [("user_id", JStr user_id);
                               ("topic", JStr (ForumTopic_text topic));
                               ("content", JStr content)] |}.

Definition likePost (post_id : string) : Async JsValue :=
  makeRequest ("/forum/posts/" +:+ post_id +:+ "/like")
    {| init_method := Some "PUT"; init_headers := None; init_body := None |}.

Definition deletePost (post_id user_id : string) : Async JsValue :=
  makeRequest ("/forum/posts/" +:+ post_id)
    {| init_method := Some "DELETE";
       init_headers := None;
       init_body := json_body [("user_id", JStr user_id)] |}.

Definition getComments (post_id : string) : Async JsValue :=
  makeRequest ("/forum/posts/" +:+ post_id +:+ "/comments")
    {| init_method := Some "GET"; init_headers := None; init_body := None |}.

Definition createComment (post_id user_id content : string) : Async JsValue :=
  makeRequest ("/forum/posts/" +:+ post_id +:+ "/comments")
    {| init_method := Some "POST";
       init_headers := None;
       init_body := json_body [("user_id", JStr user_id); ("content", JStr content)] |}.

Definition deleteComment (comment_id user_id : string) : Async JsValue :=
  makeRequest ("/forum/comments/" +:+ comment_id)
    {| init_method := Some "DELETE";
       init_headers := None;
       init_body := json_body [("user_id", JStr user_id)] |}.

End ForumApiService.
End ForumApi.

(** ** ProfileApiService *)

Module ProfileApi.
Section ProfileApiService.
Context `{NumberOps} `{!Engine}.

Record UpdateProfileData := {
  name : option string;
  password : option string;
  current_password : option string
}.

Definition UpdateProfileData_fields (d : UpdateProfileData) : list (string * JsValue) :=
  optional_field "name" JStr (name d)
  ++ optional_field "password" JStr (password d)
  ++ optional_field "current_password" JStr (current_password d).

Definition getProfile (userId : string) : Async JsValue :=
  try_catch
    (response ← fetch {|
       req_url := API_BASE_URL +:+ "/profile/" +:+ userId;
       req_method := Some "GET";
       req_headers := json_headers;
       req_body := None |};
     json_or_throw_body response)
    (fun error => Fulfil (JObj (error_result error "Failed to fetch profile"))).

Definition updateProfile (userId : string) (data : UpdateProfileData) : Async JsValue :=
  try_catch
    (response ← fetch {|
       req_url := API_BASE_URL +:+ "/profile/" +:+ userId;
       req_method := Some "PUT";
       req_headers := json_headers;
       req_body := json_body (UpdateProfileData_fields data) |};
     json_or_throw_body response)
    (fun error => Fulfil (JObj (error_result error "Failed to update profile"))).

(** The declared types of what the methods resolve with. *)

Record UserProfile := {
  id : string;
  email : string;
  profile_name : string;
  role : Role;
  created_at : string;
  last_login : string;
  total_analyses : Number;
  total_reports : Number
}.

Record ProfileResponse := {
  status : Status;
  profile : option UserProfile;
  message : option string
}.

(** [{ status: 'success' | 'error'; message?: string }] *)
Record UpdateResponse := {
  update_status : Status;
  update_message : option string
}.

End ProfileApiService.
End ProfileApi.

(** ** DashboardApiService *)

Module DashboardApi.

Inductive NotificationType := alert | update | warning | info.

Record Notification := {
  id : string;
  title : string;
  message : string;
  type : NotificationType;
  timestamp : string;
  is_read : bool
}.

Record NotificationsResponse := {
  status : Status;
  notifications : option (list Notification);
  response_message : option string
}.

Section DashboardApiService.
Context `{NumberOps} `{!Engine}.

(** The object [getDashboard] builds from the parsed body [data]. *)
Definition getDashboard_result (data : JsValue) : Thrown + JsValue :=
  match get_prop data "status" with
  | inl e => inl e
  | inr data_status =>
      inr (JObj
        [("status", data_status);
         ("data",
          if is_string data_status "success" then
            JObj [("totalAnalyses", get_prop_opt data "totalAnalyses");
                  ("deepfakesDetected", get_prop_opt data "deepfakesDetected");
                  ("accuracyRate", get_prop_opt data "accuracyRate");
                  ("avgProcessingTime", get_prop_opt data "avgProcessingTime");
                  ("recentAnalyses", js_or (get_prop_opt data "recentAnalyses") (JArr []));
                  ("notifications", js_or (get_prop_opt data "notifications") (JArr []))]
          else JUndefined);
         ("message", get_prop_opt data "message")])
  end.

Definition getDashboard (userId : string) : Async JsValue :=
  try_catch
    (response ← fetch {|
       req_url := API_BASE_URL +:+ "/dashboard/" +:+ userId;
       req_method := Some "GET";
       req_headers := json_headers;
       req_body := None |};
     if negb (ok response) then Reject (new_Error (http_error_status response))
     else
       data ← await_json response;
       eval (getDashboard_result data))
    (fun error => Fulfil (JObj (error_result error "Failed to fetch dashboard data"))).

Definition getNotifications (userId : string) : Async JsValue :=
  try_catch
    (response ← fetch {|
       req_url := API_BASE_URL +:+ "/notifications/" +:+ userId;
       req_method := Some "GET";
       req_headers := json_headers;
       req_body := None |};
     json_or_throw_status response)
    (fun error => Fulfil (JObj (error_result error "Failed to fetch notifications"))).

Definition markNotificationRead (notificationId userId : string) : Async JsValue :=
  try_catch
    (response ← fetch {|
       req_url := API_BASE_URL +:+ "/notifications/" +:+ notificationId;
       req_method := Some "PATCH";
       req_headers := json_headers;
       req_body := json_body [("user_id", JStr userId)] |};
     json_or_throw_body response)
    (fun error => Fulfil (JObj (error_result error "Failed to update notification"))).

End DashboardApiService.
End DashboardApi.

(** ** Every method of the ten service classes, as one call *)

Section Calls.
Context `{NumberOps} `{!Engine}.

Inductive ApiCall : Type :=
| Admin_resetUserData (userId : string)
| Admin_getAllUsers (adminId : string)
| Admin_getUserDetails (userId adminId : string)
| Admin_resetUserDataSingle (userId adminId : string)
| Admin_deleteUser (userId adminId : string)
| Admin_getAllReports (adminId : string) (filters : option AdminApi.ReportFilters)
| Admin_deleteReport (reportId adminId : string)
| Support_createExpertRequest (request : SupportApi.ExpertRequest)
| Support_createComplaint (complaint : SupportApi.Complaint)
| Support_trackComplaint (id email : option string)
| Support_subscribeNewsletter (subscription : SupportApi.Subscription)
| Support_getDailyTips
| Deepfake_makeRequest (endpoint : string) (options : RequestInit)
| Deepfake_healthCheck
| Deepfake_predictVideo (file : File)
| Deepfake_trainModel (datasetPath : option string) (epochs : option Number)
| Deepfake_loadModel (modelPath : option string)
| Deepfake_getModelInfo
| Deepfake_evaluateModel (datasetPath : option string)
| Analyses_createAnalysis (data : AnalysesApi.CreateAnalysisRequest)
| Reports_getUserReports (userId : string)
| Reports_getAllReports (userId : string)
| Reports_createReport (data : ReportsApi.CreateReportRequest)
| History_getHistory (userId : string)
| History_createHistory (data : HistoryApi.CreateHistoryRequest)
| Blogs_getAllBlogs
| Blogs_getBlogById (blogId : string)
| Forum_makeRequest (endpoint : string) (options : RequestInit)
| Forum_getPosts (search topic : option string)
| Forum_createPost (user_id : string) (topic : ForumApi.ForumTopic) (content : string)
| Forum_likePost (post_id : string)
| Forum_deletePost (post_id user_id : string)
| Forum_getComments (post_id : string)
| Forum_createComment (post_id user_id content : string)
| Forum_deleteComment (comment_id user_id : string)
| Profile_getProfile (userId : string)
| Profile_updateProfile (userId : string) (data : ProfileApi.UpdateProfileData)
| Dashboard_getDashboard (userId : string)
| Dashboard_getNotifications (userId : string)
| Dashboard_markNotificationRead (notificationId userId : string).

Definition perform (c : ApiCall) : Async JsValue :=
  match c with
  | Admin_resetUserData userId => AdminApi.resetUserData userId
  | Admin_getAllUsers adminId => AdminApi.getAllUsers adminId
  | Admin_getUserDetails userId adminId => AdminApi.getUserDetails userId adminId
  | Admin_resetUserDataSingle userId adminId => AdminApi.resetUserDataSingle userId adminId
  | Admin_deleteUser userId adminId => AdminApi.deleteUser userId adminId
  | Admin_getAllReports adminId filters => AdminApi.getAllReports adminId filters
  | Admin_deleteReport reportId adminId => AdminApi.deleteReport reportId adminId
  | Support_createExpertRequest request => SupportApi.createExpertRequest request
  | Support_createComplaint complaint => SupportApi.createComplaint complaint
  | Support_trackComplaint id email => SupportApi.trackComplaint id email
  | Support_subscribeNewsletter subscription => SupportApi.subscribeNewsletter subscription
  | Support_getDailyTips => SupportApi.getDailyTips
  | Deepfake_makeRequest endpoint options => DeepfakeApi.makeRequest endpoint options
  | Deepfake_healthCheck => DeepfakeApi.healthCheck
  | Deepfake_predictVideo file => DeepfakeApi.predictVideo file
  | Deepfake_trainModel datasetPath epochs => DeepfakeApi.trainModel datasetPath epochs
  | Deepfake_loadModel modelPath => DeepfakeApi.loadModel modelPath
  | Deepfake_getModelInfo => DeepfakeApi.getModelInfo
  | Deepfake_evaluateModel datasetPath => DeepfakeApi.evaluateModel datasetPath
  | Analyses_createAnalysis data => AnalysesApi.createAnalysis data
  | Reports_getUserReports userId => ReportsApi.getUserReports userId
  | Reports_getAllReports userId => ReportsApi.getAllReports userId
  | Reports_createReport data => ReportsApi.createReport data
  | History_getHistory userId => HistoryApi.getHistory userId
  | History_createHistory data => HistoryApi.createHistory data
  | Blogs_getAllBlogs => BlogsApi.getAllBlogs
  | Blogs_getBlogById blogId => BlogsApi.getBlogById blogId
  | Forum_makeRequest endpoint options => ForumApi.makeRequest endpoint options
  | Forum_getPosts search topic => ForumApi.getPosts search topic
  | Forum_createPost user_id topic content => ForumApi.createPost user_id topic content
  | Forum_likePost post_id => ForumApi.likePost post_id
  | Forum_deletePost post_id user_id => ForumApi.deletePost post_id user_id
  | Forum_getComments post_id => ForumApi.getComments post_id
  | Forum_createComment post_id user_id content => ForumApi.createComment post_id user_id content
  | Forum_deleteComment comment_id user_id => ForumApi.deleteComment comment_id user_id
  | Profile_getProfile userId => ProfileApi.getProfile userId
  | Profile_updateProfile userId data => ProfileApi.updateProfile userId data
  | Dashboard_getDashboard userId => DashboardApi.getDashboard userId
  | Dashboard_getNotifications userId => DashboardApi.getNotifications userId
  | Dashboard_markNotificationRead notificationId userId =>
      DashboardApi.markNotificationRead notificationId userId
  end.

(** [private static]: reachable only through the public methods of its
    class. *)
Definition is_private (c : ApiCall) : bool :=
  match c with
  | Deepfake_makeRequest _ _ | Forum_makeRequest _ _ => true
  | _ => false
  end.

(** The one method that uploads a file. *)
Definition uploads_a_file (c : ApiCall) : bool :=
  match c with
  | Deepfake_predictVideo _ => true
  | _ => false
  end.

(** The fetch did not deliver an [ok] response. *)
Definition fetch_failed (o : FetchOutcome) : bool :=
  match o with
  | Rejects _ => true
  | Resolves response => negb (ok response)
  end.

(** What a method does with a response that is not ok before it throws
    the [Error] that its [catch] reports: it reads [message] from the
    parsed body, it reads the body as text, or it reads nothing. *)
Inductive ErrorBody := parsed_message | text_read | not_read.

Definition error_body (c : ApiCall) : ErrorBody :=
  match c with
  | Deepfake_makeRequest _ _ | Deepfake_healthCheck | Deepfake_predictVideo _
  | Deepfake_trainModel _ _ | Deepfake_loadModel _ | Deepfake_getModelInfo
  | Deepfake_evaluateModel _
  | Reports_getUserReports _ | Reports_getAllReports _ | History_getHistory _
  | Forum_makeRequest _ _ | Forum_createPost _ _ _ | Forum_likePost _
  | Forum_deletePost _ _ | Forum_getComments _ | Forum_createComment _ _ _
  | Forum_deleteComment _ _
  | Dashboard_getDashboard _ | Dashboard_getNotifications _ => not_read
  | Forum_getPosts _ _ => text_read
  | _ => parsed_message
  end.

(** The text a method's [catch] reports for a thrown value that is no
    [Error]. *)
Definition fallback_text (c : ApiCall) : string :=
  match c with
  | Admin_resetUserData _ | Admin_resetUserDataSingle _ _ => "Failed to reset user data"
  | Admin_getAllUsers _ => "Failed to fetch users"
  | Admin_getUserDetails _ _ => "Failed to fetch user details"
  | Admin_deleteUser _ _ => "Failed to delete user"
  | Admin_getAllReports _ _ => "Failed to fetch reports"
  | Admin_deleteReport _ _ => "Failed to delete report"
  | Support_createExpertRequest _ => "Failed to create expert request"
  | Support_createComplaint _ => "Failed to create complaint"
  | Support_trackComplaint _ _ => "Failed to track complaint"
  | Support_subscribeNewsletter _ => "Failed to subscribe"
  | Support_getDailyTips => "Failed to fetch daily tips"
  | Deepfake_predictVideo _ => "Prediction failed"
  | Deepfake_makeRequest _ _ | Deepfake_healthCheck | Deepfake_trainModel _ _
  | Deepfake_loadModel _ | Deepfake_getModelInfo | Deepfake_evaluateModel _ =>
      "Unknown error occurred"
  | Analyses_createAnalysis _ => "Failed to record analysis"
  | Reports_getUserReports _ | Reports_getAllReports _ => "Failed to fetch reports"
  | Reports_createReport _ => "Failed to save report"
  | History_getHistory _ => "Failed to fetch history"
  | History_createHistory _ => "Failed to record history"
  | Blogs_getAllBlogs => "Failed to fetch blogs"
  | Blogs_getBlogById _ => "Failed to fetch blog"
  | Forum_getPosts _ _ =>
      "Failed to connect to server. Please ensure the backend is running."
  | Forum_makeRequest _ _ | Forum_createPost _ _ _ | Forum_likePost _
  | Forum_deletePost _ _ | Forum_getComments _ | Forum_createComment _ _ _
  | Forum_deleteComment _ _ => "Unknown error occurred"
  | Profile_getProfile _ => "Failed to fetch profile"
  | Profile_updateProfile _ _ => "Failed to update profile"
  | Dashboard_getDashboard _ => "Failed to fetch dashboard data"
  | Dashboard_getNotifications _ => "Failed to fetch notifications"
  | Dashboard_markNotificationRead _ _ => "Failed to update notification"
  end.

(** The messages the claim gives a failed call, to be compared with
    what the methods return. The text that names the HTTP status: *)
Definition http_error_text (response : Response) : string :=
  "HTTP error! status: " +:+ nat_to_string (status response).

(** For a method that reads the parsed body of a response that is not
    ok: the body's [message] when that is truthy, converted to a string
    (or the engine's text when it has no string form, or when the body is
    [null] and has no members to read), and the text that names the
    status otherwise, also when the body cannot be parsed. *)
Definition parsed_message_text (response : Response) : string :=
  match body_json response with
  | inl _ => http_error_text response
  | inr (JObj fields) =>
      match lookup_field "message" fields with
      | Some v =>
          if truthy v then default typeError_to_primitive (ToString v)
          else http_error_text response
      | None => http_error_text response
      end
  | inr JNull | inr JUndefined => typeError_read_property "message"
  | inr _ => http_error_text response
  end.

(** For a fetch that rejects: the message of the [Error] it rejects
    with, or the method's fallback text. For a response that is not ok:
    the text that names the status, or the text read from the parsed
    body; [getPosts] reports the error of a [response.text()] that
    rejects. *)
Definition reported_text (c : ApiCall) (o : FetchOutcome) : string :=
  match o with
  | Rejects e => message_of e (fallback_text c)
  | Resolves response =>
      match error_body c with
      | not_read => http_error_text response
      | text_read =>
          match body_text response with
          | inl e => message_of e (fallback_text c)
          | inr _ => http_error_text response
          end
      | parsed_message => parsed_message_text response
      end
  end.

(** The failures whose message is not empty whatever the engine: all
    but an [Error] with an empty message (of the fetch, or of
    [response.text()] in [getPosts]) and, for a method that reads the
    parsed body, a truthy [message] other than a string, [true] or an
    object without a [toString] member (a list may convert to the empty
    string; numbers and the engine's own messages are the engine's), or a
    body that is [null]. *)
Definition failure_has_text (c : ApiCall) (o : FetchOutcome) : bool :=
  match o with
  | Rejects (ErrorObj m) => negb (String.eqb m "")
  | Rejects (NonError _) => true
  | Resolves response =>
      match error_body c with
      | not_read => true
      | text_read =>
          match body_text response with
          | inl (ErrorObj m) => negb (String.eqb m "")
          | _ => true
          end
      | parsed_message =>
          match body_json response with
          | inr (JObj fields) =>
              match lookup_field "message" fields with
              | None | Some (JStr _) | Some (JBool _) => true
              | Some (JObj inner) =>
                  match lookup_field "toString" inner with
                  | Some _ => false
                  | None => true
                  end
              | Some v => negb (truthy v)
              end
          | inr JNull | inr JUndefined => false
          | _ => true
          end
      end
  end.

(** The failures whose message is the empty string: an [Error] with
    an empty message was caught (of the fetch, or of [response.text()]
    in [getPosts]), or a method that reads the parsed body found a
    truthy [message] there that converts to the empty string, as a list
    can. *)
Definition reports_nothing (c : ApiCall) (o : FetchOutcome) : bool :=
  match o with
  | Rejects (ErrorObj m) => String.eqb m ""
  | Rejects (NonError _) => false
  | Resolves response =>
      match error_body c with
      | not_read => false
      | text_read =>
          match body_text response with
          | inl (ErrorObj m) => String.eqb m ""
          | _ => false
          end
      | parsed_message =>
          match body_json response with
          | inr (JObj fields) =>
              match lookup_field "message" fields with
              | Some (JArr items) =>
                  match ToString (JArr items) with
                  | Some shown => String.eqb shown ""
                  | None => false
                  end
              | _ => false
              end
          | _ => false
          end
      end
  end.

(** The texts of the engine's own are not empty: the decimal text of a
    number, as the language defines it, and the messages of the two
    [TypeError]s, as the browsers word them. *)
Definition engine_texts_not_empty : Prop :=
  (forall n : Number, num_toString n <> "")
  /\ typeError_to_primitive <> ""
  /\ (forall k : string, typeError_read_property k <> "").

(** The members [status] and [message] of a returned object. *)
Definition result_status (v : JsValue) : JsValue := get_prop_opt v "status".
Definition result_message (v : JsValue) : JsValue := get_prop_opt v "message".

End Calls.

(** ** AuthProvider (contexts/AuthContext): the session kept in localStorage *)

Module AuthContext.

(** [interface User]: the type under which the components read the
    context's user. *)
Record User := {
  id : string;
  email : string;
  role : Role;
  name : option string
}.

(** [user?.id] as a condition: a user with a non-empty id. *)
Definition has_id (u : option User) : bool :=
  match u with
  | Some u => negb (String.eqb (id u) "")
  | None => false
  end.

Section AuthProvider.
Context `{NumberOps} `{!Engine}.

(** sonner's [toast.success] and [toast.error] *)
Inductive Toast : Type :=
| toast_success (text : string)
| toast_error (text : JsValue).

(** The provider's state hooks together with the browser's
    localStorage. [user] holds what [setUser] was given: the [user]
    member of a parsed JSON text, or [null]. *)
Record State := {
  user : JsValue;
  isLoading : bool;
  localStorage : gmap string string;
  toasts : list Toast
}.

Definition setUser (v : JsValue) (st : State) : State :=
  {| user := v; isLoading := isLoading st;
     localStorage := localStorage st; toasts := toasts st |}.

Definition setIsLoading (b : bool) (st : State) : State :=
  {| user := user st; isLoading := b;
     localStorage := localStorage st; toasts := toasts st |}.

Definition localStorage_setItem (k v : string) (st : State) : State :=
  {| user := user st; isLoading := isLoading st;
     localStorage := <[k := v]> (localStorage st); toasts := toasts st |}.

Definition localStorage_removeItem (k : string) (st : State) : State :=
  {| user := user st; isLoading := isLoading st;
     localStorage := delete k (localStorage st); toasts := toasts st |}.

Definition show (t : Toast) (st : State) : State :=
  {| user := user st; isLoading := isLoading st;
     localStorage := localStorage st; toasts := toasts st ++ [t] |}.

(** [const isAuthenticated = !!user] *)
Definition isAuthenticated (st : State) : bool := truthy (user st).

(** [const isAdmin = user?.role === "admin"] *)
Definition isAdmin (st : State) : bool := is_string (get_prop_opt (user st) "role") "admin".

(** [localStorage.removeItem("authSession"); setUser(null)] *)
Definition clear_session (st : State) : State :=
  setUser JNull (localStorage_removeItem "authSession" st).

(** The arguments of the verify fetch; the template literal
    [`Bearer ${session.token}`] converts the token to a string. *)
Definition verify_request (session : JsValue) : Thrown + Request :=
  match ToString (get_prop_opt session "token") with
  | None => inl (ErrorObj typeError_to_primitive)
  | Some token =>
      inr {| req_url := API_BASE_URL +:+ "/auth/verify";
             req_method := Some "POST";
             req_headers := [("Content-Type", "application/json");
                             ("Authorization", "Bearer " +:+ token)];
             req_body := json_body [("token", get_prop_opt session "token")] |}
  end.

(** [session?.loggedIn && session?.user && session?.token] as a condition *)
Definition session_usable (session : JsValue) : bool :=
  truthy (get_prop_opt session "loggedIn")
  && truthy (get_prop_opt session "user")
  && truthy (get_prop_opt session "token").

Definition checkAuth (st : State) : Async State :=
  (* finally { setIsLoading(false) } *)
  let finally := setIsLoading false in
  match localStorage st !! "authSession" with
  | None =>
      (* getItem returned null: if (!sessionRaw) { setIsLoading(false); return } *)
      Fulfil (finally (setIsLoading false st))
  | Some sessionRaw =>
      if String.eqb sessionRaw "" then
        Fulfil (finally (setIsLoading false st))
      else
        match JSON_parse sessionRaw with
        | None =>
            (* catch (error) of the outer try *)
            Fulfil (finally (clear_session st))
        | Some session =>
            if session_usable session then
              st' ← try_catch
                (request ← eval (verify_request session);
                 response ← fetch request;
                 if ok response then
                   data ← await_json response;
                   data_status ← eval (get_prop data "status");
                   if is_string data_status "success"
                   then Fulfil (setUser (get_prop_opt session "user") st)
                   else Fulfil (clear_session st)
                 else Fulfil (clear_session st))
                (* If verify endpoint doesn't exist yet, use stored session *)
                (fun error => Fulfil (setUser (get_prop_opt session "user") st));
              Fulfil (finally st')
            else Fulfil (finally (clear_session st))
        end
  end.

(** [createdAt: Date.now()] is the argument [now]. *)
Definition login (now : Number) (email password : string) (st : State)
  : Async (bool * State) :=
  try_catch
    (response ← fetch {|
       req_url := API_BASE_URL +:+ "/auth/login";
       req_method := Some "POST";
       req_headers := json_headers;
       req_body := json_body [("email", JStr email); ("password", JStr password)] |};
     data ← await_json response;
     data_status ← eval (get_prop data "status");
     let data_user := get_prop_opt data "user" in
     let data_token := get_prop_opt data "token" in
     if is_string data_status "success" && truthy data_user && truthy data_token then
       let session := JObj [("loggedIn", JBool true); ("user", data_user);
                            ("token", data_token); ("createdAt", JNum now)] in
       let st := localStorage_setItem "authSession" (JSON_stringify session) st in
       let st := setUser data_user st in
       let st := show (toast_success "Login successful! Redirecting…") st in
       Fulfil (true, st)
     else
       let text := js_or (get_prop_opt data "message") (JStr "Invalid email or password.") in
       Fulfil (false, show (toast_error text) st))
    (fun error =>
       Fulfil (false, show (toast_error (JStr "Failed to connect to server. Please try again.")) st)).

Definition logout (st : State) : State :=
  let st := localStorage_removeItem "authSession" st in
  let st := setUser JNull st in
  show (toast_success "Logged out successfully") st.

(** What [checkAuth] leaves behind for a stored text that is given and
    not empty: the stored user is taken over, or the session is
    cleared. *)
Definition session_taken_over (session : JsValue) (st st' : State) : Prop :=
  user st' = get_prop_opt session "user" /\ localStorage st' = localStorage st.

Definition session_cleared (st st' : State) : Prop :=
  user st' = JNull /\ localStorage st' = delete "authSession" (localStorage st).

Definition session_untouched (st st' : State) : Prop :=
  user st' = user st /\ localStorage st' = localStorage st.

End AuthProvider.
End AuthContext.

(** ** The browser's interval timers *)

(** The functions the components hand to [setInterval]. *)
Inductive Callback : Type :=
| fetchNotifications
| fetchDashboardData
| fetchPosts
| uploadProgressTick (file : File).

Record Timer := {
  timer_id : nat;
  timer_delay : Z;      (* milliseconds *)
  timer_callback : Callback
}.

Record Timers := {
  next_id : nat;
  active : list Timer
}.

Definition setInterval (callback : Callback) (delay : Z) (ts : Timers) : nat * Timers :=
  (next_id ts,
   {| next_id := S (next_id ts);
      active := active ts ++ [{| timer_id := next_id ts;
                                 timer_delay := delay;
                                 timer_callback := callback |}] |}).

Definition clearInterval (interval : nat) (ts : Timers) : Timers :=
  {| next_id := next_id ts;
     active := List.filter (fun t => negb (Nat.eqb (timer_id t) interval)) (active ts) |}.

(** How often an active timer has run its callback once [elapsed]
    milliseconds have passed since it was set. *)
Definition firings (t : Timer) (elapsed : Z) : Z := elapsed / timer_delay t.

(** Handles are handed out in increasing order. *)
Definition timers_wf (ts : Timers) : Prop :=
  Forall (fun t => timer_id t < next_id ts) (active ts).

(** What running a [useEffect] body does: the functions it calls at
    once, the timers afterwards, and the cleanup it returns. *)
Record EffectRun := {
  called : list Callback;
  timers : Timers;
  cleanup : option (Timers -> Timers)
}.

(** A polling effect that sets one timer for [callback] every [delay]
    milliseconds, calls [callback] at once, and returns a cleanup that
    cancels that timer. *)
Definition polls (callback : Callback) (delay : Z) (ts : Timers) (effect : EffectRun) : Prop :=
  called effect = [callback]
  /\ active (timers effect)
     = active ts ++ [{| timer_id := next_id ts; timer_delay := delay;
                        timer_callback := callback |}]
  /\ (forall k : Z, (0 <= k)%Z ->
        firings {| timer_id := next_id ts; timer_delay := delay;
                   timer_callback := callback |} (delay * k) = k)
  /\ exists cancel, cleanup effect = Some cancel
       /\ active (cancel (timers effect)) = active ts.

(** ** AppHeader *)

Module AppHeader.
Import DashboardApi.

Record State := {
  notifications : list Notification;
  unreadCount : Z
}.

(** [useEffect(() => { if (user?.id && isAuthenticated) { ... } },
     [user, isAuthenticated])] *)
Definition polling_effect (user : option AuthContext.User) (isAuthenticated : bool)
    (ts : Timers) : EffectRun :=
  if AuthContext.has_id user && isAuthenticated then
    let '(interval, ts') := setInterval fetchNotifications 30000 ts in
    {| called := [fetchNotifications];
       timers := ts';
       cleanup := Some (clearInterval interval) |}
  else {| called := []; timers := ts; cleanup := None |}.

(** The state updates of [fetchNotifications] for a response. *)
Definition fetchNotifications_update (response : NotificationsResponse) (st : State) : State :=
  match status response, DashboardApi.notifications response with
  | success, Some received =>
      {| notifications := firstn 5 received;
         unreadCount :=
           Z.of_nat (length (List.filter (fun n => negb (is_read n)) received)) |}
  | _, _ => st
  end.

(** [n.id === notificationId ? { ...n, is_read: true } : n] *)
Definition mark (notificationId : string) (n : Notification) : Notification :=
  if String.eqb (id n) notificationId then
    {| id := id n; title := title n; message := message n; type := type n;
       timestamp := timestamp n; is_read := true |}
  else n.

(** [setNotifications(prev => prev.map(...));
     setUnreadCount(prev => Math.max(0, prev - 1))]: both updaters,
    applied to the state current when they run. *)
Definition mark_as_read_update (notificationId : string) (prev : State) : State :=
  {| notifications := map (mark notificationId) (notifications prev);
     unreadCount := Z.max 0 (unreadCount prev - 1) |}.

Section Handlers.
Context `{NumberOps} `{!Engine}.

(** The async handler settles with the state update it has queued. *)
Definition handleMarkAsRead (user : option AuthContext.User) (notificationId : string)
  : Async (State -> State) :=
  match user with
  | Some u =>
      if negb (String.eqb (AuthContext.id u) "") then
        try_catch
          (_ ← markNotificationRead notificationId (AuthContext.id u);
           Fulfil (mark_as_read_update notificationId))
          (fun error => Fulfil (fun prev => prev))
      else Fulfil (fun prev => prev)
  | None => Fulfil (fun prev => prev)
  end.

End Handlers.
End AppHeader.

(** ** useToast() notices and sonner toasts of the pages *)

Inductive Notice : Type :=
| toast (title description variant : string)
| sonner_success (text : string)
| sonner_error (text : string) (description : option string).

(** ** Dashboard *)

Module Dashboard.

(** [useEffect(() => { if (user?.id) { ... } }, [user])] *)
Definition polling_effect (user : option AuthContext.User) (ts : Timers) : EffectRun :=
  if AuthContext.has_id user then
    let '(interval, ts') := setInterval fetchDashboardData 30000 ts in
    {| called := [fetchDashboardData];
       timers := ts';
       cleanup := Some (clearInterval interval) |}
  else {| called := []; timers := ts; cleanup := None |}.

Definition allowedTypes : list string :=
  ["video/mp4"; "video/avi"; "video/mov"; "video/webm"; "video/quicktime"].

(** [allowedTypes.includes(file.type)] *)
Definition includes (l : list string) (x : string) : bool :=
  existsb (String.eqb x) l.

(** [500 * 1024 * 1024] *)
Definition maxSize : Z := 500 * 1024 * 1024.

Section Upload.
Context `{NumberOps}.

(** The state hooks the upload path touches, the page's notices and
    the browser's timers. *)
Record State := {
  uploading : bool;
  selectedFile : option File;
  uploadProgress : Z;
  predictionResult : option DeepfakeApi.PredictionResult;
  notices : list Notice;
  page_timers : Timers
}.

Definition notify (n : Notice) (st : State) : State :=
  {| uploading := uploading st; selectedFile := selectedFile st;
     uploadProgress := uploadProgress st;
     predictionResult := predictionResult st;
     notices := notices st ++ [n]; page_timers := page_timers st |}.

(** The synchronous part of [startUpload]: three state updates and the
    timer that simulates the upload's progress. *)
Definition startUpload (file : File) (st : State) : State :=
  let '(interval, ts) := setInterval (uploadProgressTick file) 200 (page_timers st) in
  {| uploading := true;
     selectedFile := selectedFile st;
     uploadProgress := 0;
     predictionResult := None;
     notices := notices st;
     page_timers := ts |}.

Definition setSelectedFile (file : File) (st : State) : State :=
  {| uploading := uploading st; selectedFile := Some file;
     uploadProgress := uploadProgress st;
     predictionResult := predictionResult st;
     notices := notices st; page_timers := page_timers st |}.

Definition handleFileSelect (file : File) (st : State) : State :=
  if negb (includes allowedTypes (file_type file)) then
    notify (toast "Invalid file type"
                  "Please select a video file (MP4, AVI, MOV, WebM)"
                  "destructive") st
  else if (file_size file >? maxSize)%Z then
    notify (toast "File too large"
                  "Please select a file smaller than 500MB"
                  "destructive") st
  else
    startUpload file (setSelectedFile file st).

End Upload.
End Dashboard.

(** ** UploadPage *)

Module UploadPage.
Section Validation.
Context `{NumberOps}.

Definition allowedTypes : list string :=
  ["video/mp4"; "video/avi"; "video/mov"; "video/webm"; "video/quicktime"].

Definition maxSize : Z := 500 * 1024 * 1024.

(** [null] is [None]. *)
Definition validateFile (file : File) : option string :=
  if negb (Dashboard.includes allowedTypes (file_type file)) then
    Some ("File type " +:+ file_type file
          +:+ " is not supported. Please use MP4, AVI, MOV, or WebM video files.")
  else if (file_size file >? maxSize)%Z then
    Some ("File size ("
          +:+ num_toFixed 1
                (num_div (num_div (num_of_Z (file_size file)) (num_of_Z 1024))
                         (num_of_Z 1024))
          +:+ "MB) exceeds the 500MB limit.")
  else None.

End Validation.
End UploadPage.

(** ** Forum *)

Module Forum.

(** [useEffect(() => { fetchPosts(); const interval =
     setInterval(fetchPosts, 10000); return () =>
     clearInterval(interval) }, [searchQuery, topicFilter])] *)
Definition polling_effect (ts : Timers) : EffectRun :=
  let '(interval, ts') := setInterval fetchPosts 10000 ts in
  {| called := [fetchPosts];
     timers := ts';
     cleanup := Some (clearInterval interval) |}.

End Forum.

(** ** Pages over the declared types of the services *)

(** A page handler awaits service methods and functions of its
    context; [Sv R] names such a call resolving with an [R]. The
    service methods never reject, they resolve with their declared
    response type. *)
Inductive Task (Sv : Type -> Type) (A : Type) : Type :=
| Done (a : A)
| Call {R : Type} (c : Sv R) (k : R -> Task Sv A).
Arguments Done {Sv A} a.
Arguments Call {Sv A R} c k.

Fixpoint task_bind {Sv A B} (m : Task Sv A) (f : A -> Task Sv B) : Task Sv B :=
  match m with
  | Done a => f a
  | Call c k => Call c (fun r => task_bind (k r) f)
  end.

(** Running a task against answers that depend on a state [S] (the
    server's, say); the calls made are recorded in order. *)
Fixpoint run_task {Sv : Type -> Type} {A S : Type}
    (answer : forall R, Sv R -> S -> R * S) (s : S) (m : Task Sv A)
  : A * list {R : Type & Sv R} * S :=
  match m with
  | Done a => (a, [], s)
  | Call c k =>
      let '(r, s') := answer _ c s in
      let '(a, calls, s'') := run_task answer s' (k r) in
      (a, existT _ c :: calls, s'')
  end.

(** ** Profile (pages/Profile.tsx) *)

Module Profile.

(** Characters of a regular-expression class [[lo-hi]] *)
Definition in_range (lo hi : ascii) (c : ascii) : bool :=
  (nat_of_ascii lo <=? nat_of_ascii c)%nat && (nat_of_ascii c <=? nat_of_ascii hi)%nat.

(** [.] does not match a line terminator. The line feed and the
    carriage return are single bytes; U+2028 and U+2029 are not, and as
    the tests below are tried at every index of the text, leaving them
    out of a match or not gives the same result
    ([lookahead_test_contains]). *)
Definition line_terminator (c : ascii) : bool :=
  Ascii.eqb c "010"%char || Ascii.eqb c "013"%char.

(** [.*[class]] matched at the start of [s]: a run of characters other
    than line terminators, then a character of the class. *)
Fixpoint dot_star_then (class : ascii -> bool) (s : string) : bool :=
  match s with
  | EmptyString => false
  | String c rest => class c || (negb (line_terminator c) && dot_star_then class rest)
  end.

(** [/(?=.*[class])/.test(s)]: the lookahead is tried at every index
    of [s], from the first to the one past the last. *)
Fixpoint lookahead_test (class : ascii -> bool) (s : string) : bool :=
  dot_star_then class s
  || match s with
     | EmptyString => false
     | String _ rest => lookahead_test class rest
     end.

(** [null] is [None]. *)
Definition validatePassword (password : string) : option string :=
  if (length_utf16 password <? 8)%nat then
    Some "Password must be at least 8 characters long"
  else if negb (lookahead_test (in_range "a" "z") password) then
    Some "Password must contain at least one lowercase letter"
  else if negb (lookahead_test (in_range "A" "Z") password) then
    Some "Password must contain at least one uppercase letter"
  else if negb (lookahead_test (in_range "0" "9") password) then
    Some "Password must contain at least one number"
  else None.

Section Page.
Context `{NumberOps}.
Import ProfileApi.

Inductive Service : Type -> Type :=
| ProfileApiService_getProfile (userId : string) : Service ProfileResponse
| ProfileApiService_updateProfile (userId : string) (data : UpdateProfileData)
    : Service UpdateResponse
| useAuth_checkAuth : Service unit.

(** The state hooks [fetchProfile] and [handleSave] read or write, and
    the page's notices; the flags that show or hide the password fields
    and [hasChanges] belong to the form's rendering. *)
Record State := {
  profile : option UserProfile;
  isLoading : bool;
  isSaving : bool;
  name : string;
  currentPassword : string;
  newPassword : string;
  confirmPassword : string;
  notices : list Notice
}.

Definition notify (n : Notice) (st : State) : State :=
  {| profile := profile st; isLoading := isLoading st; isSaving := isSaving st;
     name := name st; currentPassword := currentPassword st;
     newPassword := newPassword st; confirmPassword := confirmPassword st;
     notices := notices st ++ [n] |}.

Definition setIsLoading (b : bool) (st : State) : State :=
  {| profile := profile st; isLoading := b; isSaving := isSaving st;
     name := name st; currentPassword := currentPassword st;
     newPassword := newPassword st; confirmPassword := confirmPassword st;
     notices := notices st |}.

Definition setIsSaving (b : bool) (st : State) : State :=
  {| profile := profile st; isLoading := isLoading st; isSaving := b;
     name := name st; currentPassword := currentPassword st;
     newPassword := newPassword st; confirmPassword := confirmPassword st;
     notices := notices st |}.

(** [setProfile(response.profile); setName(response.profile.name)] *)
Definition setProfile_and_name (p : UserProfile) (st : State) : State :=
  {| profile := Some p; isLoading := isLoading st; isSaving := isSaving st;
     name := profile_name p; currentPassword := currentPassword st;
     newPassword := newPassword st; confirmPassword := confirmPassword st;
     notices := notices st |}.

(** [setCurrentPassword(""); setNewPassword(""); setConfirmPassword("")] *)
Definition reset_password_fields (st : State) : State :=
  {| profile := profile st; isLoading := isLoading st; isSaving := isSaving st;
     name := name st; currentPassword := ""; newPassword := "";
     confirmPassword := ""; notices := notices st |}.

(** [text || fallback] on an optional string member *)
Definition or_text (text : option string) (fallback : string) : string :=
  match text with
  | Some s => if String.eqb s "" then fallback else s
  | None => fallback
  end.

Definition validation_error (description : string) : Notice :=
  toast "Validation Error" description "destructive".

Definition fetchProfile (user : option AuthContext.User) (st : State) : Task Service State :=
  match user with
  | Some u =>
      if String.eqb (AuthContext.id u) "" then Done st
      else
        let st := setIsLoading true st in
        Call (ProfileApiService_getProfile (AuthContext.id u)) (fun response =>
          let st :=
            match status response, ProfileApi.profile response with
            | success, Some p => setProfile_and_name p st
            | _, _ =>
                notify (toast "Error"
                              (or_text (message response) "Failed to fetch profile")
                              "destructive") st
            end in
          Done (setIsLoading false st))
  | None => Done st
  end.

(** [const updateData: any = {}
     if (name !== profile.name) { updateData.name = name }
     if (newPassword && currentPassword) { ... }] *)
Definition updateData (p : UserProfile) (st : State) : UpdateProfileData :=
  let changing_password :=
    negb (String.eqb (newPassword st) "") && negb (String.eqb (currentPassword st) "") in
  {| ProfileApi.name :=
       if negb (String.eqb (name st) (profile_name p)) then Some (name st) else None;
     password := if changing_password then Some (newPassword st) else None;
     current_password := if changing_password then Some (currentPassword st) else None |}.

(** The checks before the request; [Some notice] when one of them
    returns early. *)
Definition password_check (st : State) : option Notice :=
  if negb (String.eqb (newPassword st) "")
     || negb (String.eqb (confirmPassword st) "")
     || negb (String.eqb (currentPassword st) "") then
    if String.eqb (currentPassword st) "" then
      Some (validation_error "Current password is required to change password")
    else if String.eqb (newPassword st) "" then
      Some (validation_error "New password is required")
    else if negb (String.eqb (newPassword st) (confirmPassword st)) then
      Some (validation_error "Passwords do not match")
    else
      match validatePassword (newPassword st) with
      | Some passwordError => Some (validation_error passwordError)
      | None => None
      end
  else None.

Definition handleSave (user : option AuthContext.User) (st : State) : Task Service State :=
  match user, profile st with
  | Some u, Some p =>
      if String.eqb (AuthContext.id u) "" then Done st
      else
        match password_check st with
        | Some notice => Done (notify notice st)
        | None =>
            let st := setIsSaving true st in
            Call (ProfileApiService_updateProfile (AuthContext.id u) (updateData p st))
              (fun response =>
                 match update_status response with
                 | success =>
                     let st := notify (sonner_success "✅ Profile updated successfully") st in
                     let st := notify (toast "Success" "Profile updated successfully"
                                             "default") st in
                     let st := reset_password_fields st in
                     task_bind (fetchProfile user st) (fun st =>
                     Call useAuth_checkAuth (fun _ =>
                     Done (setIsSaving false st)))
                 | error =>
                     (* throw new Error(response.message || "Failed to update profile"),
                        caught below *)
                     let text := or_text (update_message response)
                                         "Failed to update profile" in
                     let st := notify (sonner_error "❌ Failed to update profile"
                                                    (Some text)) st in
                     let st := notify (toast "Error" text "destructive") st in
                     Done (setIsSaving false st)
                 end)
        end
  | _, _ => Done st
  end.

End Page.
End Profile.

(** ** Text helpers of the export code *)

(** [parts.join(separator)] *)
Fixpoint join (separator : string) (parts : list string) : string :=
  match parts with
  | [] => ""
  | [part] => part
  | part :: rest => part +:+ separator +:+ join separator rest
  end.

(** [text.split(c)] for a one-character separator: the pieces between
    the occurrences of [c]; never empty. *)
Fixpoint split (c : ascii) (text : string) : list string :=
  match text with
  | EmptyString => [""]
  | String a rest =>
      if Ascii.eqb a c then "" :: split c rest
      else
        match split c rest with
        | piece :: pieces => String a piece :: pieces
        | [] => [String a ""]
        end
  end.

(** [text.split(c)[0]] *)
Definition first_piece (c : ascii) (text : string) : string :=
  match split c text with
  | piece :: _ => piece
  | [] => ""
  end.

(** The line feed of ['\n'] *)
Definition LF : ascii := "010"%char.

(** [haystack.includes(needle)] *)
Fixpoint string_includes (needle haystack : string) : bool :=
  String.prefix needle haystack
  || match haystack with
     | EmptyString => false
     | String _ rest => string_includes needle rest
     end.

(** ** A jsPDF document as the calls made on it *)

(** Which statement of [exportToPDF] wrote a text: the cells of the
    table carry the indices of the two [forEach] loops. *)
Inductive TextRole : Type :=
| role_title
| role_export_date
| role_summary
| role_column_header (i : nat)
| role_cell (index i : nat)
| role_note.

Inductive PdfCall : Type :=
| setFontSize (size : Z)
| setFont (style : string)
| text (role : TextRole) (content : string) (x y : Q) (centered : bool)
| addPage
| save (filename : string).

(** What an export hands to the browser. *)
Inductive Download : Type :=
| csv_file (filename mime content : string)
| pdf_file (document : list PdfCall).

(** ** AdminContent *)

Module AdminContent.
Section Page.
Context `{NumberOps} `{!Engine}.
Import AdminApi.

Inductive Service : Type -> Type :=
| AdminApiService_getAllReports (adminId : string) (filters : ReportFilters)
    : Service ReportsResponse
| AdminApiService_deleteReport (reportId adminId : string) : Service DeleteResponse.

(** The page's state hooks, its notices and the files it has handed
    to the browser. [statistics] is written by an effect that
    summarises [reports]; the exports only read it. The data prepared
    for the two charts is left out. *)
Record State := {
  reports : list Report;
  filteredReports : list Report;
  isLoading : bool;
  searchQuery : string;
  resultFilter : string;
  dateFrom : string;
  dateTo : string;
  selectedReport : option Report;
  showDeleteDialog : bool;
  isDeleting : bool;
  isExporting : bool;
  page_statistics : option Statistics;
  notices : list Notice;
  downloads : list Download
}.

Definition setReports (v : list Report) (st : State) : State :=
  let 'Build_State _ f l q rf df dt sr sd de ex stat n d := st in
  Build_State v f l q rf df dt sr sd de ex stat n d.

Definition setFilteredReports (v : list Report) (st : State) : State :=
  let 'Build_State r _ l q rf df dt sr sd de ex stat n d := st in
  Build_State r v l q rf df dt sr sd de ex stat n d.

Definition setIsLoading (v : bool) (st : State) : State :=
  let 'Build_State r f _ q rf df dt sr sd de ex stat n d := st in
  Build_State r f v q rf df dt sr sd de ex stat n d.

Definition setSelectedReport (v : option Report) (st : State) : State :=
  let 'Build_State r f l q rf df dt _ sd de ex stat n d := st in
  Build_State r f l q rf df dt v sd de ex stat n d.

Definition setShowDeleteDialog (v : bool) (st : State) : State :=
  let 'Build_State r f l q rf df dt sr _ de ex stat n d := st in
  Build_State r f l q rf df dt sr v de ex stat n d.

Definition setIsDeleting (v : bool) (st : State) : State :=
  let 'Build_State r f l q rf df dt sr sd _ ex stat n d := st in
  Build_State r f l q rf df dt sr sd v ex stat n d.

Definition setIsExporting (v : bool) (st : State) : State :=
  let 'Build_State r f l q rf df dt sr sd de _ stat n d := st in
  Build_State r f l q rf df dt sr sd de v stat n d.

Definition notify (v : Notice) (st : State) : State :=
  let 'Build_State r f l q rf df dt sr sd de ex stat n d := st in
  Build_State r f l q rf df dt sr sd de ex stat (n ++ [v]) d.

Definition hand_over (v : Download) (st : State) : State :=
  let 'Build_State r f l q rf df dt sr sd de ex stat n d := st in
  Build_State r f l q rf df dt sr sd de ex stat n (d ++ [v]).

(** [text || fallback] on an optional string member *)
Definition or_text (text : option string) (fallback : string) : string :=
  match text with
  | Some s => if String.eqb s "" then fallback else s
  | None => fallback
  end.

(** [const filters: any = {}] and its three conditional members *)
Definition current_filters (st : State) : ReportFilters :=
  {| result := if negb (String.eqb (resultFilter st) "all")
               then Some (resultFilter st) else None;
     user_id := None;
     date_from := if negb (String.eqb (dateFrom st) "") then Some (dateFrom st) else None;
     date_to := if negb (String.eqb (dateTo st) "") then Some (dateTo st) else None |}.

(** [fetchReports] after its response has arrived: the body of the
    [try] past the [await], then [finally]. *)
Definition fetchReports_settle (response : ReportsResponse) (st : State) : State :=
  let st :=
    match status response, AdminApi.reports response with
    | success, Some received => setReports received st
    | _, _ =>
        notify (toast "Error" (or_text (message response) "Failed to fetch reports")
                      "destructive") st
    end in
  setIsLoading false st.

Definition fetchReports (user : option AuthContext.User) (st : State) : Task Service State :=
  if AuthContext.has_id user then
    let st := setIsLoading true st in
    Call (AdminApiService_getAllReports
            (default "" (AuthContext.id <$> user)) (current_filters st))
         (fun response => Done (fetchReports_settle response st))
  else Done st.

(** The effect on [reports, searchQuery]. *)
Definition filterReports (st : State) : State :=
  let filtered := reports st in
  let filtered :=
    if negb (String.eqb (searchQuery st) "") then
      List.filter (fun r =>
        string_includes (toLowerCase (searchQuery st)) (toLowerCase (file_name r))
        || string_includes (toLowerCase (searchQuery st)) (toLowerCase (user_email r)))
        filtered
    else filtered in
  setFilteredReports filtered st.

(** On success [fetchReports()] is started and not awaited: its
    request goes out, the handler finishes ([setSelectedReport(null)],
    [finally]), and the response is handled when it arrives. *)
Definition handleDeleteReport (user : option AuthContext.User) (st : State)
  : Task Service State :=
  match selectedReport st with
  | Some selected =>
      if AuthContext.has_id user then
        let adminId := default "" (AuthContext.id <$> user) in
        let st := setIsDeleting true st in
        let st := setShowDeleteDialog false st in
        Call (AdminApiService_deleteReport (id selected) adminId) (fun response =>
          match delete_status response with
          | success =>
              let st := notify (sonner_success "✅ Report deleted successfully") st in
              let st := notify (toast "Success" "Report deleted successfully" "default") st in
              let st := setIsLoading true st in
              let filters := current_filters st in
              let st := setSelectedReport None st in
              let st := setIsDeleting false st in
              Call (AdminApiService_getAllReports adminId filters)
                   (fun listing => Done (fetchReports_settle listing st))
          | error =>
              let text := or_text (delete_message response) "Failed to delete report" in
              let st := notify (sonner_error "❌ Failed to delete report" (Some text)) st in
              Done (setIsDeleting false st)
          end)
      else Done st
  | None => Done st
  end.

(** *** exportToCSV *)

Definition csv_headers : list string :=
  ["Report ID"; "User Email"; "File Name"; "Confidence %"; "Result"; "Date"].

(** One element of [rows] *)
Definition csv_row (r : Report) : list string :=
  [id r; user_email r; file_name r;
   num_toFixed 2 (num_mul (confidence r) (num_of_Z 100));
   prediction r; created_at r].

(** The double quote character *)
Definition double_quote : ascii := "034"%char.

(** The template literal that puts [cell] between two double quotes *)
Definition quoted (cell : string) : string :=
  String double_quote (cell +:+ String double_quote "").

(** [row.map(cell => quoted cell).join(',')] *)
Definition csv_line (row : list string) : string := join "," (map quoted row).

(** [[headers.join(','), ...rows.map(...)].join('\n')] *)
Definition csvContent (filtered : list Report) : string :=
  join (String LF "") (join "," csv_headers :: map (fun r => csv_line (csv_row r)) filtered).

(** [isoDate] is [new Date().toISOString().split('T')[0]]. *)
Definition exportToCSV (isoDate : string) (st : State) : State :=
  match filteredReports st with
  | [] => notify (toast "No Data" "No reports to export" "destructive") st
  | _ :: _ =>
      let st := setIsExporting true st in
      let st := hand_over (csv_file ("reports_export_" +:+ isoDate +:+ ".csv")
                                    "text/csv;charset=utf-8;"
                                    (csvContent (filteredReports st))) st in
      let st := notify (sonner_success "✅ CSV exported successfully") st in
      let st := notify (toast "Success" "Reports exported to CSV" "default") st in
      setIsExporting false st
  end.

(** *** exportToPDF *)

Definition margin : Q := 20.
Definition colWidths : list Q := [30; 40; 50; 25; 20; 25]%Q.
Definition pdf_headers : list string :=
  ["ID"; "User Email"; "File Name"; "Conf%"; "Result"; "Date"].

(** [cells.forEach((cell, i) => { doc.text(cell, xPos, yPos);
     xPos += colWidths[i] })] *)
Fixpoint draw_cells (role : nat -> TextRole) (cells : list string) (i : nat)
    (xPos yPos : Q) : list PdfCall :=
  match cells with
  | [] => []
  | cell :: rest =>
      text (role i) cell xPos yPos false
      :: draw_cells role rest (S i) (xPos + nth i colWidths 0)%Q yPos
  end.

Definition pdf_row (report : Report) : list string :=
  [substring 0 8 (id report);
   substring 0 20 (user_email report);
   substring 0 25 (file_name report);
   num_toFixed 0 (num_mul (confidence report) (num_of_Z 100));
   prediction report;
   first_piece " " (created_at report)].

(** [reportsToShow.forEach((report, index) => { ... })], threading
    [yPos]. *)
Fixpoint draw_rows (pageHeight : Q) (shown : list Report) (index : nat) (yPos : Q)
  : list PdfCall :=
  match shown with
  | [] => []
  | report :: rest =>
      let page_break := negb (Qle_bool yPos (pageHeight - 30)) in
      let before :=
        if page_break then
          ([addPage; setFont "bold"]
           ++ draw_cells role_column_header pdf_headers 0 margin margin
           ++ [setFont "normal"])%list
        else [] in
      let yPos := if page_break then (margin + 8)%Q else yPos in
      (before
       ++ draw_cells (role_cell index) (pdf_row report) 0 margin yPos
       ++ draw_rows pageHeight rest (S index) (yPos + 6)%Q)%list
  end.

(** The four lines under "Summary Statistics" and the [yPos] after
    them. *)
Definition draw_statistics (stats : option Statistics) (yPos : Q) : list PdfCall * Q :=
  match stats with
  | Some s =>
      ([text role_summary ("Total Reports: " +:+ nat_to_string (total_reports s))
             margin yPos false;
        text role_summary ("Fake Reports: " +:+ nat_to_string (fake_reports s) +:+ " ("
                           +:+ num_toFixed 1 (fake_percentage s) +:+ "%)")
             margin (yPos + 6) false;
        text role_summary ("Real Reports: " +:+ nat_to_string (real_reports s))
             margin (yPos + 6 + 6) false;
        text role_summary ("Average Confidence: " +:+ num_toString (avg_confidence s) +:+ "%")
             margin (yPos + 6 + 6 + 6) false],
       (yPos + 6 + 6 + 6 + 10)%Q)
  | None => ([], yPos)
  end.

(** The calls on [doc] before the table rows, and [yPos] after the
    column headers. *)
Definition pdf_preamble (pageWidth : Q) (exportDate : string) (stats : option Statistics)
  : list PdfCall * Q :=
  let yPos := margin in
  let '(summary, yPos') := draw_statistics stats (yPos + 10 + 10 + 8)%Q in
  (([setFontSize 20;
    text role_title "Deepfake Detection Reports" (pageWidth / 2) yPos true;
    setFontSize 10;
    text role_export_date ("Export Date: " +:+ exportDate) (pageWidth / 2) (yPos + 10) true;
    setFontSize 14;
    text role_summary "Summary Statistics" margin (yPos + 10 + 10) false;
    setFontSize 10]
   ++ summary
   ++ [setFontSize 10; setFont "bold"]
   ++ draw_cells role_column_header pdf_headers 0 margin yPos'
   ++ [setFont "normal"])%list,
   (yPos' + 8)%Q).

(** [if (filteredReports.length > 25) { doc.addPage(); ... }] *)
Definition pdf_note (filtered : list Report) : list PdfCall :=
  if (25 <? length filtered)%nat then
    [addPage; setFontSize 12;
     text role_note ("Note: Showing first 25 of " +:+ nat_to_string (length filtered)
                     +:+ " reports") margin margin false]
  else [].

(** Every call made on [doc], in order. [pageWidth] and [pageHeight]
    are [doc.internal.pageSize]; [exportDate] is
    [new Date().toLocaleString()]. *)
Definition pdf_document (pageWidth pageHeight : Q) (exportDate isoDate : string)
    (stats : option Statistics) (filtered : list Report) : list PdfCall :=
  let '(preamble, yPos) := pdf_preamble pageWidth exportDate stats in
  let reportsToShow := firstn 25 filtered in
  (preamble
   ++ draw_rows pageHeight reportsToShow 0 yPos
   ++ pdf_note filtered
   ++ [save ("reports_export_" +:+ isoDate +:+ ".pdf")])%list.

Definition exportToPDF (pageWidth pageHeight : Q) (exportDate isoDate : string)
    (st : State) : State :=
  match filteredReports st with
  | [] => notify (toast "No Data" "No reports to export" "destructive") st
  | _ :: _ =>
      let st := setIsExporting true st in
      let st := hand_over (pdf_file (pdf_document pageWidth pageHeight exportDate isoDate
                                       (page_statistics st) (filteredReports st))) st in
      let st := notify (sonner_success "✅ PDF exported successfully") st in
      let st := notify (toast "Success" "Reports exported to PDF" "default") st in
      setIsExporting false st
  end.

End Page.
End AdminContent.

(** ** AdminRoute *)

Module AdminRoute.
Section Route.
Context `{NumberOps} `{!Engine}.
Import AuthContext.

(** What the component returns: the spinner, a [<Navigate to=...
    replace />], or its children. *)
Inductive Rendered : Type :=
| Spinner
| Navigate (to : string)
| children.

Definition render (st : State) : Rendered :=
  if isLoading st then Spinner
  else if negb (isAuthenticated st) then Navigate "/login"
  else if negb (isAdmin st) then Navigate "/dashboard"
  else children.

(** The toasts of the effect on [isLoading, isAuthenticated, isAdmin]. *)
Definition effect (st : State) : list Toast :=
  if negb (isLoading st) && (negb (isAuthenticated st) || negb (isAdmin st)) then
    if negb (isAuthenticated st) then
      [toast_error (JStr "Please login to access this page")]
    else if negb (isAdmin st) then
      [toast_error (JStr "Access denied. Admin privileges required.")]
    else []
  else [].

End Route.
End AdminRoute.

(** ** AppSidebar *)

Module AppSidebar.

Record Item := {
  title : string;
  url : string
}.

Definition mainItems : list Item :=
  [{| title := "Dashboard"; url := "/dashboard" |};
   {| title := "Upload"; url := "/upload" |};
   {| title := "Reports"; url := "/reports" |};
   {| title := "History"; url := "/history" |};
   {| title := "Forum"; url := "/forum" |};
   {| title := "Blogs"; url := "/blogs" |};
   {| title := "News"; url := "/news" |};
   {| title := "Support"; url := "/support" |};
   {| title := "Profile"; url := "/profile" |}].

Definition adminItems : list Item :=
  [{| title := "Admin Dashboard"; url := "/admin/dashboard" |};
   {| title := "Users"; url := "/admin/users" |};
   {| title := "Content"; url := "/admin/content" |}].

(** [currentPath === path || currentPath.startsWith(path)] *)
Definition isActive (currentPath path : string) : bool :=
  String.eqb currentPath path || String.prefix path currentPath.

(** The links the sidebar renders: the administration group only for
    an admin. *)
Definition rendered_items (isAdmin : bool) : list Item :=
  mainItems ++ (if isAdmin then adminItems else []).

End AppSidebar.

(** ** Login *)

Module Login.

(** [/[class]/.test(s)]: some character of [s] is in the class. *)
Fixpoint class_test (class : ascii -> bool) (s : string) : bool :=
  match s with
  | EmptyString => false
  | String c rest => class c || class_test class rest
  end.

(** The class [[^A-Za-z0-9]] *)
Definition not_alphanumeric (c : ascii) : bool :=
  negb (Profile.in_range "A" "Z" c || Profile.in_range "a" "z" c
        || Profile.in_range "0" "9" c).

Definition calculatePasswordStrength (password : string) : Z :=
  let strength := 0%Z in
  let strength := if (8 <=? length_utf16 password)%nat then (strength + 25)%Z else strength in
  let strength :=
    if class_test (Profile.in_range "A" "Z") password then (strength + 25)%Z else strength in
  let strength :=
    if class_test (Profile.in_range "0" "9") password then (strength + 25)%Z else strength in
  let strength := if class_test not_alphanumeric password then (strength + 25)%Z else strength in
  strength.

(** What [handleLogin] awaits: the context's [login], which never
    rejects, and the 500 ms pause before it navigates. *)
Inductive Service : Type -> Type :=
| useAuth_login (email password : string) : Service bool
| setTimeout (delay : Z) : Service unit.

(** The state hooks of the login form, the page's toasts and the
    routes it has navigated to. *)
Record State := {
  email : string;
  password : string;
  isLoading : bool;
  errorMessage : string;
  notices : list Notice;
  navigations : list string
}.

Definition setErrorMessage (v : string) (st : State) : State :=
  {| email := email st; password := password st; isLoading := isLoading st;
     errorMessage := v; notices := notices st; navigations := navigations st |}.

Definition setIsLoading (v : bool) (st : State) : State :=
  {| email := email st; password := password st; isLoading := v;
     errorMessage := errorMessage st; notices := notices st;
     navigations := navigations st |}.

Definition notify (v : Notice) (st : State) : State :=
  {| email := email st; password := password st; isLoading := isLoading st;
     errorMessage := errorMessage st; notices := notices st ++ [v];
     navigations := navigations st |}.

(** [navigate(to, { replace: true })] *)
Definition navigate (to : string) (st : State) : State :=
  {| email := email st; password := password st; isLoading := isLoading st;
     errorMessage := errorMessage st; notices := notices st;
     navigations := navigations st ++ [to] |}.

(** [successful] is the constant [success] of the source. *)
Definition handleLogin (st : State) : Task Service State :=
  let st := setErrorMessage "" st in
  if String.eqb (email st) "" || String.eqb (password st) "" then
    let st := notify (sonner_error "Please enter both email and password." None) st in
    Done (setErrorMessage "Please enter both email and password." st)
  else
    let st := setIsLoading true st in
    Call (useAuth_login (email st) (password st)) (fun successful : bool =>
      if successful then
        Call (setTimeout 500) (fun _ =>
          Done (setIsLoading false (navigate "/dashboard" st)))
      else
        Done (setIsLoading false (setErrorMessage "Invalid email or password" st))).

End Login.

(** ** Dashboard: the timer of [startUpload] *)

Module UploadProgress.
Section Tick.
Context `{NumberOps}.
Import Dashboard.

(** The updater the interval callback of [startUpload] hands to
    [setUploadProgress], applied to the state current when it runs,
    together with what it does besides returning the new progress:
    [clearInterval(interval)], [setUploading(false)] and
    [analyzeVideo(file)]. The second component lists the files handed to
    [analyzeVideo]. *)
Definition tick (interval : nat) (file : File) (st : State) : State * list File :=
  if (uploadProgress st >=? 100)%Z then
    ({| uploading := false;
        selectedFile := selectedFile st;
        uploadProgress := 100;
        predictionResult := predictionResult st;
        notices := notices st;
        page_timers := clearInterval interval (page_timers st) |},
     [file])
  else
    ({| uploading := uploading st;
        selectedFile := selectedFile st;
        uploadProgress := uploadProgress st + 10;
        predictionResult := predictionResult st;
        notices := notices st;
        page_timers := page_timers st |},
     []).

(** The browser runs the callback of the timer [interval] once, if the
    timer is still set. *)
Definition fire (interval : nat) (st : State) : State * list File :=
  match List.find (fun t => Nat.eqb (timer_id t) interval) (active (page_timers st)) with
  | Some t =>
      match timer_callback t with
      | uploadProgressTick file => tick interval file st
      | _ => (st, [])
      end
  | None => (st, [])
  end.

(** [n] runs in a row, with the files handed to [analyzeVideo] on the
    way. *)
Fixpoint fire_times (n : nat) (interval : nat) (st : State) : State * list File :=
  match n with
  | O => (st, [])
  | S n' =>
      let '(st', analysed) := fire interval st in
      let '(st'', analysed') := fire_times n' interval st' in
      (st'', analysed ++ analysed')
  end.

End Tick.
End UploadProgress.

(** ** UploadPage: the list of uploaded files *)

Module UploadQueue.
Section Queue.
Context `{NumberOps}.

(** ["uploading" | "analyzing" | "completed" | "error"] *)
Inductive FileStatus := status_uploading | status_analyzing | status_completed | status_error.

(** [interface UploadedFile], without the members of the report *)
Record UploadedFile := {
  file : File;
  uploadProgress : Z;
  upload_status : FileStatus;
  result : option DeepfakeApi.PredictionResult;
  upload_error : option string
}.

(** The hook [files], the page's notices, and the files handed to
    [processFile], which starts the timer of their simulated upload. *)
Record State := {
  files : list UploadedFile;
  notices : list Notice;
  processed : list File
}.

Definition notify (v : Notice) (st : State) : State :=
  {| files := files st; notices := notices st ++ [v]; processed := processed st |}.

Definition setFiles (v : list UploadedFile) (st : State) : State :=
  {| files := v; notices := notices st; processed := processed st |}.

Definition processFile (f : File) (st : State) : State :=
  {| files := files st; notices := notices st; processed := processed st ++ [f] |}.

(** One round of [fileList.forEach(file => { const error =
    validateFile(file); if (error) { toast(...); newFiles.push(...) }
    else { newFiles.push(...) } })]; [reason] is the constant [error]. *)
Definition check_one (acc : list UploadedFile * State) (f : File)
  : list UploadedFile * State :=
  let '(newFiles, st) := acc in
  match UploadPage.validateFile f with
  | Some reason =>
      if String.eqb reason "" then
        (newFiles ++ [{| file := f; uploadProgress := 0;
                         upload_status := status_uploading;
                         result := None; upload_error := None |}], st)
      else
        (newFiles ++ [{| file := f; uploadProgress := 0;
                         upload_status := status_error;
                         result := None; upload_error := Some reason |}],
         notify (toast "Invalid File" reason "destructive") st)
  | None =>
      (newFiles ++ [{| file := f; uploadProgress := 0;
                       upload_status := status_uploading;
                       result := None; upload_error := None |}], st)
  end.

(** One round of [newFiles.forEach((uploadedFile) => { if
    (uploadedFile.status !== "error") { processFile(uploadedFile.file) }
    })] *)
Definition start_one (st : State) (uploadedFile : UploadedFile) : State :=
  match upload_status uploadedFile with
  | status_error => st
  | _ => processFile (file uploadedFile) st
  end.

(** The first loop, then [setFiles(prev => { const updated =
    [...prev, ...newFiles]; newFiles.forEach(...); return updated })] *)
Definition handleFiles (fileList : list File) (st : State) : State :=
  let '(newFiles, st) := fold_left check_one fileList ([], st) in
  let updated := files st ++ newFiles in
  let st := fold_left start_one newFiles st in
  setFiles updated st.

End Queue.
End UploadQueue.

(** ** Forum: the page's handlers *)

Module ForumPage.
Import ForumApi.

(** [interface ForumPost]; the two counts are whole numbers. *)
Record ForumPost := {
  id : string;
  user_id : string;
  username : string;
  topic : string;
  content : string;
  likes : Z;
  created_at : string;
  comments_count : Z
}.

Record ForumComment := {
  comment_id : string;
  comment_post_id : string;
  comment_user_id : string;
  comment_username : string;
  comment_content : string;
  comment_created_at : string
}.

(** [interface ApiResponse<T>], the members the page reads *)
Record ApiResponse := {
  status : Status;
  message : option string;
  response_posts : option (list ForumPost);
  response_comments : option (list ForumComment);
  response_likes : option Z
}.

Inductive Service : Type -> Type :=
| ForumApiService_getPosts (search topic : option string) : Service ApiResponse
| ForumApiService_createPost (user_id : string) (topic : ForumTopic) (content : string)
    : Service ApiResponse
| ForumApiService_likePost (post_id : string) : Service ApiResponse
| ForumApiService_getComments (post_id : string) : Service ApiResponse.

(** The state hooks of the handlers below and the page's toasts; the
    hooks of the comment form and of the delete dialog are left out.
    [error_text] is the hook [error]. [comments] holds the own members
    of the plain object keyed by post ids, and [expandedPosts] and
    [loadingComments] are the sets of post ids. *)
Record State := {
  posts : list ForumPost;
  loading : bool;
  error_text : option string;
  posting : bool;
  searchQuery : string;
  topicFilter : string;
  newPostContent : string;
  selectedTopic : ForumTopic;
  expandedPosts : gset string;
  comments : gmap string (list ForumComment);
  loadingComments : gset string;
  notices : list Notice
}.

Definition setPosts (v : list ForumPost) (st : State) : State :=
  let 'Build_State _ l e p q t c s x m lc n := st in
  Build_State v l e p q t c s x m lc n.

Definition setLoading (v : bool) (st : State) : State :=
  let 'Build_State ps _ e p q t c s x m lc n := st in
  Build_State ps v e p q t c s x m lc n.

Definition setError (v : option string) (st : State) : State :=
  let 'Build_State ps l _ p q t c s x m lc n := st in
  Build_State ps l v p q t c s x m lc n.

Definition setPosting (v : bool) (st : State) : State :=
  let 'Build_State ps l e _ q t c s x m lc n := st in
  Build_State ps l e v q t c s x m lc n.

Definition setNewPostContent (v : string) (st : State) : State :=
  let 'Build_State ps l e p q t _ s x m lc n := st in
  Build_State ps l e p q t v s x m lc n.

Definition setSelectedTopic (v : ForumTopic) (st : State) : State :=
  let 'Build_State ps l e p q t c _ x m lc n := st in
  Build_State ps l e p q t c v x m lc n.




Definition notify (v : Notice) (st : State) : State :=
  let 'Build_State ps l e p q t c s x m lc n := st in
  Build_State ps l e p q t c s x m lc (n ++ [v]).

(** [text || fallback] on an optional string member *)
Definition or_text (text : option string) (fallback : string) : string :=
  match text with
  | Some s => if String.eqb s "" then fallback else s
  | None => fallback
  end.

(** [text || undefined] *)
Definition or_undefined (text : string) : option string :=
  if String.eqb text "" then None else Some text.

Definition fetchPosts (st : State) : Task Service State :=
  let st := setLoading true st in
  let st := setError None st in
  Call (ForumApiService_getPosts (or_undefined (searchQuery st)) (or_undefined (topicFilter st)))
    (fun response =>
       let st :=
         match status response, response_posts response with
         | success, Some received => setPosts received st
         | _, _ =>
             let errorMsg := or_text (message response) "Failed to fetch posts" in
             notify (sonner_error errorMsg None) (setError (Some errorMsg) st)
         end in
       Done (setLoading false st)).

Section Handlers.

(** [String.prototype.trim] *)
Variable trim : string -> string.

Definition handleCreatePost (isAuthenticated : bool) (user : option AuthContext.User)
    (st : State) : Task Service State :=
  match isAuthenticated, user with
  | true, Some u =>
      if String.eqb (trim (newPostContent st)) "" then
        Done (notify (sonner_error "Please enter something before posting." None) st)
      else
        let st := setPosting true st in
        Call (ForumApiService_createPost (AuthContext.id u) (selectedTopic st)
                                         (trim (newPostContent st)))
          (fun response =>
             match status response with
             | success =>
                 let st := notify (sonner_success "Post created successfully!") st in
                 let st := setNewPostContent "" st in
                 let st := setSelectedTopic General st in
                 task_bind (fetchPosts st) (fun st => Done (setPosting false st))
             | error =>
                 let st := notify (sonner_error
                                     (or_text (message response) "Failed to create post")
                                     None) st in
                 Done (setPosting false st)
             end)
  | _, _ => Done (notify (sonner_error "Please log in to create a post" None) st)
  end.

End Handlers.

(** [response.likes || post.likes + 1] *)
Definition liked (counted : option Z) (post : ForumPost) : Z :=
  match counted with
  | Some n => if (n =? 0)%Z then (likes post + 1)%Z else n
  | None => (likes post + 1)%Z
  end.

(** [post.id === postId
       ? { ...post, likes: response.likes || post.likes + 1 } : post] *)
Definition like (postId : string) (counted : option Z) (post : ForumPost) : ForumPost :=
  if String.eqb (id post) postId then
    {| id := id post; user_id := user_id post; username := username post;
       topic := topic post; content := content post;
       likes := liked counted post;
       created_at := created_at post; comments_count := comments_count post |}
  else post.

(** The handler settles with the state update it has queued. *)
Definition handleLikePost (isAuthenticated : bool) (postId : string)
  : Task Service (State -> State) :=
  if negb isAuthenticated then
    Done (notify (sonner_error "Please log in to like posts" None))
  else
    Call (ForumApiService_likePost postId) (fun response =>
      match status response with
      | success =>
          Done (fun prev => setPosts (map (like postId (response_likes response)) (posts prev))
                                     prev)
      | error =>
          Done (notify (sonner_error (or_text (message response) "Failed to like post") None))
      end).




End ForumPage.

(** ** Timestamps of the backend *)

Module Timestamp.

(** [\d] *)
Definition digit (c : ascii) : bool := Profile.in_range "0" "9" c.

(** One position of a pattern that is anchored at both ends: a digit
    or a given character. *)
Inductive Atom : Type :=
| any_digit
| literally (c : ascii).

(** [/^...$/.test(text)] for a pattern of such positions *)
Fixpoint matches (pattern : list Atom) (text : string) : bool :=
  match pattern, text with
  | [], EmptyString => true
  | any_digit :: pattern', String c rest => digit c && matches pattern' rest
  | literally a :: pattern', String c rest => Ascii.eqb a c && matches pattern' rest
  | _, _ => false
  end.

(** [/^\d{4}-\d{2}-\d{2} \d{2}:\d{2}:\d{2}$/] *)
Definition timestamp_pattern : list Atom :=
  [any_digit; any_digit; any_digit; any_digit; literally "-";
   any_digit; any_digit; literally "-"; any_digit; any_digit; literally " ";
   any_digit; any_digit; literally ":"; any_digit; any_digit; literally ":";
   any_digit; any_digit].

(** [Number(text)] for a text of decimal digits, which is all the
    pattern lets through; [None] stands for every other text. *)
Fixpoint digits_value (value : nat) (text : string) : option nat :=
  match text with
  | EmptyString => Some value
  | String c rest =>
      if digit c then digits_value (10 * value + (nat_of_ascii c - 48)) rest else None
  end.

Definition Number_of_digits (text : string) : option nat :=
  match text with
  | EmptyString => None
  | _ => digits_value 0 text
  end.

(** The five numbers the formatting functions read from a timestamp
    that matches the pattern: [timestamp.split(' ')], then
    [datePart.split('-').map(Number)] and
    [timePart.split(':').map(Number)], of which the seconds are not
    used. A text that matches the pattern always has them
    ([matching_timestamp_has_numbers] below); [None] is a text that
    does not match. *)
Definition timestamp_numbers (timestamp : string) : option (nat * nat * nat * nat * nat) :=
  if matches timestamp_pattern timestamp then
    match split " " timestamp with
    | datePart :: timePart :: _ =>
        match map Number_of_digits (split "-" datePart),
              map Number_of_digits (split ":" timePart) with
        | Some year :: Some month :: Some day :: _, Some hour :: Some minute :: _ =>
            Some (year, month, day, hour, minute)
        | _, _ => None
        end
    | _ => None
    end
  else None.

Fixpoint repeat_char (n : nat) (c : ascii) : string :=
  match n with
  | O => ""
  | S n' => String c (repeat_char n' c)
  end.

(** [text.padStart(targetLength, fill)] for a filler of one character *)
Definition padStart (targetLength : nat) (fill : ascii) (text : string) : string :=
  repeat_char (targetLength - String.length text) fill +:+ text.

Definition monthNames : list string :=
  ["Jan"; "Feb"; "Mar"; "Apr"; "May"; "Jun"; "Jul"; "Aug"; "Sep"; "Oct"; "Nov"; "Dec"].

(** [monthNames[month - 1]] in a template literal: a name, or
    ["undefined"] out of range. *)
Definition monthName (month : nat) : string :=
  match month with
  | O => "undefined"
  | S position => nth position monthNames "undefined"
  end.

End Timestamp.

(** ** History (pages/History.tsx): the date of an entry *)

Module HistoryPage.
Section Format.
Import Timestamp.

(** [new Date(timestamp).toLocaleString('en-IN', { timeZone:
    'Asia/Kolkata', ... })], the engine's rendering of any other text *)
Variable toLocaleString_en_IN : string -> string.

(** [let displayHour = hour; let ampm = 'AM'; if (hour === 0) {...}
    else if (hour === 12) {...} else if (hour > 12) {...}] *)
Definition twelve_hour (hour : nat) : nat * string :=
  if (hour =? 0)%nat then (12, "AM")
  else if (hour =? 12)%nat then (hour, "PM")
  else if (12 <? hour)%nat then (hour - 12, "PM")
  else (hour, "AM").

Definition formatFullDate (timestamp : string) : string :=
  match timestamp_numbers timestamp with
  | Some (year, month, day, hour, minute) =>
      let '(displayHour, ampm) := twelve_hour hour in
      let minuteStr := padStart 2 "0" (nat_to_string minute) in
      let hourStr := padStart 2 "0" (nat_to_string displayHour) in
      monthName month +:+ " " +:+ nat_to_string day +:+ ", " +:+ nat_to_string year
      +:+ ", " +:+ hourStr +:+ ":" +:+ minuteStr +:+ " " +:+ ampm
  | None => toLocaleString_en_IN timestamp
  end.

End Format.
End HistoryPage.

(** ** AppHeader: the age of a notification *)

Module HeaderTime.
Section Format.
Import Timestamp.

(** [new Date(year, monthIndex, day, hour, minute).getTime()]: the
    milliseconds of a local date and time, which depend on the
    engine's time zone. *)
Variable Date_getTime : nat -> Z -> nat -> nat -> nat -> Z.

(** [now] is [new Date().getTime()]. The quotients are whole
    numbers of milliseconds divided by a constant, where [Math.floor]
    of the floating-point quotient is the integer quotient. *)
Definition formatTimestamp (now : Z) (timestamp : string) : string :=
  match timestamp_numbers timestamp with
  | Some (year, month, day, hour, minute) =>
      let then_ := Date_getTime year (Z.of_nat month - 1)%Z day hour minute in
      let diffMs := (now - then_)%Z in
      let diffMins := (diffMs / 60000)%Z in
      let diffHours := (diffMs / 3600000)%Z in
      if (diffMins <? 1)%Z then "Just now"
      else if (diffMins <? 60)%Z then nat_to_string (Z.to_nat diffMins) +:+ "m ago"
      else if (diffHours <? 24)%Z then nat_to_string (Z.to_nat diffHours) +:+ "h ago"
      else nat_to_string day +:+ "/" +:+ nat_to_string month
  | None => "Unknown"
  end.

End Format.
End HeaderTime.

(** ** SupportCenter: the rotation of the daily tips *)

Module SupportCenter.

(** [currentTipIndex]: a whole number, or [NaN]. *)
Inductive Index : Type :=
| index (i : nat)
| NaN.

(** [prev => (prev + 1) % dailyTips.length], where [tips] is the
    length the callback has closed over: the remainder by 0 is [NaN],
    and so is every sum and remainder of [NaN]. *)
Definition next_tip (tips : nat) (prev : Index) : Index :=
  match prev with
  | index i => if (tips =? 0)%nat then NaN else index ((i + 1) mod tips)
  | NaN => NaN
  end.

(** [dailyTips[currentTipIndex]?.text || dailyTips[0]?.text] over the
    texts of the tips: the text on display, if any. *)
Definition shown_tip (tips : list string) (current : Index) : option string :=
  let first := match tips with
               | tip :: _ => if String.eqb tip "" then None else Some tip
               | [] => None
               end in
  match current with
  | index i =>
      match nth_error tips i with
      | Some tip => if String.eqb tip "" then first else Some tip
      | None => first
      end
  | NaN => first
  end.

End SupportCenter.

(** ** TrackComplaint (pages/TrackComplaint.tsx) *)

Module TrackComplaint.
Section Page.
Context `{NumberOps} `{!Engine}.

(** [complaint] holds what [setComplaint] was given: the [complaint]
    member of the response, or [null]. *)
Record State := {
  complaintId : string;
  email : string;
  isSearching : bool;
  complaint : JsValue;
  notFound : bool;
  notices : list Notice
}.

Definition setIsSearching (v : bool) (st : State) : State :=
  {| complaintId := complaintId st; email := email st; isSearching := v;
     complaint := complaint st; notFound := notFound st; notices := notices st |}.

Definition setComplaint (v : JsValue) (st : State) : State :=
  {| complaintId := complaintId st; email := email st; isSearching := isSearching st;
     complaint := v; notFound := notFound st; notices := notices st |}.

Definition setNotFound (v : bool) (st : State) : State :=
  {| complaintId := complaintId st; email := email st; isSearching := isSearching st;
     complaint := complaint st; notFound := v; notices := notices st |}.

Definition notify (v : Notice) (st : State) : State :=
  {| complaintId := complaintId st; email := email st; isSearching := isSearching st;
     complaint := complaint st; notFound := notFound st; notices := notices st ++ [v] |}.

(** [text || undefined] *)
Definition or_undefined (text : string) : option string :=
  if String.eqb text "" then None else Some text.

Definition handleSearch (st : State) : Async State :=
  if String.eqb (complaintId st) "" && String.eqb (email st) "" then
    Fulfil (notify (toast "Missing Information"
                          "Please provide either Complaint ID or Email"
                          "destructive") st)
  else
    let st := setIsSearching true st in
    let st := setNotFound false st in
    let st := setComplaint JNull st in
    st' ← try_catch
      (response ← SupportApi.trackComplaint (or_undefined (complaintId st))
                                            (or_undefined (email st));
       response_status ← eval (get_prop response "status");
       if is_string response_status "success"
          && truthy (get_prop_opt response "complaint") then
         let st := setComplaint (get_prop_opt response "complaint") st in
         Fulfil (setNotFound false st)
       else
         let st := setNotFound true st in
         Fulfil (setComplaint JNull st))
      (fun error =>
         let st := notify (toast "Error" (message_of error "Failed to track complaint")
                                 "destructive") st in
         Fulfil (setNotFound true st));
    (* finally *)
    Fulfil (setIsSearching false st').

End Page.
End TrackComplaint.

(** ** Profile: the avatar's initials and the cancel button *)

Module ProfileView.
Section Initials.

(** [String.prototype.toUpperCase] *)
Variable toUpperCase : string -> string.

(** [text[0]]: the first character, or [undefined] *)
Definition first_character (text : string) : option string :=
  match text with
  | EmptyString => None
  | String c _ => Some (String c "")
  end.

(** [None]: the call throws a [TypeError]. The sum of two
    [undefined] values is [NaN], which has no [toUpperCase]; the sum of
    a string and [undefined] is a string. *)
Definition getInitials (name email : string) : option string :=
  if negb (String.eqb name "") && (0 <? String.length name)%nat then
    let parts := split " " name in
    if (2 <=? length parts)%nat then
      match first_character (hd "" parts), first_character (List.last parts "") with
      | Some a, Some b => Some (toUpperCase (a +:+ b))
      | Some a, None => Some (toUpperCase (a +:+ "undefined"))
      | None, Some b => Some (toUpperCase ("undefined" +:+ b))
      | None, None => None
      end
    else Some (toUpperCase (substring 0 2 name))
  else Some (toUpperCase (substring 0 2 email)).

End Initials.

Section Cancel.
Context `{NumberOps}.
Import ProfileApi Profile.

(** [setHasChanges(false)] belongs to the form's rendering. *)
Definition handleCancel (st : State) : State :=
  {| profile := profile st; isLoading := isLoading st; isSaving := isSaving st;
     name := match profile st with
             | Some p => profile_name p
             | None => name st
             end;
     currentPassword := ""; newPassword := ""; confirmPassword := "";
     notices := notices st |}.

End Cancel.
End ProfileView.

(** ** AdminContent: the statistics of the listed reports *)

Module AdminStatistics.
Section Summary.
Context `{NumberOps}.
Import AdminApi.

(** [String.prototype.toUpperCase] *)
Variable toUpperCase : string -> string.
(** [a + b] on numbers, and [Math.round] *)
Variable num_add : Number -> Number -> Number.
Variable Math_round : Number -> Number.
(** [new Date(a) > new Date(b)] *)
Variable Date_later : string -> string -> bool.

(** [r.prediction?.toUpperCase() === text] *)
Definition predicted (text : string) (r : Report) : bool :=
  String.eqb (toUpperCase (prediction r)) text.

(** [(latest, r) => { if (!latest) return r.created_at; return new
    Date(r.created_at) > new Date(latest) ? r.created_at : latest }] *)
Definition later_of (latest : string) (r : Report) : string :=
  if String.eqb latest "" then created_at r
  else if Date_later (created_at r) latest then created_at r
  else latest.

(** [null] is [None]. *)
Definition calculateStatistics (reports : list Report) : option Statistics :=
  if (length reports =? 0)%nat then None
  else
    let totalReports := length reports in
    let fakeReports := length (List.filter (predicted "FAKE") reports) in
    let realReports := length (List.filter (predicted "REAL") reports) in
    let fakePercentage :=
      if (0 <? totalReports)%nat then
        num_mul (num_div (num_of_Z (Z.of_nat fakeReports)) (num_of_Z (Z.of_nat totalReports)))
                (num_of_Z 100)
      else num_of_Z 0 in
    let avgConfidence :=
      if (0 <? length reports)%nat then
        num_mul
          (num_div
             (fold_left (fun sum r =>
                           num_add sum (if num_truthy (confidence r) then confidence r
                                        else num_of_Z 0))
                        reports (num_of_Z 0))
             (num_of_Z (Z.of_nat (length reports))))
          (num_of_Z 100)
      else num_of_Z 0 in
    let mostRecent :=
      if (0 <? length reports)%nat then Some (fold_left later_of reports "")
      else None in
    Some {| total_reports := totalReports;
            fake_reports := fakeReports;
            real_reports := realReports;
            fake_percentage := fakePercentage;
            avg_confidence := num_div (Math_round (num_mul avgConfidence (num_of_Z 100)))
                                      (num_of_Z 100);
            most_recent := mostRecent |}.

End Summary.
End AdminStatistics.

(** ** The report endpoints behind the admin page *)

Module Backend.
Section Reports.
Context `{NumberOps}.
Import AdminApi.

(** Modelled from the spec: how the backend reads the query filters of
    a listing is left open by the spec, and is a parameter here. *)
Variable matches : ReportFilters -> Report -> bool.

(** Modelled from the spec: the backend's table of reports and its two
    admin endpoints, [GET /admin/reports] and
    [DELETE /admin/reports/<id>], which are not among the sources. The
    spec describes a backend that "performs CRUD against a single
    relational database" in which "a deleted report no longer appears
    in listings": deleting removes the rows with the given id, listing
    returns the rows that match the filters. [reachable] says, call by
    call, whether the request gets through; a service method whose
    fetch fails resolves with status ['error']. *)
Record Server := {
  report_rows : list Report;
  reachable : list bool
}.

(** Modelled from the spec: whether the next request gets through, and
    the server once that is decided. *)
Definition next_reachable (s : Server) : bool * Server :=
  match reachable s with
  | [] => (true, s)
  | up :: later => (up, {| report_rows := report_rows s; reachable := later |})
  end.

(** Modelled from the spec: the DELETE endpoint removes the rows with
    the given id ("a deleted report no longer appears in listings"). *)
Definition delete_rows (reportId : string) (s : Server) : Server :=
  {| report_rows := List.filter (fun r => negb (String.eqb (id r) reportId)) (report_rows s);
     reachable := reachable s |}.

(** Modelled from the spec: the message of a service method whose
    fetch was rejected; the text is the browser's. *)
Definition unreachable_text : string := "Failed to fetch".

(** Modelled from the spec: what the two service methods of the admin
    page resolve with against this backend. A listing that gets through
    answers ['success'] with the rows that match its filters; a delete
    that gets through removes the rows and answers ['success']. *)
Definition answer (R : Type) (c : AdminContent.Service R) (s : Server) : R * Server :=
  match c in AdminContent.Service R return R * Server with
  | AdminContent.AdminApiService_getAllReports adminId filters =>
      let '(up, s) := next_reachable s in
      if up then
        ({| status := success;
            reports := Some (List.filter (matches filters) (report_rows s));
            statistics := None;
            message := None |}, s)
      else
        ({| status := error; reports := None; statistics := None;
            message := Some unreachable_text |}, s)
  | AdminContent.AdminApiService_deleteReport reportId adminId =>
      let '(up, s) := next_reachable s in
      if up then
        ({| delete_status := success; delete_message := None |}, delete_rows reportId s)
      else
        ({| delete_status := error; delete_message := Some unreachable_text |}, s)
  end.

End Reports.
End Backend.

(** ** An engine to evaluate the model with *)

(** Numbers are the integers, printed in decimal; division is the
    integer quotient, exact wherever it is used below. *)
Module Sample.

Definition Z_to_string (z : Z) : string :=
  match z with
  | Z0 => "0"
  | Zpos p => nat_to_string (Pos.to_nat p)
  | Zneg p => "-" +:+ nat_to_string (Pos.to_nat p)
  end.

Fixpoint zeros (digits : nat) : string :=
  match digits with
  | O => ""
  | S d => String "0" (zeros d)
  end.

#[export] Instance integers : NumberOps := {|
  Number := Z;
  num_of_Z := fun z => z;
  num_mul := Z.mul;
  num_div := Z.div;
  num_truthy := fun z => negb (Z.eqb z 0);
  num_toString := Z_to_string;
  num_toFixed := fun digits z =>
    match digits with
    | O => Z_to_string z
    | S _ => Z_to_string z +:+ "." +:+ zeros digits
    end
|}.

Definition in_quotes (s : string) : string :=
  String "034"%char (s +:+ String "034"%char "").

(** JSON.stringify for values whose strings need no escaping;
    members holding [undefined] are left out. *)
Fixpoint stringify (v : JsValue) : string :=
  match v with
  | JUndefined => "undefined"
  | JNull => "null"
  | JBool true => "true"
  | JBool false => "false"
  | JNum n => Z_to_string n
  | JStr s => in_quotes s
  | JArr items =>
      "[" +:+ join "," (map (fun x => match x with
                                       | JUndefined => "null"
                                       | _ => stringify x
                                       end) items) +:+ "]"
  | JObj fields =>
      "{" +:+ join "," (flat_map (fun kv => let '(k, x) := kv in
                                            match x with
                                            | JUndefined => []
                                            | _ => [in_quotes k +:+ ":" +:+ stringify x]
                                            end) fields) +:+ "}"
  end.

(** A stored session and the response of a successful login, as
    values. *)
Definition sample_user : JsValue :=
  JObj [("id", JStr "u1"); ("email", JStr "ann@example.org"); ("role", JStr "user")].

Definition sample_session : JsValue :=
  JObj [("loggedIn", JBool true); ("user", sample_user);
        ("token", JStr "t0k3n"); ("createdAt", JNum 1700000000000%Z)].

Definition sample_login_reply : JsValue :=
  JObj [("status", JStr "success"); ("user", sample_user); ("token", JStr "t0k3n")].

(** JSON.parse on the serialisations of the values above; every other
    text is taken to be no JSON. *)
Definition parse (text : string) : option JsValue :=
  if String.eqb text (stringify sample_session) then Some sample_session
  else if String.eqb text "{}" then Some (JObj [])
  else if String.eqb text "null" then Some JNull
  else None.

Definition lower (c : ascii) : ascii :=
  if Profile.in_range "A" "Z" c then ascii_of_nat (nat_of_ascii c + 32) else c.

Fixpoint lower_case (s : string) : string :=
  match s with
  | EmptyString => EmptyString
  | String c rest => String (lower c) (lower_case rest)
  end.

#[export] Instance engine : Engine := {|
  JSON_stringify := stringify;
  JSON_parse := parse;
  URLSearchParams_toString := fun pairs =>
    join "&" (map (fun kv => fst kv +:+ "=" +:+ snd kv) pairs);
  toLowerCase := lower_case;
  typeError_read_property := fun k =>
    "Cannot read properties of null (reading '" +:+ k +:+ "')";
  typeError_to_primitive := "Cannot convert object to primitive value"
|}.

End Sample.

(** ** What the properties speak about *)

Section Observations.
Context `{NumberOps} `{!Engine}.

(** The arguments of the fetch a service call makes first, and what
    the call does once that fetch has settled. *)
Definition request_of (c : ApiCall) : Request :=
  match perform c with
  | AwaitFetch req _ => req
  | _ => {| req_url := ""; req_method := None; req_headers := []; req_body := None |}
  end.

Definition continuation_of (c : ApiCall) : FetchOutcome -> Async JsValue :=
  match perform c with
  | AwaitFetch _ k => k
  | settled => fun _ => settled
  end.

(** The request of [login]. *)
Definition login_request (email password : string) : Request :=
  {| req_url := API_BASE_URL +:+ "/auth/login";
     req_method := Some "POST";
     req_headers := json_headers;
     req_body := json_body [("email", JStr email); ("password", JStr password)] |}.

(** The session object [login] serialises. *)
Definition session_object (data_user data_token : JsValue) (now : Number) : JsValue :=
  JObj [("loggedIn", JBool true); ("user", data_user);
        ("token", data_token); ("createdAt", JNum now)].

End Observations.

(** A string without a line feed. *)
Fixpoint no_line_feed (s : string) : bool :=
  match s with
  | EmptyString => true
  | String c rest => negb (Ascii.eqb c LF) && no_line_feed rest
  end.

(** The characters of a string. *)
Fixpoint characters (s : string) : list ascii :=
  match s with
  | EmptyString => []
  | String c rest => c :: characters rest
  end.

(** The table cells a PDF document holds, with the loop indices under
    which they were written. *)
Fixpoint table_cells (document : list PdfCall) : list (nat * nat * string) :=
  match document with
  | [] => []
  | text (role_cell index i) content _ _ _ :: rest => (index, i, content) :: table_cells rest
  | _ :: rest => table_cells rest
  end.

(** The texts of the notes a PDF document holds. *)
Fixpoint notes (document : list PdfCall) : list string :=
  match document with
  | [] => []
  | text role_note content _ _ _ :: rest => content :: notes rest
  | _ :: rest => notes rest
  end.


(** ** What the exports are measured by *)

Section ExportDefinitions.
Context `{NumberOps} `{!Engine}.
Import AdminApi AdminContent.

(** The cells of one table row with the loop indices they are written
    under, and the cells of the rows from [index] on. *)
Fixpoint numbered_cells (index i : nat) (cells : list string) : list (nat * nat * string) :=
  match cells with
  | [] => []
  | cell :: rest => (index, i, cell) :: numbered_cells index (S i) rest
  end.

Fixpoint table_of (index : nat) (shown : list Report) : list (nat * nat * string) :=
  match shown with
  | [] => []
  | report :: rest => numbered_cells index 0 (pdf_row report) ++ table_of (S index) rest
  end.

(** The first line of every CSV export. *)
Definition csv_header_line : string :=
  "Report ID,User Email,File Name,Confidence %,Result,Date".

(** No cell of the report's CSV row holds a line feed. *)
Definition row_on_one_line (r : Report) : bool := forallb no_line_feed (csv_row r).

End ExportDefinitions.

(** ** What the further properties speak about *)

Section SessionObservations.
Context `{NumberOps} `{!Engine}.
Import AuthContext.

(** The provider's state when the page is loaded again: the hooks
    start from [useState<User | null>(null)] and [useState(true)], no
    toast is on display, and localStorage is what it was. *)
Definition reload (st : State) : State :=
  {| user := JNull; isLoading := true; localStorage := localStorage st; toasts := [] |}.

(** The answer to the verify request turns the session down: a
    response that is not ok, or an ok response whose body is parsed and
    has a [status] other than ['success']. *)
Definition verify_denies (o : FetchOutcome) : bool :=
  match o with
  | Rejects _ => false
  | Resolves response =>
      if ok response then
        match body_json response with
        | inr data =>
            match get_prop data "status" with
            | inr data_status => negb (is_string data_status "success")
            | inl _ => false
            end
        | inl _ => false
        end
      else true
  end.

(** The requests [checkAuth] makes for a usable session: the verify
    request, unless the token has no string form. *)
Definition verify_requests (session : JsValue) : list Request :=
  match verify_request session with
  | inr request => [request]
  | inl _ => []
  end.

(** The network turns the session down. *)
Definition denied {S : Type} (net : S -> Request -> FetchOutcome * S) (s : S)
    (session : JsValue) : bool :=
  match verify_request session with
  | inr request => verify_denies (net s request).1
  | inl _ => false
  end.

(** The one method that builds its result from the parsed body instead
    of returning the body. *)
Definition reshapes_the_body (c : ApiCall) : bool :=
  match c with
  | Dashboard_getDashboard _ => true
  | _ => false
  end.

(** The request of a complaint search: the query holds the fields that
    are not empty. *)
Definition search_request (complaintId email : string) : Request :=
  {| req_url := API_BASE_URL +:+ "/support/track-complaint?"
                +:+ URLSearchParams_toString
                      ((if String.eqb complaintId "" then [] else [("id", complaintId)])
                       ++ (if String.eqb email "" then [] else [("email", email)]));
     req_method := Some "GET";
     req_headers := json_headers;
     req_body := None |}.

End SessionObservations.

(** The notifications of a list that are not read. *)
Definition unread_in (l : list DashboardApi.Notification) : nat :=
  length (List.filter (fun n => negb (DashboardApi.is_read n)) l).

(** A call of the login page that is the context's [login]. *)
Definition is_login (call : {R : Type & Login.Service R}) : bool :=
  match projT2 call with
  | Login.useAuth_login _ _ => true
  | _ => false
  end.

(** No text of the list is the start of another one. *)
Fixpoint no_common_start (paths : list string) : bool :=
  match paths with
  | [] => true
  | path :: rest =>
      forallb (fun other => negb (String.prefix path other) && negb (String.prefix other path))
              rest
      && no_common_start rest
  end.

(** The timer with the handle [interval] is set. *)
Definition is_set (interval : nat) (ts : Timers) : bool :=
  existsb (fun t => Nat.eqb (timer_id t) interval) (active ts).

Section UploadObservations.
Context `{NumberOps}.

(** The dashboard after [startUpload] and [k] ticks of its timer, for
    [k] up to 10, and once the timer has stopped itself. *)
Definition progressing (file : File) (st : Dashboard.State) (k : nat) : Dashboard.State :=
  {| Dashboard.uploading := true;
     Dashboard.selectedFile := Dashboard.selectedFile st;
     Dashboard.uploadProgress := 10 * Z.of_nat k;
     Dashboard.predictionResult := None;
     Dashboard.notices := Dashboard.notices st;
     Dashboard.page_timers :=
       (setInterval (uploadProgressTick file) 200 (Dashboard.page_timers st)).2 |}.

Definition uploaded (st : Dashboard.State) : Dashboard.State :=
  {| Dashboard.uploading := false;
     Dashboard.selectedFile := Dashboard.selectedFile st;
     Dashboard.uploadProgress := 100;
     Dashboard.predictionResult := None;
     Dashboard.notices := Dashboard.notices st;
     Dashboard.page_timers :=
       {| next_id := S (next_id (Dashboard.page_timers st));
          active := active (Dashboard.page_timers st) |} |}.

(** The entry of a file as [validateFile] judges it, whether it is
    accepted, and the toast of a file that is not. *)
Definition judged (f : File) : UploadQueue.UploadedFile :=
  match UploadPage.validateFile f with
  | Some reason =>
      {| UploadQueue.file := f; UploadQueue.uploadProgress := 0;
         UploadQueue.upload_status := UploadQueue.status_error;
         UploadQueue.result := None; UploadQueue.upload_error := Some reason |}
  | None =>
      {| UploadQueue.file := f; UploadQueue.uploadProgress := 0;
         UploadQueue.upload_status := UploadQueue.status_uploading;
         UploadQueue.result := None; UploadQueue.upload_error := None |}
  end.

Definition accepted (f : File) : bool :=
  match UploadPage.validateFile f with
  | Some _ => false
  | None => true
  end.

Definition rejection (f : File) : list Notice :=
  match UploadPage.validateFile f with
  | Some reason => [toast "Invalid File" reason "destructive"]
  | None => []
  end.

End UploadObservations.

(** A number below 100 in two digits and a number below 10000 in four
    (its hundreds, then its last two digits), as the backend writes
    them. *)
Definition two_digits (n : nat) : string := Timestamp.padStart 2 "0" (nat_to_string n).
Definition four_digits (n : nat) : string := two_digits (n / 100) +:+ two_digits (n mod 100).

(** The texts ['YYYY-MM-DD'] and ['HH:MM:SS'] of a date and a time,
    and the timestamp made of both. *)
Definition date_text (year month day : nat) : string :=
  four_digits year +:+ "-" +:+ two_digits month +:+ "-" +:+ two_digits day.

Definition time_text (hour minute second : nat) : string :=
  two_digits hour +:+ ":" +:+ two_digits minute +:+ ":" +:+ two_digits second.

Definition timestamp_text (year month day hour minute second : nat) : string :=
  date_text year month day +:+ String " " (time_text hour minute second).

(** The character does not occur in the text. *)
Fixpoint free_of (c : ascii) (text : string) : bool :=
  match text with
  | EmptyString => true
  | String a rest => negb (Ascii.eqb a c) && free_of c rest
  end.

(** What the lemma on numbers in two digits checks, number by
    number. *)
Definition two_digits_ok (n : nat) : bool :=
  Timestamp.matches [Timestamp.any_digit; Timestamp.any_digit] (two_digits n)
  && match Timestamp.Number_of_digits (two_digits n) with
     | Some value => (value =? n)%nat
     | None => false
     end
  && free_of " " (two_digits n) && free_of "-" (two_digits n) && free_of ":" (two_digits n).

(** The index of the tip on display after the rotation has run once
    for each of the lengths, in order. *)
Definition rotated (lengths : list nat) (start : SupportCenter.Index) : SupportCenter.Index :=
  fold_left (fun current tips => SupportCenter.next_tip tips current) lengths start.

(** The text begins, or ends, with the character. *)
Definition begins_with (c : ascii) (text : string) : bool :=
  match text with
  | String a _ => Ascii.eqb a c
  | EmptyString => false
  end.

Fixpoint ends_with (c : ascii) (text : string) : bool :=
  match text with
  | EmptyString => false
  | String a EmptyString => Ascii.eqb a c
  | String _ rest => ends_with c rest
  end.

(** The heights at which a PDF document holds its table cells. *)
Fixpoint cell_heights (document : list PdfCall) : list Q :=
  match document with
  | [] => []
  | text (role_cell _ _) _ _ y _ :: rest => y :: cell_heights rest
  | _ :: rest => cell_heights rest
  end.

(** ** Concrete inputs *)

Module Inputs.
Import Sample.

Definition failed_to_fetch : FetchOutcome := Rejects (ErrorObj "Failed to fetch").

Definition nameless_failure : FetchOutcome := Rejects (ErrorObj "").

(** A 400 response whose body is [{"message": []}]. *)
Definition empty_list_message : FetchOutcome :=
  Resolves {| ok := false; status := 400;
              body_json := inr (JObj [("message", JArr [])]);
              body_text := inr (stringify (JObj [("message", JArr [])])) |}.

Definition login_succeeds : FetchOutcome :=
  Resolves {| ok := true; status := 200;
              body_json := inr sample_login_reply;
              body_text := inr (stringify sample_login_reply) |}.

Definition signed_out : AuthContext.State :=
  {| AuthContext.user := JNull; AuthContext.isLoading := true;
     AuthContext.localStorage := ∅; AuthContext.toasts := [] |}.

(** A signed-in tab whose stored session another tab has removed. *)
Definition signed_in_without_key : AuthContext.State :=
  {| AuthContext.user := sample_user; AuthContext.isLoading := false;
     AuthContext.localStorage := ∅; AuthContext.toasts := [] |}.

(** The key holds the empty string. *)
Definition empty_text_stored : AuthContext.State :=
  {| AuthContext.user := JNull; AuthContext.isLoading := true;
     AuthContext.localStorage := {["authSession" := ""]}; AuthContext.toasts := [] |}.

Definition session_stored : AuthContext.State :=
  {| AuthContext.user := JNull; AuthContext.isLoading := true;
     AuthContext.localStorage := {["authSession" := stringify sample_session]};
     AuthContext.toasts := [] |}.

Definition ann : AuthContext.User :=
  {| AuthContext.id := "u1"; AuthContext.email := "ann@example.org";
     AuthContext.role := user; AuthContext.name := Some "Ann" |}.

Definition no_timers : Timers := {| next_id := 0; active := [] |}.

Definition clip : File :=
  {| file_name := "clip.mp4"; file_type := "video/mp4"; file_size := 1048576 |}.

Definition picture : File :=
  {| file_name := "face.png"; file_type := "image/png"; file_size := 2048 |}.

Definition report (report_id name : string) : AdminApi.Report :=
  {| AdminApi.id := report_id; AdminApi.report_user_id := "u1";
     AdminApi.user_email := "ann@example.org"; AdminApi.user_name := "Ann";
     AdminApi.file_name := name; AdminApi.prediction := "FAKE";
     AdminApi.confidence := 1%Z; AdminApi.frames_analyzed := 30%Z;
     AdminApi.report_url := "/reports/r.pdf"; AdminApi.model_version := "v1";
     AdminApi.created_at := "2025-01-02 03:04:05" |}.

(** A file name that holds a line feed. *)
Definition two_line_name : string := "a" +:+ String LF "b.mp4".

Definition admin_page (listed : list AdminApi.Report) (selected : option AdminApi.Report)
  : AdminContent.State :=
  {| AdminContent.reports := listed; AdminContent.filteredReports := listed;
     AdminContent.isLoading := false; AdminContent.searchQuery := "";
     AdminContent.resultFilter := "all"; AdminContent.dateFrom := "";
     AdminContent.dateTo := ""; AdminContent.selectedReport := selected;
     AdminContent.showDeleteDialog := true; AdminContent.isDeleting := false;
     AdminContent.isExporting := false; AdminContent.page_statistics := None;
     AdminContent.notices := []; AdminContent.downloads := [] |}.

Definition every_report (filters : AdminApi.ReportFilters) (r : AdminApi.Report) : bool := true.

Definition profile_of_ann : ProfileApi.UserProfile :=
  {| ProfileApi.id := "u1"; ProfileApi.email := "ann@example.org";
     ProfileApi.profile_name := "Ann"; ProfileApi.role := user;
     ProfileApi.created_at := "2025-01-01"; ProfileApi.last_login := "2025-01-02";
     ProfileApi.total_analyses := 3%Z; ProfileApi.total_reports := 1%Z |}.


(** A backend that accepts every profile request. *)
Definition profile_backend (R : Type) (c : Profile.Service R) (s : unit) : R * unit :=
  match c in Profile.Service R return R * unit with
  | Profile.ProfileApiService_getProfile _ =>
      ({| ProfileApi.status := success; ProfileApi.profile := Some profile_of_ann;
          ProfileApi.message := None |}, tt)
  | Profile.ProfileApiService_updateProfile _ _ =>
      ({| ProfileApi.update_status := success; ProfileApi.update_message := None |}, tt)
  | Profile.useAuth_checkAuth => (tt, tt)
  end.

Definition dashboard_page : Dashboard.State :=
  {| Dashboard.uploading := false; Dashboard.selectedFile := None;
     Dashboard.uploadProgress := 0; Dashboard.predictionResult := None;
     Dashboard.notices := []; Dashboard.page_timers := no_timers |}.

Definition unread (notification_id : string) : DashboardApi.Notification :=
  {| DashboardApi.id := notification_id; DashboardApi.title := "Scan finished";
     DashboardApi.message := "Your video was analysed";
     DashboardApi.type := DashboardApi.info;
     DashboardApi.timestamp := "2025-01-02 03:04:05"; DashboardApi.is_read := false |}.

End Inputs.


(** ** Further concrete inputs *)

Module Cases.
Import Sample Inputs.

(** A 200 response with the given JSON body. *)
Definition reply (data : JsValue) : Response :=
  {| ok := true; status := 200; body_json := inr data; body_text := inr (stringify data) |}.

Definition answers (data : JsValue) : FetchOutcome := Resolves (reply data).

Definition two_users : JsValue :=
  JObj [("status", JStr "success"); ("users", JArr [sample_user; sample_user])].

(** The body of a dashboard response that has no list of
    notifications. *)
Definition dashboard_fields : list (string * JsValue) :=
  [("status", JStr "success"); ("totalAnalyses", JNum 3%Z);
   ("recentAnalyses", JArr [JStr "a1"])].

(** The milliseconds of a date and time in a calendar of months of 31
    days, which is enough to tell ages within a month. *)
Definition calendar (year : nat) (monthIndex : Z) (day hour minute : nat) : Z :=
  ((((Z.of_nat year * 12 + monthIndex) * 31 + Z.of_nat day) * 24 + Z.of_nat hour) * 60
   + Z.of_nat minute) * 60000.

Definition upper (c : ascii) : ascii :=
  if Profile.in_range "a" "z" c then ascii_of_nat (nat_of_ascii c - 32) else c.

Fixpoint upper_case (s : string) : string :=
  match s with
  | EmptyString => EmptyString
  | String c rest => String (upper c) (upper_case rest)
  end.

(** The profile form with a new name and the three password fields
    filled in. *)
Definition edited_form : Profile.State :=
  {| Profile.profile := Some profile_of_ann; Profile.isLoading := false;
     Profile.isSaving := false; Profile.name := "Anna";
     Profile.currentPassword := "OldSecret1"; Profile.newPassword := "Secret123";
     Profile.confirmPassword := "Secret123"; Profile.notices := [] |}.

End Cases.

(** * Properties *)

(** ** The service methods report failures and fetch once *)

Section ServiceProofs.
Context `{NumberOps} `{!Engine}.

Lemma perform_awaits_once (c : ApiCall) :
  perform c = AwaitFetch (request_of c) (continuation_of c).
Proof. destruct c; reflexivity. Qed.

Lemma eqb_empty_false (s : string) : String.eqb s "" = false -> s <> "".
Proof. intros E ->. discriminate. Qed.

Lemma fallback_text_not_empty (c : ApiCall) : fallback_text c <> "".
Proof. destruct c; discriminate. Qed.

(** The status-only check throws an [Error] that names the status. *)
Lemma json_or_throw_status_fails (response : Response) :
  ok response = false ->
  json_or_throw_status response = Reject (ErrorObj (http_error_text response)).
Proof. intros Hok. unfold json_or_throw_status. rewrite Hok. reflexivity. Qed.

(** The check that reads the error body throws an [Error] with the
    message read from the body. *)
Lemma json_or_throw_body_fails (response : Response) :
  ok response = false ->
  json_or_throw_body response = Reject (ErrorObj (parsed_message_text response)).
Proof.
  intros Hok. unfold json_or_throw_body, json_or_empty, parsed_message_text.
  rewrite Hok. cbn.
  destruct (body_json response) as [e | parsed]; [reflexivity | ].
  destruct parsed as [ | | b | n | s | items | fields]; try reflexivity.
  cbn. unfold js_or.
  destruct (lookup_field "message" fields) as [v | ]; [ | reflexivity].
  cbn. destruct (truthy v) eqn:Hv; [ | reflexivity].
  unfold new_Error.
  destruct v; try discriminate Hv; destruct (ToString _); reflexivity.
Qed.

(** The message is not empty in the cases listed. *)
Lemma reported_text_not_empty (c : ApiCall) (o : FetchOutcome) :
  failure_has_text c o = true -> reported_text c o <> "".
Proof.
  unfold failure_has_text, reported_text.
  destruct o as [[m | v] | response].
  - intros Ht. apply eqb_empty_false. apply negb_true_iff. exact Ht.
  - intros _. apply fallback_text_not_empty.
  - destruct (error_body c).
    + unfold parsed_message_text.
      destruct (body_json response) as [e | parsed]; [discriminate | ].
      destruct parsed as [ | | b | n | s | items | fields]; try discriminate.
      destruct (lookup_field "message" fields) as [v | ]; [ | discriminate].
      destruct v as [ | | b | n | s | items | inner]; cbn; try discriminate.
      * destruct b; discriminate.
      * destruct (num_truthy n); discriminate.
      * intros _. destruct (String.eqb_spec s "") as [-> | Hs]; [discriminate | exact Hs].
      * destruct (lookup_field "toString" inner); discriminate.
    + destruct (body_text response) as [[m | v] | errorText]; try discriminate.
      * intros Ht. apply eqb_empty_false. apply negb_true_iff. exact Ht.
      * intros _. apply fallback_text_not_empty.
    + discriminate.
Qed.

(** The message is empty in the cases listed, and in no other when the
    engine's own texts are not empty. *)
Lemma reported_text_empty (c : ApiCall) (o : FetchOutcome) :
  reports_nothing c o = true -> reported_text c o = "".
Proof.
  unfold reports_nothing, reported_text.
  destruct o as [[m | v] | response]; try discriminate.
  - intros Hm. now apply String.eqb_eq.
  - destruct (error_body c); try discriminate.
    + unfold parsed_message_text.
      destruct (body_json response) as [e | parsed]; [discriminate | ].
      destruct parsed as [ | | b | n | s | items | fields]; try discriminate.
      destruct (lookup_field "message" fields) as [v | ]; [ | discriminate].
      destruct v as [ | | b | n | s | items | inner]; try discriminate.
      cbn [truthy]. destruct (ToString (JArr items)) as [shown | ]; [ | discriminate].
      intros Hm. now apply String.eqb_eq.
    + destruct (body_text response) as [[m | v] | errorText]; try discriminate.
      intros Hm. now apply String.eqb_eq.
Qed.

Lemma reported_text_of_engine (c : ApiCall) (o : FetchOutcome) :
  engine_texts_not_empty ->
  reports_nothing c o = false -> reported_text c o <> "".
Proof.
  intros (Hnumber & Hprimitive & Hread).
  unfold reports_nothing, reported_text.
  destruct o as [[m | v] | response].
  - apply eqb_empty_false.
  - intros _. apply fallback_text_not_empty.
  - destruct (error_body c).
    + unfold parsed_message_text.
      destruct (body_json response) as [e | parsed]; [discriminate | ].
      destruct parsed as [ | | b | n | s | items | fields];
        try discriminate; try (intros _; apply Hread).
      destruct (lookup_field "message" fields) as [v | ]; [ | discriminate].
      destruct v as [ | | b | n | s | items | inner]; cbn [truthy]; try discriminate.
      * destruct b; discriminate.
      * intros _. destruct (num_truthy n); [apply Hnumber | discriminate].
      * intros _. destruct (String.eqb_spec s "") as [-> | Hs]; [discriminate | exact Hs].
      * destruct (ToString (JArr items)) as [shown | ]; cbn [default].
        -- apply eqb_empty_false.
        -- intros _. exact Hprimitive.
      * intros _. cbn [ToString]. destruct (lookup_field "toString" inner); cbn [default];
          [exact Hprimitive | discriminate].
    + destruct (body_text response) as [[m | v] | errorText]; try discriminate.
      * apply eqb_empty_false.
      * intros _. apply fallback_text_not_empty.
    + discriminate.
Qed.

(** Whatever went wrong with the fetch, the call resolves with an
    error object that carries the message of what was caught. *)
Lemma continuation_reports (c : ApiCall) (o : FetchOutcome) :
  fetch_failed o = true ->
  exists v,
    continuation_of c o = Fulfil v
    /\ result_status v = JStr "error"
    /\ result_message v = JStr (reported_text c o).
Proof.
  intros Hfail. destruct o as [e | response]; cbn in Hfail.
  - destruct c; cbn; (eexists; split; [reflexivity | ]; split; reflexivity).
  - apply negb_true_iff in Hfail.
    pose proof (json_or_throw_status_fails response Hfail) as Hstatus.
    pose proof (json_or_throw_body_fails response Hfail) as Hbody.
    destruct c; cbn -[json_or_throw_body json_or_throw_status];
      try (rewrite Hbody; cbn; eexists; split; [reflexivity | ]; split; reflexivity);
      try (rewrite Hstatus; cbn; eexists; split; [reflexivity | ]; split; reflexivity).
    + (* getPosts reads the body as text first *)
      rewrite Hfail. cbn. unfold await_text.
      destruct (body_text response) as [e | errorText]; cbn;
        (eexists; split; [reflexivity | ]; split; reflexivity).
    + (* getDashboard *)
      rewrite Hfail. cbn. eexists. split; [reflexivity | ]. split; reflexivity.
Qed.

(** A service call never rejects and never fetches again. *)
Lemma continuation_settles (c : ApiCall) (o : FetchOutcome) :
  exists v, continuation_of c o = Fulfil v.
Proof.
  destruct (fetch_failed o) eqn:Hfail.
  - destruct (continuation_reports c o Hfail) as (v & Hk & _). eauto.
  - destruct o as [e | response]; [discriminate | ].
    cbn in Hfail. apply negb_false_iff in Hfail.
    destruct c; cbn; rewrite ?Hfail;
      unfold json_or_throw_body, json_or_throw_status, await_json, eval,
        DashboardApi.getDashboard_result;
      rewrite ?Hfail; cbn;
      destruct (body_json response) as [thrown | parsed]; cbn; eauto.
    destruct (get_prop parsed "status"); cbn; eauto.
Qed.

Lemma run_awaits_once {S A : Type} (net : S -> Request -> FetchOutcome * S) (s : S)
    (req : Request) (k : FetchOutcome -> Async A) (a : A) :
  k (net s req).1 = Fulfil a ->
  run net s (AwaitFetch req k) = (inr a, [req], (net s req).2).
Proof.
  intros Hk. cbn. destruct (net s req) as [o s1]. cbn in Hk. rewrite Hk. reflexivity.
Qed.

(** Against any network a service call resolves after exactly one
    fetch. *)
Lemma service_call_resolves {S : Type} (net : S -> Request -> FetchOutcome * S) (s : S)
    (c : ApiCall) :
  exists v, run net s (perform c) = (inr v, [request_of c], (net s (request_of c)).2).
Proof.
  destruct (continuation_settles c (net s (request_of c)).1) as (v & Hk).
  exists v. rewrite perform_awaits_once. apply run_awaits_once. exact Hk.
Qed.

(** C1, as amended: for every method of the ten service classes and
    every network, if the method's fetch rejects or resolves with a
    response that is not ok, the method returns (its promise is
    fulfilled, never rejected) an object whose [status] is ['error'] and
    whose [message] is a string, having issued exactly one fetch. The
    message is the message of what the method's [catch] caught. For a
    fetch that rejects it is the message of the [Error], or the method's
    own fallback text when the rejection is no [Error]. For a response
    that is not ok it is the text that names the HTTP status; but the
    methods that read the parsed error body report the body's [message]
    in its place when that is truthy, and [getPosts] reports the error
    of a [response.text()] that rejects. The message is empty when an
    [Error] with an empty message was caught, or when a method that
    reads the error body found a truthy [message] there that converts
    to the empty string, as a list can; it is empty in no other case,
    provided the engine's own texts (numbers in decimal, the messages of
    its [TypeError]s) are not empty, and without this proviso in all the
    cases that do not report a text of the engine. *)
Theorem service_call_reports_failure {S : Type}
    (net : S -> Request -> FetchOutcome * S) (s : S) (c : ApiCall) :
  fetch_failed (net s (request_of c)).1 = true ->
  exists v,
    run net s (perform c) = (inr v, [request_of c], (net s (request_of c)).2)
    /\ result_status v = JStr "error"
    /\ result_message v = JStr (reported_text c (net s (request_of c)).1)
    /\ (reports_nothing c (net s (request_of c)).1 = true ->
        reported_text c (net s (request_of c)).1 = "")
    /\ (engine_texts_not_empty ->
        reports_nothing c (net s (request_of c)).1 = false ->
        reported_text c (net s (request_of c)).1 <> "")
    /\ (failure_has_text c (net s (request_of c)).1 = true ->
        reported_text c (net s (request_of c)).1 <> "").
Proof.
  intros Hfail.
  destruct (continuation_reports c _ Hfail) as (v & Hk & Hstatus & Hmessage).
  exists v. split; [ | split; [exact Hstatus | split; [exact Hmessage | ]]].
  - rewrite perform_awaits_once. apply run_awaits_once. exact Hk.
  - split; [apply reported_text_empty | ].
    split; [apply reported_text_of_engine | apply reported_text_not_empty].
Qed.

(** ** The requests are JSON requests, the upload apart *)


(** C2, as amended: every public method of the service classes other
    than [predictVideo] sends the single header
    [Content-Type: application/json], and its body, when it has one, is
    [JSON.stringify] of an object; [predictVideo] sends the file as
    form data and sets no header. *)
Theorem requests_are_json_but_the_upload (c : ApiCall) :
  is_private c = false ->
  if uploads_a_file c then
    req_headers (request_of c) = []
    /\ exists file, req_body (request_of c) = Some (BodyFormData [("file", file)])
  else
    req_headers (request_of c) = [("Content-Type", "application/json")]
    /\ (req_body (request_of c) = None
        \/ exists fields,
             req_body (request_of c) = Some (BodyText (JSON_stringify (JObj fields)))).
Proof.
  intros Hpublic.
  destruct c; try discriminate Hpublic; cbn;
    (split; [reflexivity | ]);
    first [ left; reflexivity | right; eexists; reflexivity | eexists; reflexivity ].
Qed.

End ServiceProofs.

(** ** The session in localStorage *)

Section SessionProofs.
Context `{NumberOps} `{!Engine}.
Import AuthContext.

Lemma is_string_inv (v : JsValue) (text : string) :
  is_string v text = true -> v = JStr text.
Proof.
  destruct v; cbn; try discriminate.
  intros E. apply String.eqb_eq in E. now subst.
Qed.

(** A value with a string [status] member is an object, so its members
    can be read. *)
Lemma get_prop_of_status (data : JsValue) (text : string) :
  is_string (get_prop_opt data "status") text = true ->
  get_prop data "status" = inr (JStr text).
Proof.
  intros E. destruct data; cbn in *; try discriminate.
  apply is_string_inv in E. now rewrite E.
Qed.

(** C3: a login whose response carries status ["success"], a user and
    a token stores under the key ["authSession"] the serialised session
    object (loggedIn true, that user, that token, createdAt), makes that
    user the current user and returns true, whatever the response's
    status code; a logout removes the key ["authSession"] and makes the
    current user null. *)
Theorem session_is_kept_in_localStorage :
  (forall (S : Type) (net : S -> Request -> FetchOutcome * S) (s : S)
          (now : Number) (email password : string) (st : State)
          (response : Response) (data : JsValue),
      (net s (login_request email password)).1 = Resolves response ->
      body_json response = inr data ->
      is_string (get_prop_opt data "status") "success" = true ->
      truthy (get_prop_opt data "user") = true ->
      truthy (get_prop_opt data "token") = true ->
      exists st',
        run net s (login now email password st)
          = (inr (true, st'), [login_request email password],
             (net s (login_request email password)).2)
        /\ localStorage st'
           = <["authSession" :=
                 JSON_stringify (session_object (get_prop_opt data "user")
                                                (get_prop_opt data "token") now)]>
               (localStorage st)
        /\ user st' = get_prop_opt data "user")
  /\ (forall st : State,
        localStorage (logout st) = delete "authSession" (localStorage st)
        /\ localStorage (logout st) !! "authSession" = None
        /\ user (logout st) = JNull).
Proof.
  split.
  - intros S net s now email password st response data Hnet Hjson Hstatus Huser Htoken.
    eexists. split.
    { unfold login. apply run_awaits_once. fold (login_request email password).
      rewrite Hnet. cbn. unfold await_json. rewrite Hjson. cbn.
      rewrite (get_prop_of_status _ _ Hstatus). cbn.
      rewrite Huser, Htoken. cbn. reflexivity. }
    split; reflexivity.
  - intros st. cbn. split; [reflexivity | ]. split; [ | reflexivity].
    apply lookup_delete_eq.
Qed.


(** C10, as amended: [checkAuth] always completes with [isLoading]
    false. When the key ["authSession"] is absent or holds the empty
    string it changes neither localStorage nor the user. When the stored
    text does not parse, or parses to a value without a truthy
    [loggedIn], [user] or [token], the key is removed and the user is
    null. Otherwise the stored user is taken over or the session is
    cleared. Hence, when the user was null before (as on mount), the user
    is non-null afterwards only if the stored text parsed to an object
    with truthy [loggedIn], [user] and [token]. *)
Theorem checkAuth_keeps_only_usable_sessions {S : Type}
    (net : S -> Request -> FetchOutcome * S) (s : S) (st : State) :
  exists st' requests s',
    run net s (checkAuth st) = (inr st', requests, s')
    /\ isLoading st' = false
    /\ match localStorage st !! "authSession" with
       | None => session_untouched st st'
       | Some sessionRaw =>
           if String.eqb sessionRaw "" then session_untouched st st'
           else
             match JSON_parse sessionRaw with
             | Some session =>
                 if session_usable session
                 then session_taken_over session st st' \/ session_cleared st st'
                 else session_cleared st st'
             | None => session_cleared st st'
             end
       end
    /\ (user st = JNull -> truthy (user st') = true ->
        exists sessionRaw session,
          localStorage st !! "authSession" = Some sessionRaw
          /\ JSON_parse sessionRaw = Some session
          /\ session_usable session = true).
Proof.
  unfold checkAuth, session_untouched, session_taken_over, session_cleared.
  destruct (localStorage st !! "authSession") as [sessionRaw | ] eqn:Hraw.
  2: { eexists _, _, _. split; [reflexivity | ]. cbn.
       repeat split. intros -> Hu. discriminate. }
  destruct (String.eqb sessionRaw "") eqn:Hempty.
  { eexists _, _, _. split; [reflexivity | ]. cbn.
    repeat split. intros -> Hu. discriminate. }
  destruct (JSON_parse sessionRaw) as [session | ] eqn:Hparse.
  2: { eexists _, _, _. split; [reflexivity | ]. cbn.
       repeat split. intros _ Hu. discriminate. }
  destruct (session_usable session) eqn:Husable.
  2: { eexists _, _, _. split; [reflexivity | ]. cbn.
       repeat split. intros _ Hu. discriminate. }
  unfold verify_request.
  destruct (ToString (get_prop_opt session "token")) as [token | ]; cbn.
  2: { eexists _, _, _. split; [reflexivity | ]. cbn. split; [reflexivity | ].
       split; [left; split; reflexivity | eauto]. }
  destruct (net s _) as [[e | response] s1]; cbn.
  { eexists _, _, _. split; [reflexivity | ]. cbn. split; [reflexivity | ].
    split; [left; split; reflexivity | eauto]. }
  destruct (ok response); cbn.
  2: { eexists _, _, _. split; [reflexivity | ]. cbn. split; [reflexivity | ].
       split; [right; split; reflexivity | ]. intros _ Hu. discriminate. }
  unfold await_json. destruct (body_json response) as [e | data]; cbn.
  { eexists _, _, _. split; [reflexivity | ]. cbn. split; [reflexivity | ].
    split; [left; split; reflexivity | eauto]. }
  destruct (get_prop data "status") as [e | data_status]; cbn.
  { eexists _, _, _. split; [reflexivity | ]. cbn. split; [reflexivity | ].
    split; [left; split; reflexivity | eauto]. }
  destruct (is_string data_status "success"); cbn.
  - eexists _, _, _. split; [reflexivity | ]. cbn. split; [reflexivity | ].
    split; [left; split; reflexivity | eauto].
  - eexists _, _, _. split; [reflexivity | ]. cbn. split; [reflexivity | ].
    split; [right; split; reflexivity | ]. intros _ Hu. discriminate.
Qed.

End SessionProofs.

(** ** Running composed async functions *)

Section AsyncProofs.
Context `{NumberOps}.

Lemma run_bind {S A B : Type} (net : S -> Request -> FetchOutcome * S)
    (m : Async A) (f : A -> Async B) :
  forall s,
    run net s (bind m f) =
    match run net s m with
    | (inr a, reqs, s') =>
        let '(r, reqs', s'') := run net s' (f a) in (r, reqs ++ reqs', s'')
    | (inl e, reqs, s') => (inl e, reqs, s')
    end.
Proof.
  induction m as [a | e | req k IH]; intros s; cbn.
  - destruct (run net s (f a)) as [[r reqs'] s'']. reflexivity.
  - reflexivity.
  - destruct (net s req) as [o s1]. rewrite IH.
    destruct (run net s1 (k o)) as [[[e | a] reqs] s'].
    + reflexivity.
    + destruct (run net s' (f a)) as [[r reqs'] s'']. reflexivity.
Qed.

Lemma run_try_catch {S A : Type} (net : S -> Request -> FetchOutcome * S)
    (m : Async A) (handler : Thrown -> Async A) :
  forall s,
    run net s (try_catch m handler) =
    match run net s m with
    | (inr a, reqs, s') => (inr a, reqs, s')
    | (inl e, reqs, s') =>
        let '(r, reqs', s'') := run net s' (handler e) in (r, reqs ++ reqs', s'')
    end.
Proof.
  induction m as [a | e | req k IH]; intros s; cbn.
  - reflexivity.
  - destruct (run net s (handler e)) as [[r reqs'] s'']. reflexivity.
  - destruct (net s req) as [o s1]. rewrite IH.
    destruct (run net s1 (k o)) as [[[e | a] reqs] s'].
    + destruct (run net s' (handler e)) as [[r reqs'] s'']. reflexivity.
    + reflexivity.
Qed.

End AsyncProofs.

(** ** Notifications *)

Section HeaderProofs.
Context `{NumberOps} `{!Engine}.
Import DashboardApi AppHeader.

(** The count of unread notifications starts at 0 and stays a count. *)
Lemma unreadCount_stays_a_count (st : State) :
  (0 <= unreadCount st)%Z ->
  (forall response, (0 <= unreadCount (fetchNotifications_update response st))%Z)
  /\ (forall notificationId, (0 <= unreadCount (mark_as_read_update notificationId st))%Z).
Proof.
  intros Hst. split.
  - intros response. unfold fetchNotifications_update.
    destruct (status response), (DashboardApi.notifications response); cbn; lia.
  - intros notificationId. cbn. lia.
Qed.

Lemma mark_other (notificationId : string) (n : Notification) :
  id n <> notificationId -> mark notificationId n = n.
Proof.
  intros Hne. unfold mark.
  destruct (String.eqb (id n) notificationId) eqn:E; [ | reflexivity].
  apply String.eqb_eq in E. contradiction.
Qed.

Lemma mark_target (notificationId : string) (n : Notification) :
  id n = notificationId ->
  mark notificationId n =
  {| id := id n; title := title n; message := message n; type := type n;
     timestamp := timestamp n; is_read := true |}.
Proof.
  intros E. unfold mark. rewrite E, String.eqb_refl. reflexivity.
Qed.

(** C6: for a signed-in user, [handleMarkAsRead] always ends by
    queueing its state update, whatever the request to the backend did.
    The update keeps the length and order of the notifications, leaves
    every notification with another id as it is, sets [is_read] of the
    notifications with the given id to true and keeps their other
    fields, and takes one off [unreadCount] unless it is 0, where it
    stays: it never gets negative. *)
Theorem mark_as_read_touches_only_target {S : Type}
    (net : S -> Request -> FetchOutcome * S) (s : S)
    (user : option AuthContext.User) (notificationId : string) :
  AuthContext.has_id user = true ->
  (exists requests s',
     run net s (handleMarkAsRead user notificationId)
       = (inr (mark_as_read_update notificationId), requests, s'))
  /\ forall prev : State,
       (0 <= unreadCount prev)%Z ->
       let next := mark_as_read_update notificationId prev in
       length (AppHeader.notifications next) = length (AppHeader.notifications prev)
       /\ (forall (i : nat) (n : Notification),
             AppHeader.notifications prev !! i = Some n ->
             exists n',
               AppHeader.notifications next !! i = Some n'
               /\ (id n <> notificationId -> n' = n)
               /\ (id n = notificationId ->
                   is_read n' = true /\ id n' = id n /\ title n' = title n
                   /\ message n' = message n /\ type n' = type n
                   /\ timestamp n' = timestamp n))
       /\ unreadCount next
          = (if (unreadCount prev =? 0)%Z then 0 else unreadCount prev - 1)%Z
       /\ (0 <= unreadCount next)%Z.
Proof.
  intros Huser. split.
  - destruct user as [u | ]; [ | discriminate]. cbn in Huser.
    unfold handleMarkAsRead. rewrite Huser.
    destruct (service_call_resolves net s
                (Dashboard_markNotificationRead notificationId (AuthContext.id u)))
      as (v & Hrun).
    cbn [perform] in Hrun.
    rewrite run_try_catch.
    change (mbind ?f ?m) with (bind m f).
    rewrite run_bind, Hrun. cbn. eauto.
  - intros prev Hprev next. subst next. cbn.
    split; [apply length_map | ].
    split.
    + intros i n Hi. exists (mark notificationId n). split.
      * rewrite list_lookup_fmap, Hi. reflexivity.
      * split.
        -- apply mark_other.
        -- intros E. rewrite (mark_target _ _ E). cbn. repeat split.
    + split; [ | lia].
      destruct (Z.eqb_spec (unreadCount prev) 0); lia.
Qed.

End HeaderProofs.

(** ** Polling *)

Section PollingProofs.

(** Clearing the handle [setInterval] has just returned restores the
    active timers. *)
Lemma clearInterval_setInterval (callback : Callback) (delay : Z) (ts : Timers) :
  timers_wf ts ->
  active (clearInterval (setInterval callback delay ts).1 (setInterval callback delay ts).2)
  = active ts.
Proof.
  unfold timers_wf. intros Hwf. cbn.
  rewrite List.filter_app. cbn. rewrite Nat.eqb_refl. cbn. rewrite app_nil_r.
  induction Hwf as [ | t rest Ht Hrest IH]; cbn; [reflexivity | ].
  destruct (Nat.eqb_spec (timer_id t) (next_id ts)) as [E | _]; [lia | ].
  cbn. now rewrite IH.
Qed.


Lemma setInterval_polls (callback : Callback) (delay : Z) (ts : Timers) :
  (0 < delay)%Z -> timers_wf ts ->
  polls callback delay ts
    (let '(interval, ts') := setInterval callback delay ts in
     {| called := [callback]; timers := ts'; cleanup := Some (clearInterval interval) |}).
Proof.
  intros Hdelay Hwf. unfold polls. cbn -[clearInterval].
  split; [reflexivity | ]. split; [reflexivity | ]. split.
  - intros k Hk. unfold firings. cbn. rewrite Z.mul_comm. apply Z.div_mul. lia.
  - eexists. split; [reflexivity | ].
    exact (clearInterval_setInterval callback delay ts Hwf).
Qed.

(** C5: with a signed-in user the header polls the notifications every
    30000 ms and the dashboard its data every 30000 ms; the forum polls
    its posts every 10000 ms. Each effect fetches once at once, sets one
    interval timer and returns a cleanup that cancels it. *)
Theorem pages_poll_on_fixed_intervals (user : option AuthContext.User) (ts : Timers) :
  AuthContext.has_id user = true ->
  timers_wf ts ->
  polls fetchNotifications 30000 ts (AppHeader.polling_effect user true ts)
  /\ polls fetchDashboardData 30000 ts (Dashboard.polling_effect user ts)
  /\ polls fetchPosts 10000 ts (Forum.polling_effect ts).
Proof.
  intros Huser Hwf.
  unfold AppHeader.polling_effect, Dashboard.polling_effect, Forum.polling_effect.
  rewrite Huser. cbn [andb].
  split; [ | split]; apply setInterval_polls; (lia || exact Hwf).
Qed.

End PollingProofs.

(** ** The password form *)

Section PasswordProofs.
Context `{NumberOps}.
Import Profile.

Lemma dot_star_then_finds (class : ascii -> bool) (s : string) :
  dot_star_then class s = true -> existsb class (characters s) = true.
Proof.
  induction s as [ | c rest IH]; cbn; [discriminate | ].
  intros Hm. apply orb_true_iff in Hm as [Hc | Hrest].
  - now rewrite Hc.
  - apply andb_true_iff in Hrest as [_ Hrest]. rewrite (IH Hrest). apply orb_true_r.
Qed.

(** The unanchored lookahead finds a character of the class wherever it
    stands: line terminators before it are skipped by starting the match
    later. *)
Lemma lookahead_test_contains (class : ascii -> bool) (s : string) :
  lookahead_test class s = existsb class (characters s).
Proof.
  induction s as [ | c rest IH]; [reflexivity | ].
  cbn [lookahead_test characters existsb]. rewrite IH.
  destruct (dot_star_then class (String c rest)) eqn:Hd.
  - apply dot_star_then_finds in Hd. cbn in Hd. now rewrite Hd.
  - cbn in Hd. apply orb_false_iff in Hd as [Hc _]. now rewrite Hc.
Qed.

Lemma existsb_characters (class : ascii -> bool) (s : string) :
  existsb class (characters s) = true <->
  exists c, In c (characters s) /\ class c = true.
Proof. apply existsb_exists. Qed.

Lemma validatePassword_accepts (password : string) :
  validatePassword password = None <->
  8 <= length_utf16 password
  /\ existsb (in_range "a" "z") (characters password) = true
  /\ existsb (in_range "A" "Z") (characters password) = true
  /\ existsb (in_range "0" "9") (characters password) = true.
Proof.
  unfold validatePassword. rewrite !lookahead_test_contains.
  destruct (Nat.ltb_spec (length_utf16 password) 8) as [Hshort | Hlong].
  { split; [discriminate | lia]. }
  destruct (existsb (in_range "a" "z") (characters password)); cbn;
    [ | split; [discriminate | intros (_ & E & _); discriminate]].
  destruct (existsb (in_range "A" "Z") (characters password)); cbn;
    [ | split; [discriminate | intros (_ & _ & E & _); discriminate]].
  destruct (existsb (in_range "0" "9") (characters password)); cbn;
    [ | split; [discriminate | intros (_ & _ & _ & E); discriminate]].
  split; auto.
Qed.



End PasswordProofs.

(** ** The upload guards *)

Section UploadProofs.
Context `{NumberOps}.

Lemma includes_In (l : list string) (x : string) :
  Dashboard.includes l x = true <-> In x l.
Proof.
  unfold Dashboard.includes. rewrite existsb_exists. split.
  - intros (y & Hy & E). apply String.eqb_eq in E. now subst.
  - intros Hx. exists x. split; [exact Hx | apply String.eqb_refl].
Qed.

(** Both pages check a file the same way. *)
Lemma handleFileSelect_accepts_as_validateFile (file : File) (st : Dashboard.State) :
  UploadPage.validateFile file = None ->
  Dashboard.handleFileSelect file st
  = Dashboard.startUpload file (Dashboard.setSelectedFile file st).
Proof.
  unfold UploadPage.validateFile, Dashboard.handleFileSelect.
  change UploadPage.allowedTypes with Dashboard.allowedTypes.
  change UploadPage.maxSize with Dashboard.maxSize.
  destruct (Dashboard.includes Dashboard.allowedTypes (file_type file)); cbn;
    [ | discriminate].
  destruct (file_size file >? Dashboard.maxSize)%Z; [discriminate | reflexivity].
Qed.

(** C9: [validateFile] returns null exactly for the files whose MIME
    type is one of video/mp4, video/avi, video/mov, video/webm and
    video/quicktime and whose size is at most 500*1024*1024 bytes; for
    every other file it returns a message, and the Dashboard's
    [handleFileSelect] neither stores the file nor starts an upload: the
    selected file, the upload flags and the timers stay as they were. *)
Theorem upload_is_guarded (file : File) (st : Dashboard.State) :
  (UploadPage.validateFile file = None <->
   In (file_type file)
      ["video/mp4"; "video/avi"; "video/mov"; "video/webm"; "video/quicktime"]
   /\ (file_size file <= 500 * 1024 * 1024)%Z)
  /\ (UploadPage.validateFile file <> None ->
      (exists text, UploadPage.validateFile file = Some text)
      /\ Dashboard.selectedFile (Dashboard.handleFileSelect file st)
         = Dashboard.selectedFile st
      /\ Dashboard.uploading (Dashboard.handleFileSelect file st) = Dashboard.uploading st
      /\ Dashboard.uploadProgress (Dashboard.handleFileSelect file st)
         = Dashboard.uploadProgress st
      /\ Dashboard.page_timers (Dashboard.handleFileSelect file st)
         = Dashboard.page_timers st).
Proof.
  assert (Hiff : UploadPage.validateFile file = None <->
                 In (file_type file) UploadPage.allowedTypes
                 /\ (file_size file <= UploadPage.maxSize)%Z).
  { unfold UploadPage.validateFile. rewrite <- includes_In.
    destruct (Dashboard.includes UploadPage.allowedTypes (file_type file)); cbn.
    - destruct (Z.gtb_spec (file_size file) UploadPage.maxSize).
      + split; [discriminate | lia].
      + split; [intros _; split; [reflexivity | lia] | reflexivity].
    - split; [discriminate | intros [E _]; discriminate]. }
  split; [exact Hiff | ].
  intros Hrejected.
  split.
  { destruct (UploadPage.validateFile file) as [text | ]; [eauto | contradiction]. }
  unfold UploadPage.validateFile in Hrejected. unfold Dashboard.handleFileSelect.
  change UploadPage.allowedTypes with Dashboard.allowedTypes in Hrejected.
  change UploadPage.maxSize with Dashboard.maxSize in Hrejected.
  destruct (Dashboard.includes Dashboard.allowedTypes (file_type file)); cbn in *;
    [ | repeat split].
  destruct (file_size file >? Dashboard.maxSize)%Z; [repeat split | contradiction].
Qed.

End UploadProofs.

(** ** The exports *)


Section ExportProofs.
Context `{NumberOps} `{!Engine}.
Import AdminApi AdminContent.

Lemma no_line_feed_append (a b : string) :
  no_line_feed (a +:+ b) = no_line_feed a && no_line_feed b.
Proof.
  induction a as [ | c a IH]; [reflexivity | ].
  change (String c a +:+ b) with (String c (a +:+ b)).
  cbn [no_line_feed]. now rewrite IH, andb_assoc.
Qed.

Lemma split_line (line : string) :
  no_line_feed line = true -> split LF line = [line].
Proof.
  induction line as [ | c line IH]; cbn; [reflexivity | ].
  intros Hl. apply andb_true_iff in Hl as [Hc Hl].
  apply negb_true_iff in Hc. rewrite Hc, (IH Hl). reflexivity.
Qed.

Lemma split_first_line (line rest : string) :
  no_line_feed line = true ->
  split LF (line +:+ String LF rest) = line :: split LF rest.
Proof.
  induction line as [ | c line IH].
  - intros _. reflexivity.
  - change (String c line +:+ String LF rest) with (String c (line +:+ String LF rest)).
    cbn [no_line_feed split]. intros Hl. apply andb_true_iff in Hl as [Hc Hl].
    apply negb_true_iff in Hc. rewrite Hc, (IH Hl). reflexivity.
Qed.

(** Splitting at line feeds undoes joining with line feeds when no
    part holds one. *)
Lemma split_join_lines (first : string) (others : list string) :
  forallb no_line_feed (first :: others) = true ->
  split LF (join (String LF "") (first :: others)) = first :: others.
Proof.
  revert first. induction others as [ | second others IH]; intros first Hall.
  - cbn in Hall. rewrite andb_true_r in Hall. now apply split_line.
  - cbn [forallb] in Hall. apply andb_true_iff in Hall as [Hfirst Hrest].
    change (join (String LF "") (first :: second :: others))
      with (first +:+ String LF "" +:+ join (String LF "") (second :: others)).
    change (String LF "" +:+ ?x) with (String LF x).
    rewrite (split_first_line _ _ Hfirst). f_equal. now apply IH.
Qed.

Lemma no_line_feed_join_commas (cells : list string) :
  forallb no_line_feed cells = true ->
  no_line_feed (join "," (map quoted cells)) = true.
Proof.
  induction cells as [ | cell cells IH]; [reflexivity | ].
  cbn [forallb]. intros Hall. apply andb_true_iff in Hall as [Hcell Hcells].
  assert (Hq : no_line_feed (quoted cell) = true).
  { unfold quoted. cbn -[String.append]. rewrite no_line_feed_append, Hcell. reflexivity. }
  destruct cells as [ | next cells]; [exact Hq | ].
  change (join "," (map quoted (cell :: next :: cells)))
    with (quoted cell +:+ "," +:+ join "," (map quoted (next :: cells))).
  rewrite !no_line_feed_append, Hq, (IH Hcells). reflexivity.
Qed.

Lemma csv_lines_on_one_line (filtered : list Report) :
  forallb row_on_one_line filtered = true ->
  forallb no_line_feed (map (fun r => csv_line (csv_row r)) filtered) = true.
Proof.
  induction filtered as [ | r filtered IH]; [reflexivity | ].
  cbn [forallb map]. intros Hall. apply andb_true_iff in Hall as [Hr Hrest].
  rewrite (IH Hrest), andb_true_r.
  apply no_line_feed_join_commas. exact Hr.
Qed.

Lemma table_cells_app (a b : list PdfCall) :
  table_cells (a ++ b) = table_cells a ++ table_cells b.
Proof.
  induction a as [ | call a IH]; [reflexivity | ].
  destruct call as [ | | role content x y centered | | ]; cbn; try exact IH.
  destruct role; cbn; try exact IH. now rewrite IH.
Qed.

Lemma notes_app (a b : list PdfCall) : notes (a ++ b) = notes a ++ notes b.
Proof.
  induction a as [ | call a IH]; [reflexivity | ].
  destruct call as [ | | role content x y centered | | ]; cbn; try exact IH.
  destruct role; cbn; try exact IH. now rewrite IH.
Qed.

Lemma column_headers_hold_no_cells (cells : list string) (i : nat) (xPos yPos : Q) :
  table_cells (draw_cells role_column_header cells i xPos yPos) = []
  /\ notes (draw_cells role_column_header cells i xPos yPos) = [].
Proof.
  revert i xPos. induction cells as [ | cell cells IH]; intros i xPos; cbn; [auto | apply IH].
Qed.

Lemma row_holds_its_cells (index : nat) (cells : list string) (i : nat) (xPos yPos : Q) :
  table_cells (draw_cells (role_cell index) cells i xPos yPos) = numbered_cells index i cells
  /\ notes (draw_cells (role_cell index) cells i xPos yPos) = [].
Proof.
  revert i xPos. induction cells as [ | cell cells IH]; intros i xPos;
    cbn [draw_cells table_cells notes numbered_cells]; [auto | ].
  destruct (IH (S i) (xPos + nth i colWidths 0)%Q) as [-> ->]. auto.
Qed.

(** The row loop writes the cells of the rows it is given, whatever
    page breaks fall between them. *)
Lemma rows_hold_their_cells (pageHeight : Q) (shown : list Report) :
  forall (index : nat) (yPos : Q),
    table_cells (draw_rows pageHeight shown index yPos) = table_of index shown
    /\ notes (draw_rows pageHeight shown index yPos) = [].
Proof.
  induction shown as [ | report shown IH]; intros index yPos; [cbn; auto | ].
  cbn [draw_rows table_of].
  rewrite !table_cells_app, !notes_app.
  destruct (row_holds_its_cells index (pdf_row report) 0 margin
              (if negb (Qle_bool yPos (pageHeight - 30)) then (margin + 8)%Q else yPos))
    as [-> ->].
  destruct (IH (S index)
              ((if negb (Qle_bool yPos (pageHeight - 30)) then (margin + 8)%Q else yPos) + 6)%Q)
    as [-> ->].
  destruct (negb (Qle_bool yPos (pageHeight - 30))).
  - rewrite !table_cells_app, !notes_app.
    destruct (column_headers_hold_no_cells pdf_headers 0 margin margin) as [-> ->].
    cbn. auto.
  - cbn. auto.
Qed.

Lemma preamble_holds_no_cells (pageWidth : Q) (exportDate : string)
    (stats : option Statistics) :
  table_cells (pdf_preamble pageWidth exportDate stats).1 = []
  /\ notes (pdf_preamble pageWidth exportDate stats).1 = [].
Proof.
  unfold pdf_preamble.
  destruct (draw_statistics stats (margin + 10 + 10 + 8)%Q) as [summary yPos'] eqn:Hs.
  cbn [fst]. rewrite !table_cells_app, !notes_app.
  destruct (column_headers_hold_no_cells pdf_headers 0 margin yPos') as [-> ->].
  assert (Hsum : table_cells summary = [] /\ notes summary = []).
  { destruct stats; cbn in Hs; injection Hs as <- _; cbn; auto. }
  destruct Hsum as [-> ->]. cbn. auto.
Qed.

Lemma numbered_cells_length (index i : nat) (cells : list string) :
  length (numbered_cells index i cells) = length cells.
Proof.
  revert i. induction cells as [ | cell cells IH]; intros i; cbn; [reflexivity | ].
  now rewrite IH.
Qed.

Lemma table_of_length (shown : list Report) :
  forall index, length (table_of index shown) = 6 * length shown.
Proof.
  induction shown as [ | report shown IH]; intros index; [reflexivity | ].
  cbn [table_of]. rewrite length_app, numbered_cells_length, IH. cbn. lia.
Qed.

(** C8, as amended: for a non-empty filtered list [exportToCSV] hands
    over one CSV text: the fixed six-column header followed by one row
    per filtered report, all of them and in order, joined by line feeds,
    each row being its six cells between double quotes joined by commas.
    Read line by line, the text is the header line followed by exactly
    one line per report whenever no cell holds a line feed. [exportToPDF]
    writes into its table the cells of the first 25 filtered reports and
    of no other, and exactly when there are more than 25 it appends a
    fresh page with the note that the first 25 of them are shown. *)
Theorem exports_cover_the_filtered_reports
    (pageWidth pageHeight : Q) (exportDate isoDate : string) (st : State) :
  filteredReports st <> [] ->
  (downloads (exportToCSV isoDate st)
   = downloads st
     ++ [csv_file ("reports_export_" +:+ isoDate +:+ ".csv") "text/csv;charset=utf-8;"
                  (csvContent (filteredReports st))]
   /\ csvContent (filteredReports st)
      = join (String LF "")
             (csv_header_line :: map (fun r => csv_line (csv_row r)) (filteredReports st))
   /\ (forall r : Report,
         length (csv_row r) = 6
         /\ csv_line (csv_row r)
            = join "," (map (fun cell => String "034"%char (cell +:+ String "034"%char ""))
                            (csv_row r)))
   /\ (forallb row_on_one_line (filteredReports st) = true ->
       split LF (csvContent (filteredReports st))
       = csv_header_line :: map (fun r => csv_line (csv_row r)) (filteredReports st)))
  /\ exists front,
       downloads (exportToPDF pageWidth pageHeight exportDate isoDate st)
       = downloads st
         ++ [pdf_file (front ++ pdf_note (filteredReports st)
                       ++ [save ("reports_export_" +:+ isoDate +:+ ".pdf")])]
       /\ table_cells front = table_of 0 (firstn 25 (filteredReports st))
       /\ length (table_cells front) = 6 * min 25 (length (filteredReports st))
       /\ notes front = []
       /\ pdf_note (filteredReports st)
          = if (25 <? length (filteredReports st))%nat then
              [addPage; setFontSize 12;
               text role_note
                    ("Note: Showing first 25 of "
                     +:+ nat_to_string (length (filteredReports st)) +:+ " reports")
                    margin margin false]
            else [].
Proof.
  intros Hnonempty. split.
  - split.
    { destruct st as [r f l q rf df dt sr sd de ex stat n d]. cbn in *.
      destruct f; [contradiction | reflexivity]. }
    split; [reflexivity | ]. split; [intros r; split; reflexivity | ].
    intros Hlines. unfold csvContent.
    change (join "," csv_headers) with csv_header_line.
    apply split_join_lines. cbn [forallb].
    rewrite (csv_lines_on_one_line _ Hlines). reflexivity.
  - exists ((pdf_preamble pageWidth exportDate (page_statistics st)).1
            ++ draw_rows pageHeight (firstn 25 (filteredReports st)) 0
                 (pdf_preamble pageWidth exportDate (page_statistics st)).2).
    split.
    { destruct st as [r f l q rf df dt sr sd de ex stat n d]. cbn in *.
      destruct f as [ | r0 f]; [contradiction | ].
      unfold exportToPDF, pdf_document.
      cbn -[pdf_preamble draw_rows pdf_note firstn].
      destruct (pdf_preamble pageWidth exportDate stat) as [preamble yPos].
      cbn [fst snd]. rewrite <- app_assoc. reflexivity. }
    rewrite table_cells_app, notes_app.
    destruct (preamble_holds_no_cells pageWidth exportDate (page_statistics st)) as [-> ->].
    destruct (rows_hold_their_cells pageHeight (firstn 25 (filteredReports st)) 0
                (pdf_preamble pageWidth exportDate (page_statistics st)).2) as [-> ->].
    cbn [app]. split; [reflexivity | ]. split.
    { rewrite table_of_length, length_firstn. reflexivity. }
    split; reflexivity.
Qed.

End ExportProofs.

(** ** Deleting a report *)

Section DeleteProofs.
Context `{NumberOps} `{!Engine}.
Import AdminApi AdminContent Backend.

Variable matches : ReportFilters -> Report -> bool.

Lemma filter_keeps_Forall {A : Type} (P : A -> Prop) (keep : A -> bool) (l : list A) :
  Forall P l -> Forall P (List.filter keep l).
Proof.
  induction 1 as [ | x l Hx Hl IH]; cbn; [constructor | ].
  destruct (keep x); [constructor | ]; assumption.
Qed.

Lemma delete_rows_removes (reportId : string) (server : Server) :
  Forall (fun r => id r <> reportId) (report_rows (delete_rows reportId server)).
Proof.
  cbn. induction (report_rows server) as [ | r rows IH]; cbn; [constructor | ].
  destruct (String.eqb_spec (id r) reportId) as [E | E]; cbn; [exact IH | ].
  constructor; assumption.
Qed.

(** C4: when an admin deletes the selected report, the delete request
    and the refetch of the listing both reach the backend, then no
    report with the deleted id is in the page's [reports] afterwards,
    nor among the filtered reports derived from them, nor in the
    backend's table. *)
Theorem deleted_report_leaves_the_listing
    (user : option AuthContext.User) (st : State) (selected : Report) (server : Server) :
  AuthContext.has_id user = true ->
  selectedReport st = Some selected ->
  Forall (fun up => up = true) (firstn 2 (reachable server)) ->
  exists adminId filters,
    (run_task (answer matches) server (handleDeleteReport user st)).1.2
    = [existT _ (AdminApiService_deleteReport (id selected) adminId);
       existT _ (AdminApiService_getAllReports adminId filters)]
    /\ Forall (fun r => id r <> id selected)
              (reports (run_task (answer matches) server (handleDeleteReport user st)).1.1)
    /\ Forall (fun r => id r <> id selected)
              (filteredReports
                 (filterReports
                    (run_task (answer matches) server (handleDeleteReport user st)).1.1))
    /\ Forall (fun r => id r <> id selected)
              (report_rows (run_task (answer matches) server (handleDeleteReport user st)).2).
Proof.
  intros Huser Hselected Hup.
  unfold handleDeleteReport. rewrite Hselected, Huser.
  assert (Hdeleted := delete_rows_removes (id selected)).
  destruct server as [rows [ | up1 [ | up2 later]]]; cbn in Hup.
  - eexists _, _. cbn. split; [reflexivity | ].
    specialize (Hdeleted {| report_rows := rows; reachable := [] |}). cbn in Hdeleted.
    destruct st. cbn.
    repeat split;
      repeat first [ exact Hdeleted
                   | apply filter_keeps_Forall
                   | match goal with
                     | |- context [if ?b then _ else _] => destruct b
                     end ].
  - apply Forall_cons in Hup as [-> _].
    eexists _, _. cbn. split; [reflexivity | ].
    specialize (Hdeleted {| report_rows := rows; reachable := [] |}). cbn in Hdeleted.
    destruct st. cbn.
    repeat split;
      repeat first [ exact Hdeleted
                   | apply filter_keeps_Forall
                   | match goal with
                     | |- context [if ?b then _ else _] => destruct b
                     end ].
  - apply Forall_cons in Hup as [-> Hup]. apply Forall_cons in Hup as [-> _].
    eexists _, _. cbn. split; [reflexivity | ].
    specialize (Hdeleted {| report_rows := rows; reachable := later |}). cbn in Hdeleted.
    destruct st. cbn.
    repeat split;
      repeat first [ exact Hdeleted
                   | apply filter_keeps_Forall
                   | match goal with
                     | |- context [if ?b then _ else _] => destruct b
                     end ].
Qed.

(** When the refetch does not get through, the page keeps the list it
    had, the deleted report included. *)
Lemma failed_refetch_keeps_the_old_listing
    (user : option AuthContext.User) (st : State) (selected : Report)
    (rows : list Report) (later : list bool) :
  AuthContext.has_id user = true ->
  selectedReport st = Some selected ->
  reports (run_task (answer matches)
             {| report_rows := rows; reachable := true :: false :: later |}
             (handleDeleteReport user st)).1.1
  = reports st.
Proof.
  intros Huser Hselected.
  unfold handleDeleteReport. rewrite Hselected, Huser. cbn.
  destruct st. reflexivity.
Qed.

End DeleteProofs.


(** ** Signing in, reloading and signing out *)

Section SessionRoundTrips.
Context `{NumberOps} `{!Engine}.
Import AuthContext.

(** X1: whatever the network does, [login] settles after exactly one
    fetch and never rejects. When it returns false it has changed
    neither localStorage nor the user and has shown one error toast;
    it returns true only for a response whose parsed body has status
    ["success"], a user and a token, and the user is then signed in. *)
Theorem login_settles_after_one_fetch {S : Type}
    (net : S -> Request -> FetchOutcome * S) (s : S)
    (now : Number) (email password : string) (st : State) :
  exists (b : bool) (st' : State),
    run net s (login now email password st)
      = (inr (b, st'), [login_request email password],
         (net s (login_request email password)).2)
    /\ isLoading st' = isLoading st
    /\ (b = false ->
        localStorage st' = localStorage st /\ user st' = user st
        /\ exists shown, toasts st' = toasts st ++ [toast_error shown])
    /\ (b = true ->
        isAuthenticated st' = true
        /\ exists response data,
             (net s (login_request email password)).1 = Resolves response
             /\ body_json response = inr data
             /\ is_string (get_prop_opt data "status") "success" = true
             /\ truthy (get_prop_opt data "user") = true
             /\ truthy (get_prop_opt data "token") = true).
Proof.
  unfold login. fold (login_request email password).
  cbn. destruct (net s (login_request email password)) as [[e | response] s1]; cbn.
  { eexists _, _. split; [reflexivity | ]. cbn. split; [reflexivity | ].
    split; [ | discriminate]. intros _. repeat split. eauto. }
  unfold await_json. destruct (body_json response) as [e | data] eqn:Hjson; cbn.
  { eexists _, _. split; [reflexivity | ]. cbn. split; [reflexivity | ].
    split; [ | discriminate]. intros _. repeat split. eauto. }
  destruct (get_prop data "status") as [e | data_status] eqn:Hstatus; cbn.
  { eexists _, _. split; [reflexivity | ]. cbn. split; [reflexivity | ].
    split; [ | discriminate]. intros _. repeat split. eauto. }
  destruct (is_string data_status "success" && truthy (get_prop_opt data "user")
            && truthy (get_prop_opt data "token")) eqn:Hcond; cbn.
  - eexists _, _. split; [reflexivity | ]. cbn. split; [reflexivity | ].
    split; [discriminate | ]. intros _.
    apply andb_true_iff in Hcond as [Hcond Htoken].
    apply andb_true_iff in Hcond as [Hsuccess Huser].
    split; [exact Huser | ].
    exists response, data. repeat split; try assumption.
    destruct data; cbn in *; try discriminate; congruence.
  - eexists _, _. split; [reflexivity | ]. cbn. split; [reflexivity | ].
    split; [ | discriminate]. intros _. repeat split. eauto.
Qed.

(** What [checkAuth] does with a stored session it can use. *)
Lemma checkAuth_on_usable_session {S : Type}
    (net : S -> Request -> FetchOutcome * S) (s : S) (st : State)
    (sessionRaw : string) (session : JsValue) :
  localStorage st !! "authSession" = Some sessionRaw ->
  sessionRaw <> "" ->
  JSON_parse sessionRaw = Some session ->
  session_usable session = true ->
  exists st' s',
    run net s (checkAuth st) = (inr st', verify_requests session, s')
    /\ isLoading st' = false
    /\ toasts st' = toasts st
    /\ if denied net s session then session_cleared st st'
       else session_taken_over session st st'.
Proof.
  intros Hraw Hne Hparse Husable.
  unfold checkAuth, denied, verify_requests, session_cleared, session_taken_over.
  rewrite Hraw.
  destruct (String.eqb_spec sessionRaw "") as [E | _]; [contradiction | ].
  rewrite Hparse, Husable.
  destruct (verify_request session) as [e | request]; cbn.
  { eexists _, _. split; [reflexivity | ]. cbn. repeat split. }
  destruct (net s request) as [[e | response] s1]; cbn.
  { eexists _, _. split; [reflexivity | ]. cbn. repeat split. }
  destruct (ok response); cbn.
  2: { eexists _, _. split; [reflexivity | ]. cbn. repeat split. }
  unfold await_json. destruct (body_json response) as [e | data]; cbn.
  { eexists _, _. split; [reflexivity | ]. cbn. repeat split. }
  destruct (get_prop data "status") as [e | data_status]; cbn.
  { eexists _, _. split; [reflexivity | ]. cbn. repeat split. }
  destruct (is_string data_status "success"); cbn;
    eexists _, _; (split; [reflexivity | ]); cbn; repeat split.
Qed.

(** X2: for a stored session that parses and has a truthy [loggedIn],
    [user] and [token], [checkAuth] makes at most one request, the
    verify request, and clears the session only when the backend turns
    it down: with a response that is not ok, or with an ok response
    whose parsed body has a status other than ["success"]. In every
    other case (the fetch rejects, the body of an ok response cannot be
    read or is [null], the token has no string form) the stored user is
    taken over and localStorage is left as it is. *)
Theorem checkAuth_clears_only_on_denial {S : Type}
    (net : S -> Request -> FetchOutcome * S) (s : S) (st : State)
    (sessionRaw : string) (session : JsValue) :
  localStorage st !! "authSession" = Some sessionRaw ->
  sessionRaw <> "" ->
  JSON_parse sessionRaw = Some session ->
  session_usable session = true ->
  exists st' s',
    run net s (checkAuth st) = (inr st', verify_requests session, s')
    /\ length (verify_requests session) <= 1
    /\ Forall (fun request =>
                 req_url request = API_BASE_URL +:+ "/auth/verify"
                 /\ req_method request = Some "POST"
                 /\ req_body request = json_body [("token", get_prop_opt session "token")])
              (verify_requests session)
    /\ isLoading st' = false
    /\ if denied net s session
       then user st' = JNull
            /\ localStorage st' = delete "authSession" (localStorage st)
       else user st' = get_prop_opt session "user"
            /\ localStorage st' = localStorage st.
Proof.
  intros Hraw Hne Hparse Husable.
  destruct (checkAuth_on_usable_session net s st sessionRaw session Hraw Hne Hparse Husable)
    as (st' & s' & Hrun & Hloading & _ & Hverdict).
  exists st', s'. split; [exact Hrun | ].
  split; [ | split; [ | split; [exact Hloading | exact Hverdict]]].
  - unfold verify_requests. destruct (verify_request session); cbn; lia.
  - unfold verify_requests, verify_request.
    destruct (ToString (get_prop_opt session "token")); repeat constructor.
Qed.

(** X3: a login that succeeds, followed by a reload of the page, signs
    the same user in again unless the backend turns the session down,
    provided the engine parses the session text it has written back to
    the session (and writes a text that is not empty). *)
Theorem reload_after_login_restores_the_user {S : Type}
    (net : S -> Request -> FetchOutcome * S) (s : S)
    (now : Number) (email password : string) (st : State)
    (response : Response) (data : JsValue) :
  let session := session_object (get_prop_opt data "user") (get_prop_opt data "token") now in
  JSON_parse (JSON_stringify session) = Some session ->
  JSON_stringify session <> "" ->
  (net s (login_request email password)).1 = Resolves response ->
  body_json response = inr data ->
  is_string (get_prop_opt data "status") "success" = true ->
  truthy (get_prop_opt data "user") = true ->
  truthy (get_prop_opt data "token") = true ->
  exists st1 s1 st2 s2,
    run net s (login now email password st)
      = (inr (true, st1), [login_request email password], s1)
    /\ run net s1 (checkAuth (reload st1)) = (inr st2, verify_requests session, s2)
    /\ isLoading st2 = false
    /\ if denied net s1 session
       then user st2 = JNull /\ localStorage st2 !! "authSession" = None
       else user st2 = user st1 /\ isAuthenticated st2 = true
            /\ localStorage st2 = localStorage st1.
Proof.
  intros session Hround Hwritten Hnet Hjson Hstatus Huser Htoken.
  assert (Hlogin : run net s (login now email password st)
                   = (inr (true,
                           show (toast_success "Login successful! Redirecting…")
                             (setUser (get_prop_opt data "user")
                                (localStorage_setItem "authSession" (JSON_stringify session)
                                   st))),
                      [login_request email password],
                      (net s (login_request email password)).2)).
  { unfold login. apply run_awaits_once. fold (login_request email password).
    rewrite Hnet. cbn. unfold await_json. rewrite Hjson. cbn.
    rewrite (get_prop_of_status _ _ Hstatus). cbn.
    rewrite Huser, Htoken. cbn. reflexivity. }
  assert (Husable : session_usable session = true).
  { unfold session_usable, session. cbn. rewrite Huser, Htoken. reflexivity. }
  eexists _, _. 
  match type of Hlogin with _ = (inr (true, ?st1), _, ?s1) =>
    assert (Hstored : localStorage (reload st1) !! "authSession"
                      = Some (JSON_stringify session))
      by (cbn; apply lookup_insert_eq);
    destruct (checkAuth_on_usable_session net s1 (reload st1) _ session
                Hstored Hwritten Hround Husable)
      as (st2 & s2 & Hrun & Hloading & _ & Hverdict)
  end.
  exists st2, s2. split; [exact Hlogin | ]. split; [exact Hrun | ].
  split; [exact Hloading | ].
  destruct (denied net _ session).
  - destruct Hverdict as [Hu Hl]. split; [exact Hu | ].
    rewrite Hl. apply lookup_delete_eq.
  - destruct Hverdict as [Hu Hl]. cbn in Hu, Hl |- *.
    split; [exact Hu | ]. split; [ | exact Hl].
    unfold isAuthenticated. rewrite Hu. exact Huser.
Qed.

(** X4: after a logout, [checkAuth] (called again by a page, or on a
    reload) makes no request and leaves the user signed out. *)
Theorem checkAuth_after_logout_stays_signed_out {S : Type}
    (net : S -> Request -> FetchOutcome * S) (s : S) (st : State) :
  (exists st',
     run net s (checkAuth (logout st)) = (inr st', [], s)
     /\ user st' = JNull /\ isAuthenticated st' = false /\ isLoading st' = false
     /\ localStorage st' !! "authSession" = None)
  /\ (exists st',
        run net s (checkAuth (reload (logout st))) = (inr st', [], s)
        /\ user st' = JNull /\ isAuthenticated st' = false /\ isLoading st' = false
        /\ localStorage st' !! "authSession" = None).
Proof.
  assert (Hgone : delete "authSession" (localStorage st) !! "authSession" = None)
    by apply lookup_delete_eq.
  split; unfold checkAuth; cbn; rewrite Hgone; cbn;
    eexists; (split; [reflexivity | ]); cbn; repeat split; exact Hgone.
Qed.

Lemma isAdmin_is_authenticated (st : State) :
  isAdmin st = true -> isAuthenticated st = true.
Proof.
  unfold isAdmin, isAuthenticated. destruct (user st); cbn; try discriminate. reflexivity.
Qed.

(** X5: [AdminRoute] renders its children exactly when the context is
    not loading and its user is an object whose [role] is ["admin"].
    Whenever it redirects, its effect shows exactly one toast: to
    ["/login"] for no user, to ["/dashboard"] for a user who is no
    admin; while loading and when it renders the children no toast is
    shown. *)
Theorem AdminRoute_shows_children_to_admins_only (st : State) :
  (AdminRoute.render st = AdminRoute.children <->
   isLoading st = false
   /\ exists fields, user st = JObj fields
                     /\ lookup_field "role" fields = Some (JStr "admin"))
  /\ (AdminRoute.render st = AdminRoute.children -> AdminRoute.effect st = [])
  /\ (AdminRoute.render st = AdminRoute.Spinner -> AdminRoute.effect st = [])
  /\ (forall to, AdminRoute.render st = AdminRoute.Navigate to ->
        (to = "/login" /\ isAuthenticated st = false
         /\ AdminRoute.effect st = [toast_error (JStr "Please login to access this page")])
        \/ (to = "/dashboard" /\ isAuthenticated st = true /\ isAdmin st = false
            /\ AdminRoute.effect st
               = [toast_error (JStr "Access denied. Admin privileges required.")])).
Proof.
  assert (Hrole : isAdmin st = true <->
                  exists fields, user st = JObj fields
                                 /\ lookup_field "role" fields = Some (JStr "admin")).
  { unfold isAdmin. split.
    - intros E. apply is_string_inv in E.
      destruct (user st) as [ | | b | n | s | items | fields]; cbn in E; try discriminate.
      exists fields. split; [reflexivity | ].
      destruct (lookup_field "role" fields); cbn in E; [congruence | discriminate].
    - intros (fields & -> & Hfield). cbn. rewrite Hfield. reflexivity. }
  pose proof (isAdmin_is_authenticated st) as Himplies.
  unfold AdminRoute.render, AdminRoute.effect.
  destruct (isLoading st), (isAuthenticated st) eqn:Hauth, (isAdmin st) eqn:Hadmin; cbn;
    try (specialize (Himplies eq_refl); discriminate).
  all: split;
    [ split; [ first [ discriminate
                     | intros _; split; [reflexivity | apply Hrole; reflexivity] ]
             | intros [Hl Hr];
               first [ discriminate Hl | reflexivity | apply Hrole in Hr; discriminate Hr ] ]
    | ].
  all: split; [first [discriminate | reflexivity] | ].
  all: split; [first [discriminate | reflexivity] | ].
  all: intros to Hto; try discriminate Hto; injection Hto as <-; auto.
Qed.

End SessionRoundTrips.

(** ** What the service methods return for an ok response *)

Section BodyProofs.
Context `{NumberOps} `{!Engine}.

Lemma continuation_passes_on (c : ApiCall) (response : Response) :
  ok response = true ->
  reshapes_the_body c = false ->
  match body_json response with
  | inr data => continuation_of c (Resolves response) = Fulfil data
  | inl e =>
      exists v shown,
        continuation_of c (Resolves response) = Fulfil v
        /\ result_status v = JStr "error"
        /\ result_message v = JStr shown
        /\ (forall m, e = ErrorObj m -> shown = m)
  end.
Proof.
  intros Hok Hplain.
  destruct c; try discriminate Hplain; cbn;
    unfold json_or_throw_body, json_or_throw_status, await_json; rewrite ?Hok; cbn;
    destruct (body_json response) as [thrown | parsed]; cbn; try reflexivity;
    (eexists _, _; split; [reflexivity | ]); (split; [reflexivity | ]);
    (split; [reflexivity | ]); intros m ->; reflexivity.
Qed.

(** X6: for an ok response, every service method but [getDashboard]
    returns the parsed body as it is, whatever it holds (no member is
    checked), after one fetch; when the body cannot be read as JSON it
    returns an error object whose message is that of the error
    [response.json()] rejected with. *)
Theorem service_call_passes_the_body_on {S : Type}
    (net : S -> Request -> FetchOutcome * S) (s : S) (c : ApiCall) (response : Response) :
  (net s (request_of c)).1 = Resolves response ->
  ok response = true ->
  reshapes_the_body c = false ->
  match body_json response with
  | inr data =>
      run net s (perform c) = (inr data, [request_of c], (net s (request_of c)).2)
  | inl e =>
      exists v shown,
        run net s (perform c) = (inr v, [request_of c], (net s (request_of c)).2)
        /\ result_status v = JStr "error"
        /\ result_message v = JStr shown
        /\ (forall m, e = ErrorObj m -> shown = m)
  end.
Proof.
  intros Hnet Hok Hplain.
  pose proof (continuation_passes_on c response Hok Hplain) as Hk.
  rewrite perform_awaits_once.
  destruct (body_json response) as [e | data].
  - destruct Hk as (v & shown & Hk & Hstatus & Hmessage & Hshown).
    exists v, shown. split; [ | auto].
    apply run_awaits_once. rewrite Hnet. exact Hk.
  - apply run_awaits_once. rewrite Hnet. exact Hk.
Qed.

Import DashboardApi.

(** X7: for an ok response whose body is an object, [getDashboard]
    returns an object with the body's [status] and [message]; its
    [data] member is present only for status ["success"], and then
    holds the four numbers of the body and the two lists
    [recentAnalyses] and [notifications], each the body's member when
    that is truthy and an empty list otherwise. *)
Theorem getDashboard_defaults_its_lists {S : Type}
    (net : S -> Request -> FetchOutcome * S) (s : S) (userId : string)
    (response : Response) (fields : list (string * JsValue)) :
  (net s (request_of (Dashboard_getDashboard userId))).1 = Resolves response ->
  ok response = true ->
  body_json response = inr (JObj fields) ->
  exists v,
    run net s (getDashboard userId)
    = (inr v, [request_of (Dashboard_getDashboard userId)],
       (net s (request_of (Dashboard_getDashboard userId))).2)
    /\ result_status v = default JUndefined (lookup_field "status" fields)
    /\ result_message v = default JUndefined (lookup_field "message" fields)
    /\ if is_string (default JUndefined (lookup_field "status" fields)) "success" then
         exists numbers recentAnalyses notifications,
           get_prop_opt v "data"
           = JObj (numbers ++ [("recentAnalyses", recentAnalyses);
                               ("notifications", notifications)])
           /\ map fst numbers = ["totalAnalyses"; "deepfakesDetected"; "accuracyRate";
                                 "avgProcessingTime"]
           /\ Forall (fun kv => kv.2 = default JUndefined (lookup_field kv.1 fields)) numbers
           /\ recentAnalyses
              = (if truthy (default JUndefined (lookup_field "recentAnalyses" fields))
                 then default JUndefined (lookup_field "recentAnalyses" fields)
                 else JArr [])
           /\ notifications
              = (if truthy (default JUndefined (lookup_field "notifications" fields))
                 then default JUndefined (lookup_field "notifications" fields)
                 else JArr [])
           /\ truthy recentAnalyses = true /\ truthy notifications = true
       else get_prop_opt v "data" = JUndefined.
Proof.
  intros Hnet Hok Hjson.
  change (getDashboard userId) with (perform (Dashboard_getDashboard userId)).
  rewrite perform_awaits_once.
  eexists. split.
  { apply run_awaits_once. rewrite Hnet. cbn. rewrite Hok. cbn.
    unfold await_json. rewrite Hjson. cbn. reflexivity. }
  cbn. split; [reflexivity | ]. split; [reflexivity | ].
  destruct (is_string (default JUndefined (lookup_field "status" fields)) "success");
    [ | reflexivity].
  eexists [_; _; _; _], _, _. split; [reflexivity | ]. cbn.
  split; [reflexivity | ].
  split; [repeat constructor | ].
  unfold js_or. split; [reflexivity | ]. split; [reflexivity | ].
  destruct (truthy (default JUndefined (lookup_field "recentAnalyses" fields))) eqn:Ha,
           (truthy (default JUndefined (lookup_field "notifications" fields))) eqn:Hn;
    auto.
Qed.

Import AppHeader.

Lemma unread_in_firstn (n : nat) (l : list Notification) :
  unread_in (firstn n l) <= unread_in l.
Proof.
  unfold unread_in. revert n. induction l as [ | x l IH]; intros [ | n]; cbn; try lia.
  destruct (negb (is_read x)); cbn; specialize (IH n); lia.
Qed.

(** X8: for a successful response with notifications the header shows
    the first five of them and counts the unread ones among all that
    were received, so that the badge is never below the number of
    unread notifications on display, and equals it when at most five
    were received; for every other response the state stays as it
    is. *)
Theorem header_shows_five_and_counts_all (response : NotificationsResponse) (st : State) :
  match DashboardApi.status response, DashboardApi.notifications response with
  | success, Some received =>
      AppHeader.notifications (fetchNotifications_update response st) = firstn 5 received
      /\ length (AppHeader.notifications (fetchNotifications_update response st)) <= 5
      /\ unreadCount (fetchNotifications_update response st) = Z.of_nat (unread_in received)
      /\ (Z.of_nat (unread_in (AppHeader.notifications (fetchNotifications_update response st)))
          <= unreadCount (fetchNotifications_update response st))%Z
      /\ (length received <= 5 ->
          AppHeader.notifications (fetchNotifications_update response st) = received)
  | _, _ => fetchNotifications_update response st = st
  end.
Proof.
  unfold fetchNotifications_update.
  destruct (DashboardApi.status response), (DashboardApi.notifications response) as [received | ];
    try reflexivity.
  cbn. split; [reflexivity | ]. split; [apply firstn_le_length | ].
  split; [reflexivity | ]. split.
  - apply inj_le. apply unread_in_firstn.
  - intros Hfew. apply firstn_all2. exact Hfew.
Qed.

End BodyProofs.

(** ** The login page and the sidebar *)

Section LoginProofs.
Import Profile Login.

Lemma class_test_characters (class : ascii -> bool) (s : string) :
  class_test class s = existsb class (characters s).
Proof. induction s as [ | c rest IH]; cbn; congruence. Qed.

(** X9: the strength the login page computes is 25 for each of these
    four criteria that the password meets: its length, in UTF-16 code
    units, is at least 8; it holds a character in [A-Z]; it holds one in
    [0-9]; it holds one that is neither a letter nor a digit. A password
    that the profile page accepts ([validatePassword] returns null) meets
    the first three and so has a strength of at least 75; and the
    strength is 100 exactly for the passwords that meet all four (a
    lowercase letter is not asked for). *)
Theorem password_strength_and_the_profile_rule (password : string) :
  let long_enough := (8 <=? length_utf16 password)%nat in
  let has_upper := existsb (in_range "A" "Z") (characters password) in
  let has_digit := existsb (in_range "0" "9") (characters password) in
  let has_other := existsb not_alphanumeric (characters password) in
  calculatePasswordStrength password
  = (25 * (Z.b2z long_enough + Z.b2z has_upper + Z.b2z has_digit + Z.b2z has_other))%Z
  /\ (validatePassword password = None ->
      long_enough = true /\ has_upper = true /\ has_digit = true
      /\ (75 <= calculatePasswordStrength password)%Z)
  /\ (calculatePasswordStrength password = 100%Z <->
      8 <= length_utf16 password
      /\ (exists c, In c (characters password) /\ in_range "A" "Z" c = true)
      /\ (exists c, In c (characters password) /\ in_range "0" "9" c = true)
      /\ (exists c, In c (characters password) /\ not_alphanumeric c = true)).
Proof.
  cbv zeta. unfold calculatePasswordStrength. rewrite !class_test_characters.
  rewrite <- !existsb_characters.
  split; [ | split].
  - destruct (8 <=? length_utf16 password)%nat,
             (existsb (in_range "A" "Z") (characters password)),
             (existsb (in_range "0" "9") (characters password)),
             (existsb not_alphanumeric (characters password)); reflexivity.
  - intros Hvalid. apply validatePassword_accepts in Hvalid as (Hlen & _ & Hupper & Hdigit).
    rewrite Hupper, Hdigit.
    destruct (Nat.leb_spec 8 (length_utf16 password)); [ | lia].
    repeat split.
    destruct (existsb not_alphanumeric (characters password)); cbn; lia.
  - destruct (Nat.leb_spec 8 (length_utf16 password)),
             (existsb (in_range "A" "Z") (characters password)),
             (existsb (in_range "0" "9") (characters password)),
             (existsb not_alphanumeric (characters password)); cbn;
      (split; [ intros E; try discriminate E; auto
              | intros (? & ? & ? & ?); try discriminate; try lia; reflexivity ]).
Qed.

(** X10: [handleLogin] calls the context's [login] at most once, and
    only with an email and a password that are both not empty; without
    them it makes no call, shows one toast and sets the error message.
    After a call [isLoading] is false, and the page navigates to
    ["/dashboard"] exactly when [login] returned true; otherwise it
    stays and shows "Invalid email or password". *)
Theorem handleLogin_asks_once_with_both_fields {S : Type}
    (answer : forall R, Service R -> S -> R * S) (s : S) (st : State) :
  let outcome := run_task answer s (handleLogin st) in
  email outcome.1.1 = email st /\ password outcome.1.1 = password st
  /\ if String.eqb (email st) "" || String.eqb (password st) "" then
       outcome.1.2 = [] /\ outcome.2 = s
       /\ navigations outcome.1.1 = navigations st
       /\ isLoading outcome.1.1 = isLoading st
       /\ errorMessage outcome.1.1 = "Please enter both email and password."
       /\ notices outcome.1.1
          = notices st ++ [sonner_error "Please enter both email and password." None]
     else
       List.filter is_login outcome.1.2 = [existT _ (useAuth_login (email st) (password st))]
       /\ isLoading outcome.1.1 = false
       /\ notices outcome.1.1 = notices st
       /\ if (answer _ (useAuth_login (email st) (password st)) s).1 then
            navigations outcome.1.1 = navigations st ++ ["/dashboard"]
            /\ errorMessage outcome.1.1 = ""
          else
            navigations outcome.1.1 = navigations st
            /\ errorMessage outcome.1.1 = "Invalid email or password".
Proof.
  unfold handleLogin. cbn.
  destruct (String.eqb (email st) "" || String.eqb (password st) ""); cbn.
  { repeat split. }
  destruct (answer bool (useAuth_login (email st) (password st)) s) as [[ | ] s1]; cbn.
  - destruct (answer unit (setTimeout 500) s1) as [[] s2]; cbn. repeat split.
  - repeat split.
Qed.

End LoginProofs.

Section SidebarProofs.
Import AppSidebar.

Lemma prefix_of_same (a b p : string) :
  String.prefix a p = true -> String.prefix b p = true ->
  String.prefix a b = true \/ String.prefix b a = true.
Proof.
  revert b p. induction a as [ | c a IH]; intros b p Ha Hb; [left; destruct b; reflexivity | ].
  destruct b as [ | d b]; [right; reflexivity | ].
  destruct p as [ | e p]; [discriminate Ha | ].
  cbn in Ha, Hb |- *.
  destruct (Ascii.ascii_dec c e) as [-> | Hce]; [ | discriminate].
  destruct (Ascii.ascii_dec d e) as [-> | Hde]; [ | discriminate].
  destruct (Ascii.ascii_dec e e) as [_ | Hee]; [ | contradiction].
  eapply IH; eassumption.
Qed.

Lemma apart_paths_have_one_start (paths : list string) (p : string) :
  no_common_start paths = true ->
  length (List.filter (fun path => String.prefix path p) paths) <= 1.
Proof.
  induction paths as [ | path rest IH]; cbn; [lia | ].
  intros Hapart. apply andb_true_iff in Hapart as [Hpath Hrest].
  specialize (IH Hrest).
  destruct (String.prefix path p) eqn:Hp; [ | exact IH].
  cbn.
  assert (Hnone : List.filter (fun other => String.prefix other p) rest = []).
  { clear IH Hrest. induction rest as [ | other rest IH]; cbn; [reflexivity | ].
    cbn in Hpath. apply andb_true_iff in Hpath as [Hother Hpath].
    destruct (String.prefix other p) eqn:Ho; [ | exact (IH Hpath)].
    exfalso. destruct (prefix_of_same path other p Hp Ho) as [E | E];
      rewrite E in Hother; cbn in Hother; try discriminate.
    rewrite andb_false_r in Hother. discriminate. }
  rewrite Hnone. cbn. lia.
Qed.

Lemma prefix_append (a rest : string) : String.prefix a (a +:+ rest) = true.
Proof.
  induction a as [ | c a IH].
  - change ("" +:+ rest) with rest. destruct rest; reflexivity.
  - change (String c a +:+ rest) with (String c (a +:+ rest)). cbn.
    destruct (Ascii.ascii_dec c c); [exact IH | contradiction].
Qed.

Lemma isActive_prefix (currentPath path : string) :
  isActive currentPath path = String.prefix path currentPath.
Proof.
  unfold isActive. destruct (String.eqb_spec currentPath path) as [-> | _]; [ | reflexivity].
  cbn. symmetry. induction path as [ | c path IH]; cbn; [reflexivity | ].
  destruct (Ascii.ascii_dec c c); [exact IH | contradiction].
Qed.

(** X11: on every path at most one link of the sidebar is marked
    active, for an admin and for any other user; a link is active
    exactly on the paths that begin with its url, so on its own page
    and on every path below or beside it that starts the same way. *)
Theorem sidebar_marks_at_most_one_item (currentPath : string) (isAdmin : bool) :
  length (List.filter (fun item => isActive currentPath (url item)) (rendered_items isAdmin)) <= 1
  /\ (forall path, isActive currentPath path = String.prefix path currentPath)
  /\ (forall item rest, isActive (url item +:+ rest) (url item) = true).
Proof.
  split; [ | split].
  - assert (E : List.filter (fun item => isActive currentPath (url item)) (rendered_items isAdmin)
                = List.filter (fun item => String.prefix (url item) currentPath)
                              (rendered_items isAdmin)).
    { apply List.filter_ext. intros item. apply isActive_prefix. }
    rewrite E.
    assert (Hmap : forall items,
               length (List.filter (fun item => String.prefix (url item) currentPath) items)
               = length (List.filter (fun path => String.prefix path currentPath)
                                     (map url items))).
    { induction items as [ | item items IH]; cbn; [reflexivity | ].
      destruct (String.prefix (url item) currentPath); cbn; now rewrite IH. }
    rewrite Hmap. apply apart_paths_have_one_start.
    destruct isAdmin; vm_compute; reflexivity.
  - intros path. apply isActive_prefix.
  - intros item rest. rewrite isActive_prefix. apply prefix_append.
Qed.

End SidebarProofs.

(** ** The simulated upload of the dashboard *)

Section UploadTimerProofs.
Context `{NumberOps}.
Import Dashboard UploadProgress.

Lemma find_fresh_timer (ts : Timers) (delay : Z) (callback : Callback) :
  timers_wf ts ->
  List.find (fun t => Nat.eqb (timer_id t) (next_id ts))
            (active ts ++ [{| timer_id := next_id ts; timer_delay := delay;
                              timer_callback := callback |}])
  = Some {| timer_id := next_id ts; timer_delay := delay; timer_callback := callback |}.
Proof.
  unfold timers_wf. intros Hwf.
  induction Hwf as [ | t0 rest Ht0 Hrest IH]; cbn.
  - rewrite Nat.eqb_refl. reflexivity.
  - destruct (Nat.eqb_spec (timer_id t0) (next_id ts)) as [E | _]; [lia | exact IH].
Qed.

Lemma startUpload_progressing (file : File) (st : State) :
  startUpload file st = progressing file st 0.
Proof. reflexivity. Qed.

Lemma fire_progressing (file : File) (st : State) (k : nat) :
  timers_wf (page_timers st) -> k < 10 ->
  fire (next_id (page_timers st)) (progressing file st k) = (progressing file st (S k), []).
Proof.
  intros Hwf Hk. unfold fire. cbn [progressing page_timers setInterval snd active].
  rewrite (find_fresh_timer _ _ _ Hwf). cbn [timer_callback].
  unfold tick. cbn [uploadProgress progressing].
  destruct (Z.geb_spec (10 * Z.of_nat k) 100) as [Hge | Hlt]; [lia | ].
  unfold progressing. cbn. f_equal. f_equal. lia.
Qed.

Lemma fire_times_progressing (file : File) (st : State) (n k : nat) :
  timers_wf (page_timers st) -> k + n <= 10 ->
  fire_times n (next_id (page_timers st)) (progressing file st k)
  = (progressing file st (k + n), []).
Proof.
  intros Hwf. revert k. induction n as [ | n IH]; intros k Hk.
  - cbn. now rewrite Nat.add_0_r.
  - cbn [fire_times]. rewrite (fire_progressing file st k Hwf) by lia.
    rewrite IH by lia. cbn. f_equal. f_equal. lia.
Qed.

Lemma fire_uploaded (interval : nat) (st : State) :
  timers_wf (page_timers st) -> interval = next_id (page_timers st) ->
  fire interval (uploaded st) = (uploaded st, []).
Proof.
  intros Hwf ->. unfold fire. cbn.
  assert (Hnone : List.find (fun t => Nat.eqb (timer_id t) (next_id (page_timers st)))
                            (active (page_timers st)) = None).
  { unfold timers_wf in Hwf. induction Hwf as [ | t rest Ht Hrest IH]; cbn; [reflexivity | ].
    destruct (Nat.eqb_spec (timer_id t) (next_id (page_timers st))); [lia | exact IH]. }
  rewrite Hnone. reflexivity.
Qed.

Lemma fire_times_uploaded (n : nat) (st : State) :
  timers_wf (page_timers st) ->
  fire_times n (next_id (page_timers st)) (uploaded st) = (uploaded st, []).
Proof.
  intros Hwf. induction n as [ | n IH]; cbn [fire_times]; [reflexivity | ].
  rewrite (fire_uploaded _ st Hwf eq_refl), IH. reflexivity.
Qed.

Lemma fire_last (file : File) (st : State) :
  timers_wf (page_timers st) ->
  fire (next_id (page_timers st)) (progressing file st 10) = (uploaded st, [file]).
Proof.
  intros Hwf. unfold fire. cbn [progressing page_timers setInterval snd active].
  rewrite (find_fresh_timer _ _ _ Hwf). cbn [timer_callback].
  unfold tick. cbn [uploadProgress progressing Z.of_nat].
  unfold uploaded. f_equal. f_equal.
  pose proof (clearInterval_setInterval (uploadProgressTick file) 200 (page_timers st) Hwf) as E.
  unfold clearInterval, progressing, setInterval in *.
  cbn [page_timers snd fst next_id active] in *. f_equal. exact E.
Qed.

Lemma fire_times_add (a b interval : nat) (st : State) :
  fire_times (a + b) interval st
  = let '(st1, first) := fire_times a interval st in
    let '(st2, second) := fire_times b interval st1 in (st2, first ++ second).
Proof.
  revert st. induction a as [ | a IH]; intros st; cbn [fire_times plus].
  - destruct (fire_times b interval st). reflexivity.
  - destruct (fire interval st) as [st1 l1]. rewrite IH.
    destruct (fire_times a interval st1) as [st2 l2].
    destruct (fire_times b interval st2) as [st3 l3]. now rewrite app_assoc.
Qed.

(** X12: after [startUpload] the timer of the simulated upload adds 10
    to the progress on each of its first ten runs, which bring it to
    100 with the upload still marked as running; its eleventh run
    clears the timer, ends the upload and hands the file to
    [analyzeVideo], once; the timer never runs again, and the timers
    that were set before are still set. *)
Theorem upload_timer_runs_eleven_times (file : File) (st : State) (n : nat) :
  timers_wf (page_timers st) ->
  let interval := next_id (page_timers st) in
  let after := fire_times n interval (startUpload file st) in
  if (n <=? 10)%nat then
    after.2 = []
    /\ uploadProgress after.1 = (10 * Z.of_nat n)%Z
    /\ uploading after.1 = true
    /\ is_set interval (page_timers after.1) = true
  else
    after.2 = [file]
    /\ uploadProgress after.1 = 100%Z
    /\ uploading after.1 = false
    /\ active (page_timers after.1) = active (page_timers st).
Proof.
  intros Hwf interval after. subst interval after.
  rewrite startUpload_progressing.
  destruct (Nat.leb_spec n 10) as [Hn | Hn].
  - rewrite (fire_times_progressing file st n 0 Hwf) by lia.
    cbn [fst snd progressing uploadProgress uploading page_timers plus].
    repeat split.
    unfold is_set. cbn. rewrite existsb_app. cbn. rewrite Nat.eqb_refl.
    now rewrite orb_true_r.
  - replace n with (10 + S (n - 11)) by lia.
    rewrite fire_times_add, (fire_times_progressing file st 10 0 Hwf) by lia.
    cbn [plus fire_times]. rewrite (fire_last file st Hwf).
    rewrite (fire_times_uploaded _ st Hwf). cbn. repeat split.
Qed.

End UploadTimerProofs.

(** ** The files of the upload page *)

Section UploadQueueProofs.
Context `{NumberOps}.
Import UploadQueue.

Lemma validateFile_message_not_empty (f : File) (reason : string) :
  UploadPage.validateFile f = Some reason -> String.eqb reason "" = false.
Proof.
  unfold UploadPage.validateFile.
  destruct (negb _); [intros [= <-]; reflexivity | ].
  destruct (_ >? _)%Z; [intros [= <-]; reflexivity | discriminate].
Qed.

Lemma handleFiles_first_loop (fileList : list File) (newFiles : list UploadedFile) (st : State) :
  fold_left check_one fileList (newFiles, st)
  = (newFiles ++ map judged fileList,
     {| files := files st;
        notices := notices st ++ flat_map rejection fileList;
        processed := processed st |}).
Proof.
  revert newFiles st. induction fileList as [ | f fileList IH]; intros newFiles st.
  - cbn. rewrite !app_nil_r. destruct st; reflexivity.
  - cbn [fold_left map flat_map]. unfold check_one at 2, judged at 1, rejection at 1.
    destruct (UploadPage.validateFile f) as [reason | ] eqn:Hv.
    + rewrite (validateFile_message_not_empty f reason Hv).
      rewrite IH. cbn. rewrite <- !app_assoc. reflexivity.
    + rewrite IH. cbn. rewrite <- !app_assoc. reflexivity.
Qed.

Lemma handleFiles_second_loop (fileList : list File) (st : State) :
  fold_left start_one (map judged fileList) st
  = {| files := files st; notices := notices st;
       processed := processed st ++ List.filter accepted fileList |}.
Proof.
  revert st. induction fileList as [ | f fileList IH]; intros st.
  - cbn. rewrite app_nil_r. destruct st; reflexivity.
  - cbn [map fold_left List.filter]. rewrite IH. unfold start_one, judged, accepted.
    destruct (UploadPage.validateFile f); cbn.
    + reflexivity.
    + rewrite <- app_assoc. reflexivity.
Qed.

(** X13: [handleFiles] appends one entry for every file it is given,
    in order, to the list of files, with progress 0: an entry in
    status "error" that carries the message of [validateFile] for a
    file that [validateFile] rejects, and an entry in status
    "uploading" for every other file. It shows one toast for each
    rejected file and hands exactly the accepted files to
    [processFile], in order. *)
Theorem handleFiles_lists_every_file_and_starts_the_valid (fileList : list File) (st : State) :
  files (handleFiles fileList st) = files st ++ map judged fileList
  /\ notices (handleFiles fileList st) = notices st ++ flat_map rejection fileList
  /\ processed (handleFiles fileList st) = processed st ++ List.filter accepted fileList
  /\ length (files (handleFiles fileList st)) = length (files st) + length fileList
  /\ Forall (fun entry =>
               uploadProgress entry = 0%Z
               /\ (upload_status entry = status_error
                   /\ upload_error entry = UploadPage.validateFile (file entry)
                   /\ UploadPage.validateFile (file entry) <> None
                   \/ upload_status entry = status_uploading
                      /\ upload_error entry = None
                      /\ UploadPage.validateFile (file entry) = None))
            (map judged fileList).
Proof.
  unfold handleFiles. rewrite handleFiles_first_loop. cbn [app files].
  rewrite handleFiles_second_loop. cbn.
  split; [reflexivity | ]. split; [reflexivity | ]. split; [reflexivity | ].
  split; [now rewrite length_app, length_map | ].
  apply List.Forall_forall. intros entry Hin. apply in_map_iff in Hin as (f & <- & _).
  unfold judged. destruct (UploadPage.validateFile f) as [reason | ] eqn:Hv; cbn.
  - split; [reflexivity | ]. left. rewrite Hv. repeat split. discriminate.
  - split; [reflexivity | ]. right. rewrite Hv. repeat split.
Qed.

End UploadQueueProofs.

(** ** The forum *)

Set Warnings "-clear-no-such-hyp".

Section ForumProofs.
Import ForumPage.
Variable trim : string -> string.

(** X14: [handleCreatePost] sends a post only for a signed-in user and
    a content that is not empty once trimmed, and sends the trimmed
    content with the selected topic. Otherwise it makes no call, shows
    one error toast and leaves the draft. When the backend answers with
    success the draft is emptied, the topic goes back to General and the
    posts are fetched once more; when it answers with an error nothing
    else is called and the draft, the topic and the posts are kept. *)
Theorem post_is_sent_trimmed_and_kept_on_failure {S : Type}
    (answer : forall R, Service R -> S -> R * S) (s : S)
    (isAuthenticated : bool) (user : option AuthContext.User) (st : State) :
  let outcome := run_task answer s (handleCreatePost trim isAuthenticated user st) in
  match outcome.1.2 with
  | [] =>
      (isAuthenticated = false \/ user = None \/ trim (newPostContent st) = "")
      /\ newPostContent outcome.1.1 = newPostContent st
      /\ posts outcome.1.1 = posts st
      /\ posting outcome.1.1 = posting st
      /\ exists shown, notices outcome.1.1 = notices st ++ [sonner_error shown None]
  | created :: later =>
      isAuthenticated = true
      /\ trim (newPostContent st) <> ""
      /\ (exists u, user = Some u
            /\ created = existT _ (ForumApiService_createPost
                                     (AuthContext.id u) (selectedTopic st)
                                     (trim (newPostContent st))))
      /\ posting outcome.1.1 = false
      /\ match status (answer _ (ForumApiService_createPost
                                   (default "" (AuthContext.id <$> user))
                                   (selectedTopic st) (trim (newPostContent st))) s).1 with
         | success =>
             later = [existT _ (ForumApiService_getPosts (or_undefined (searchQuery st))
                                                         (or_undefined (topicFilter st)))]
             /\ newPostContent outcome.1.1 = ""
             /\ selectedTopic outcome.1.1 = ForumApi.General
         | error =>
             later = []
             /\ newPostContent outcome.1.1 = newPostContent st
             /\ selectedTopic outcome.1.1 = selectedTopic st
             /\ posts outcome.1.1 = posts st
         end
  end.
Proof.
  unfold handleCreatePost.
  destruct isAuthenticated; [ | destruct st; cbn; repeat split; eauto].
  destruct user as [u | ]; [ | destruct st; cbn; repeat split; eauto].
  destruct (String.eqb_spec (trim (newPostContent st)) "") as [E | E].
  { destruct st; cbn in *. repeat split; eauto. }
  cbn.
  destruct st as [ps l e p q t c tp x m lc n]. cbn in *.
  destruct (answer ApiResponse (ForumApiService_createPost (AuthContext.id u) tp (trim c)) s)
    as [response s1]. cbn.
  destruct (status response); cbn.
  - destruct (answer ApiResponse (ForumApiService_getPosts (or_undefined q) (or_undefined t)) s1)
      as [listing s2]. cbn.
    destruct (status listing), (response_posts listing); cbn; repeat split; eauto.
  - repeat split; eauto.
Qed.

(** X15: [handleLikePost] calls the backend once for a signed-in user
    and not at all otherwise. Its state update keeps the number and the
    order of the posts and every member of every post but [likes];
    [likes] changes only for the posts with the given id and only when
    the backend answered with success, to the count of the response
    when that is given and not 0, and to one more than before
    otherwise. When nothing is liked the update shows one error
    toast. *)
Theorem like_changes_one_count {S : Type}
    (answer : forall R, Service R -> S -> R * S) (s : S)
    (isAuthenticated : bool) (postId : string) (prev : State) :
  let outcome := run_task answer s (handleLikePost isAuthenticated postId) in
  let response := (answer _ (ForumApiService_likePost postId) s).1 in
  let is_liked := isAuthenticated && match status response with
                                     | success => true
                                     | error => false
                                     end in
  let next := outcome.1.1 prev in
  outcome.1.2 = (if isAuthenticated then [existT _ (ForumApiService_likePost postId)] else [])
  /\ length (posts next) = length (posts prev)
  /\ (forall (i : nat) (post : ForumPost),
        posts prev !! i = Some post ->
        exists post',
          posts next !! i = Some post'
          /\ id post' = id post /\ user_id post' = user_id post
          /\ username post' = username post /\ topic post' = topic post
          /\ content post' = content post /\ created_at post' = created_at post
          /\ comments_count post' = comments_count post
          /\ likes post' = if is_liked && String.eqb (id post) postId
                           then liked (response_likes response) post
                           else likes post)
  /\ (if is_liked then notices next = notices prev
      else exists shown, notices next = notices prev ++ [sonner_error shown None]).
Proof.
  unfold handleLikePost.
  destruct isAuthenticated; cbn.
  2: { destruct prev; cbn. repeat split; eauto 20. }
  destruct (answer ApiResponse (ForumApiService_likePost postId) s) as [response s1]. cbn.
  destruct (status response) eqn:Hstatus; cbn.
  2: { destruct prev; cbn. repeat split; eauto 20. }
  destruct prev as [ps l e p q t c tp x m lc n]. cbn.
  split; [reflexivity | ]. split; [apply length_map | ]. split; [ | reflexivity].
  intros i post Hi. exists (like postId (response_likes response) post).
  split; [rewrite list_lookup_fmap, Hi; reflexivity | ].
  unfold like. destruct (String.eqb (id post) postId); cbn; repeat split.
Qed.


End ForumProofs.

Set Warnings "clear-no-such-hyp".

(** ** Dates and ages *)

Section TimestampProofs.
Import Timestamp.

Lemma free_of_append (c : ascii) (a b : string) :
  free_of c (a +:+ b) = free_of c a && free_of c b.
Proof.
  induction a as [ | x a IH]; [reflexivity | ].
  change (String x a +:+ b) with (String x (a +:+ b)).
  cbn [free_of]. now rewrite IH, andb_assoc.
Qed.

Lemma split_last_piece (c : ascii) (piece : string) :
  free_of c piece = true -> split c piece = [piece].
Proof.
  induction piece as [ | a piece IH]; cbn; [reflexivity | ].
  intros Hp. apply andb_true_iff in Hp as [Ha Hp].
  apply negb_true_iff in Ha. rewrite Ha, (IH Hp). reflexivity.
Qed.

Lemma split_piece (c : ascii) (piece rest : string) :
  free_of c piece = true ->
  split c (piece +:+ String c rest) = piece :: split c rest.
Proof.
  induction piece as [ | a piece IH].
  - intros _. change ("" +:+ String c rest) with (String c rest).
    cbn [split]. now rewrite Ascii.eqb_refl.
  - change (String a piece +:+ String c rest) with (String a (piece +:+ String c rest)).
    cbn [free_of split]. intros Hp. apply andb_true_iff in Hp as [Ha Hp].
    apply negb_true_iff in Ha. rewrite Ha, (IH Hp). reflexivity.
Qed.

Lemma matches_app (p1 p2 : list Atom) (s1 s2 : string) :
  matches p1 s1 = true -> matches (p1 ++ p2) (s1 +:+ s2) = matches p2 s2.
Proof.
  revert s1. induction p1 as [ | atom p1 IH]; intros s1 Hm.
  - destruct s1; [reflexivity | discriminate].
  - destruct s1 as [ | c s1]; [destruct atom; discriminate | ].
    change (String c s1 +:+ s2) with (String c (s1 +:+ s2)).
    destruct atom; cbn [matches app] in *;
      apply andb_true_iff in Hm as [Hc Hm]; rewrite Hc, (IH _ Hm); reflexivity.
Qed.

Lemma two_digits_facts (n : nat) :
  n < 100 ->
  matches [any_digit; any_digit] (two_digits n) = true
  /\ Number_of_digits (two_digits n) = Some n
  /\ free_of " " (two_digits n) = true /\ free_of "-" (two_digits n) = true
  /\ free_of ":" (two_digits n) = true.
Proof.
  intros Hn.
  assert (Hall : forallb two_digits_ok (seq 0 100) = true) by (vm_compute; reflexivity).
  rewrite forallb_forall in Hall.
  assert (Hok : two_digits_ok n = true) by (apply Hall; apply in_seq; lia).
  unfold two_digits_ok in Hok.
  repeat (apply andb_true_iff in Hok as [Hok ?]).
  destruct (Number_of_digits (two_digits n)) as [value | ]; [ | discriminate].
  repeat split; try assumption. f_equal. now apply Nat.eqb_eq.
Qed.

Lemma digits_value_from (value : nat) (shown : string) :
  digits_value value shown
  = option_map (fun rest => value * 10 ^ String.length shown + rest) (digits_value 0 shown).
Proof.
  revert value. induction shown as [ | c shown IH]; intros value.
  - cbn. f_equal. lia.
  - cbn [digits_value String.length]. destruct (digit c); [ | reflexivity].
    rewrite (IH (10 * value + (nat_of_ascii c - 48))), (IH (10 * 0 + (nat_of_ascii c - 48))).
    destruct (digits_value 0 shown) as [rest | ]; [ | reflexivity].
    cbn [option_map]. f_equal. rewrite Nat.pow_succ_r'. lia.
Qed.

Lemma digits_value_append (value : nat) (a b : string) :
  digits_value value (a +:+ b)
  = match digits_value value a with
    | Some read => digits_value read b
    | None => None
    end.
Proof.
  revert value. induction a as [ | c a IH]; intros value; [reflexivity | ].
  change (String c a +:+ b) with (String c (a +:+ b)).
  cbn [digits_value]. destruct (digit c); [apply IH | reflexivity].
Qed.

Lemma four_digits_facts (n : nat) :
  n < 100 * 100 ->
  matches [any_digit; any_digit; any_digit; any_digit] (four_digits n) = true
  /\ Number_of_digits (four_digits n) = Some n
  /\ free_of " " (four_digits n) = true /\ free_of "-" (four_digits n) = true.
Proof.
  intros Hn.
  assert (Hhigh : n / 100 < 100) by (apply Nat.Div0.div_lt_upper_bound; lia).
  assert (Hlow : n mod 100 < 100) by (apply Nat.mod_upper_bound; lia).
  destruct (two_digits_facts _ Hhigh) as (Mh & Nh & Sh & Dh & _).
  destruct (two_digits_facts _ Hlow) as (Ml & Nl & Sl & Dl & _).
  unfold four_digits.
  split; [ | split; [ | split]].
  - change [any_digit; any_digit; any_digit; any_digit]
      with ([any_digit; any_digit] ++ [any_digit; any_digit]).
    rewrite matches_app by exact Mh. exact Ml.
  - destruct (two_digits (n / 100)) as [ | h1 high] eqn:Ehigh; [discriminate Mh | ].
    destruct (two_digits (n mod 100)) as [ | l1 low] eqn:Elow; [discriminate Ml | ].
    change (String h1 high +:+ String l1 low) with (String h1 (high +:+ String l1 low)).
    unfold Number_of_digits in *.
    change (String h1 (high +:+ String l1 low)) with (String h1 high +:+ String l1 low).
    rewrite digits_value_append, Nh, digits_value_from, Nl. cbn [option_map]. f_equal.
    assert (Hlen : String.length (String l1 low) = 2).
    { destruct low as [ | l2 [ | l3 low]]; cbn in Ml |- *;
        rewrite ?andb_false_r in Ml; try discriminate Ml; reflexivity. }
    rewrite Hlen. change (10 ^ 2) with 100.
    pose proof (Nat.div_mod_eq n 100). lia.
  - rewrite free_of_append, Sh, Sl. reflexivity.
  - rewrite free_of_append, Dh, Dl. reflexivity.
Qed.

(** The numbers of a date and a time are read back from their text. *)
Lemma timestamp_text_is_read_back (year month day hour minute second : nat) :
  year < 100 * 100 -> month < 100 -> day < 100 -> hour < 100 -> minute < 100 ->
  second < 100 ->
  timestamp_numbers (timestamp_text year month day hour minute second)
  = Some (year, month, day, hour, minute).
Proof.
  intros Hy Hmo Hd Hh Hmi Hs.
  destruct (four_digits_facts year Hy) as (My & Ny & Sy & Dy).
  destruct (two_digits_facts month Hmo) as (Mm & Nm & Sm & Dm & _).
  destruct (two_digits_facts day Hd) as (Md & Nd & Sd & Dd & _).
  destruct (two_digits_facts hour Hh) as (Mh & Nh & Sh & _ & Ch).
  destruct (two_digits_facts minute Hmi) as (Mi & Ni & Si & _ & Ci).
  destruct (two_digits_facts second Hs) as (Ms & Ns & Ss & _ & Cs).
  unfold timestamp_numbers.
  assert (Hdate : matches [any_digit; any_digit; any_digit; any_digit; literally "-";
                           any_digit; any_digit; literally "-"; any_digit; any_digit]
                    (date_text year month day) = true).
  { unfold date_text.
    change [any_digit; any_digit; any_digit; any_digit; literally "-";
            any_digit; any_digit; literally "-"; any_digit; any_digit]
      with ([any_digit; any_digit; any_digit; any_digit]
            ++ [literally "-"] ++ [any_digit; any_digit]
            ++ [literally "-"] ++ [any_digit; any_digit]).
    rewrite !matches_app by (assumption || reflexivity). exact Md. }
  assert (Htime : matches [any_digit; any_digit; literally ":"; any_digit; any_digit;
                           literally ":"; any_digit; any_digit]
                    (time_text hour minute second) = true).
  { unfold time_text.
    change [any_digit; any_digit; literally ":"; any_digit; any_digit;
            literally ":"; any_digit; any_digit]
      with ([any_digit; any_digit] ++ [literally ":"] ++ [any_digit; any_digit]
            ++ [literally ":"] ++ [any_digit; any_digit]).
    rewrite !matches_app by (assumption || reflexivity). exact Ms. }
  assert (Hmatch : matches timestamp_pattern
                     (timestamp_text year month day hour minute second) = true).
  { unfold timestamp_text.
    change timestamp_pattern
      with ([any_digit; any_digit; any_digit; any_digit; literally "-";
             any_digit; any_digit; literally "-"; any_digit; any_digit]
            ++ [literally " "]
            ++ [any_digit; any_digit; literally ":"; any_digit; any_digit;
                literally ":"; any_digit; any_digit]).
    change (String " " ?x) with (" " +:+ x).
    rewrite !matches_app by (assumption || reflexivity). exact Htime. }
  rewrite Hmatch. unfold timestamp_text.
  rewrite split_piece.
  2: { unfold date_text. rewrite !free_of_append, Sy, Sm, Sd. reflexivity. }
  rewrite split_last_piece.
  2: { unfold time_text. rewrite !free_of_append, Sh, Si, Ss. reflexivity. }
  unfold date_text, time_text.
  change ("-" +:+ two_digits month +:+ "-" +:+ two_digits day)
    with (String "-" (two_digits month +:+ String "-" (two_digits day))).
  change (":" +:+ two_digits minute +:+ ":" +:+ two_digits second)
    with (String ":" (two_digits minute +:+ String ":" (two_digits second))).
  rewrite (split_piece "-" (four_digits year)), (split_piece "-" (two_digits month)),
    (split_last_piece "-" (two_digits day)) by assumption.
  rewrite (split_piece ":" (two_digits hour)), (split_piece ":" (two_digits minute)),
    (split_last_piece ":" (two_digits second)) by assumption.
  cbn [map]. rewrite Ny, Nm, Nd, Nh, Ni. reflexivity.
Qed.

Lemma digit_is_no_separator (c : ascii) :
  digit c = true ->
  Ascii.eqb c " " = false /\ Ascii.eqb c "-" = false /\ Ascii.eqb c ":" = false.
Proof.
  unfold digit, Profile.in_range. intros Hc. apply andb_true_iff in Hc as [Hlo Hhi].
  apply Nat.leb_le in Hlo, Hhi.
  repeat split; apply Ascii.eqb_neq; intros ->; vm_compute in Hlo, Hhi; lia.
Qed.

(** A text that matches the pattern has its five numbers: the
    formatting functions never leave the branch of the pattern. *)
Lemma matching_timestamp_has_numbers (timestamp : string) :
  matches timestamp_pattern timestamp = true ->
  exists year month day hour minute,
    timestamp_numbers timestamp = Some (year, month, day, hour, minute).
Proof.
  intros Hm. unfold timestamp_numbers. rewrite Hm.
  unfold timestamp_pattern in Hm. cbn [matches] in Hm.
  repeat match type of Hm with
         | match ?shown with EmptyString => false | String _ _ => _ end = true =>
             destruct shown as [ | ? ?]; [discriminate Hm | ];
             apply andb_true_iff in Hm as [? Hm]
         end.
  match type of Hm with
  | match ?shown with EmptyString => true | String _ _ => false end = true =>
      destruct shown; [clear Hm | discriminate Hm]
  end.
  repeat match goal with
         | E : Ascii.eqb _ _ = true |- _ => apply Ascii.eqb_eq in E; subst
         end.
  repeat match goal with
         | E : digit ?c = true |- _ =>
             lazymatch goal with
             | _ : Ascii.eqb c " " = false |- _ => fail
             | _ => destruct (digit_is_no_separator c E) as (? & ? & ?)
             end
         end.
  match goal with
  | |- context [split " " (String ?y1 (String ?y2 (String ?y3 (String ?y4 (String "-"
         (String ?m1 (String ?m2 (String "-" (String ?d1 (String ?d2 (String " "
         (String ?h1 (String ?h2 (String ":" (String ?i1 (String ?i2 (String ":"
         (String ?s1 (String ?s2 "")))))))))))))))))))] =>
      change (String y1 (String y2 (String y3 (String y4 (String "-"
         (String m1 (String m2 (String "-" (String d1 (String d2 (String " "
         (String h1 (String h2 (String ":" (String i1 (String i2 (String ":"
         (String s1 (String s2 "")))))))))))))))))))
        with (String y1 (String y2 (String y3 (String y4 (String "-"
                (String m1 (String m2 (String "-" (String d1 (String d2 ""))))))))) +:+
              String " " (String h1 (String h2 (String ":"
                (String i1 (String i2 (String ":" (String s1 (String s2 "")))))))));
      rewrite split_piece
        by (cbn -[Ascii.eqb];
            repeat match goal with E : Ascii.eqb _ _ = false |- _ => rewrite E; clear E end;
            reflexivity);
      rewrite split_last_piece
        by (cbn -[Ascii.eqb];
            repeat match goal with E : Ascii.eqb _ _ = false |- _ => rewrite E; clear E end;
            reflexivity);
      change (String y1 (String y2 (String y3 (String y4 (String "-"
                (String m1 (String m2 (String "-" (String d1 (String d2 ""))))))))))
        with (String y1 (String y2 (String y3 (String y4 ""))) +:+ String "-"
                (String m1 (String m2 "") +:+ String "-" (String d1 (String d2 ""))));
      change (String h1 (String h2 (String ":"
                (String i1 (String i2 (String ":" (String s1 (String s2 ""))))))))
        with (String h1 (String h2 "") +:+ String ":"
                (String i1 (String i2 "") +:+ String ":" (String s1 (String s2 ""))));
      rewrite !split_piece
        by (cbn -[Ascii.eqb];
            repeat match goal with E : Ascii.eqb _ _ = false |- _ => rewrite E; clear E end;
            reflexivity);
      rewrite !split_last_piece
        by (cbn -[Ascii.eqb];
            repeat match goal with E : Ascii.eqb _ _ = false |- _ => rewrite E; clear E end;
            reflexivity)
  end.
  cbn [map Number_of_digits digits_value].
  repeat match goal with E : digit _ = true |- _ => rewrite E; clear E end.
  eauto 10.
Qed.

Import HistoryPage.

(** X17: for the timestamp of a date and a time of day, the history
    page shows the short name of the month, the day, the year and the time on
    the twelve-hour clock: the hour shown lies between 1 and 12 and
    agrees with the hour modulo 12, zero-padded to two digits, and the
    suffix is AM exactly for the hours before 12. *)
Theorem formatFullDate_shows_the_twelve_hour_time (toLocaleString_en_IN : string -> string)
    (year month day hour minute second : nat) :
  year < 100 * 100 -> 1 <= month <= 12 -> day < 100 -> hour < 24 -> minute < 100 ->
  second < 100 ->
  exists displayHour : nat,
    formatFullDate toLocaleString_en_IN (timestamp_text year month day hour minute second)
    = nth (month - 1) monthNames "" +:+ " " +:+ nat_to_string day +:+ ", "
      +:+ nat_to_string year +:+ ", " +:+ two_digits displayHour +:+ ":"
      +:+ two_digits minute +:+ " " +:+ (if (hour <? 12)%nat then "AM" else "PM")
    /\ 1 <= displayHour <= 12
    /\ displayHour mod 12 = hour mod 12.
Proof.
  intros Hy Hmo Hd Hh Hmi Hs.
  unfold formatFullDate.
  rewrite timestamp_text_is_read_back by lia.
  assert (Hname : monthName month = nth (month - 1) monthNames "").
  { destruct month as [ | position]; [lia | ]. cbn [monthName].
    replace (S position - 1) with position by lia.
    apply nth_indep. cbn. lia. }
  rewrite Hname. unfold twelve_hour.
  destruct (Nat.eqb_spec hour 0) as [-> | H0].
  { exists 12. split; [reflexivity | ]. split; [lia | reflexivity]. }
  destruct (Nat.eqb_spec hour 12) as [-> | H12].
  { exists 12. split; [reflexivity | ]. split; [lia | reflexivity]. }
  destruct (Nat.ltb_spec 12 hour) as [Hpm | Ham].
  - exists (hour - 12). destruct (Nat.ltb_spec hour 12) as [? | _]; [lia | ].
    split; [reflexivity | ]. split; [lia | ].
    rewrite (Nat.mod_small (hour - 12)) by lia.
    replace hour with ((hour - 12) + 1 * 12) at 2 by lia.
    rewrite Nat.Div0.mod_add. symmetry. apply Nat.mod_small. lia.
  - exists hour. destruct (Nat.ltb_spec hour 12) as [_ | ?]; [ | lia].
    split; [reflexivity | ]. split; [lia | reflexivity].
Qed.

(** X18: the header tells the age of a notification from its
    timestamp: "Just now" for an age below a minute (and for a
    timestamp in the future), the whole minutes for an age below an
    hour (1 to 59), the whole hours for an age below a day (1 to 23),
    and the day and the month from then on. The seconds of the
    timestamp are not read. *)
Theorem formatTimestamp_tells_the_age (Date_getTime : nat -> Z -> nat -> nat -> nat -> Z)
    (now : Z) (year month day hour minute second : nat) :
  year < 100 * 100 -> month < 100 -> day < 100 -> hour < 100 -> minute < 100 ->
  second < 100 ->
  let age := (now - Date_getTime year (Z.of_nat month - 1)%Z day hour minute)%Z in
  let shown := HeaderTime.formatTimestamp Date_getTime now
                 (timestamp_text year month day hour minute second) in
  ((age < 60000)%Z -> shown = "Just now")
  /\ ((60000 <= age < 3600000)%Z ->
      exists minutes, shown = nat_to_string minutes +:+ "m ago"
                      /\ 1 <= minutes <= 59
                      /\ (60000 * Z.of_nat minutes <= age < 60000 * (Z.of_nat minutes + 1))%Z)
  /\ ((3600000 <= age < 86400000)%Z ->
      exists hours, shown = nat_to_string hours +:+ "h ago"
                    /\ 1 <= hours <= 23
                    /\ (3600000 * Z.of_nat hours <= age < 3600000 * (Z.of_nat hours + 1))%Z)
  /\ ((86400000 <= age)%Z -> shown = nat_to_string day +:+ "/" +:+ nat_to_string month).
Proof.
  intros Hy Hmo Hd Hh Hmi Hs age shown. subst shown.
  unfold HeaderTime.formatTimestamp.
  rewrite timestamp_text_is_read_back by lia.
  fold age. cbv zeta.
  pose proof (Z.div_mod age 60000 ltac:(lia)) as Em.
  pose proof (Z.mod_pos_bound age 60000 ltac:(lia)) as Bm.
  pose proof (Z.div_mod age 3600000 ltac:(lia)) as Eh.
  pose proof (Z.mod_pos_bound age 3600000 ltac:(lia)) as Bh.
  split; [ | split; [ | split]]; intros Hage.
  - destruct (Z.ltb_spec (age / 60000) 1); [reflexivity | lia].
  - destruct (Z.ltb_spec (age / 60000) 1); [lia | ].
    destruct (Z.ltb_spec (age / 60000) 60); [ | lia].
    exists (Z.to_nat (age / 60000)). split; [reflexivity | ]. lia.
  - destruct (Z.ltb_spec (age / 60000) 1); [lia | ].
    destruct (Z.ltb_spec (age / 60000) 60); [lia | ].
    destruct (Z.ltb_spec (age / 3600000) 24); [ | lia].
    exists (Z.to_nat (age / 3600000)). split; [reflexivity | ]. lia.
  - destruct (Z.ltb_spec (age / 60000) 1); [lia | ].
    destruct (Z.ltb_spec (age / 60000) 60); [lia | ].
    destruct (Z.ltb_spec (age / 3600000) 24); [lia | reflexivity].
Qed.

End TimestampProofs.

(** ** The daily tips *)

Section TipProofs.
Import SupportCenter.

Lemma rotated_repeat (tips i k : nat) :
  i < tips -> rotated (repeat tips k) (index i) = index ((i + k) mod tips).
Proof.
  intros Hi. revert i Hi. induction k as [ | k IH]; intros i Hi.
  - cbn. rewrite Nat.add_0_r, Nat.mod_small by exact Hi. reflexivity.
  - cbn [repeat rotated fold_left next_tip].
    destruct (Nat.eqb_spec tips 0) as [E | _]; [lia | ].
    change (fold_left _ ?l ?s) with (rotated l s).
    rewrite IH by (apply Nat.mod_upper_bound; lia).
    rewrite Nat.Div0.add_mod_idemp_l. f_equal. f_equal. lia.
Qed.

(** X19: while the number of tips stays the same and the index is a
    position among them, the rotation keeps it one: after [k] runs the
    tip [k] places further on is shown, counted round the list, and
    after as many runs as there are tips the same tip is shown again. *)
Theorem tips_rotate_in_a_cycle (tips i k : nat) :
  i < tips ->
  exists j,
    rotated (repeat tips k) (index i) = index j
    /\ j < tips
    /\ j = (i + k) mod tips
    /\ rotated (repeat tips tips) (index i) = index i.
Proof.
  intros Hi.
  exists ((i + k) mod tips). split; [ | split; [ | split]].
  - apply rotated_repeat. exact Hi.
  - apply Nat.mod_upper_bound. lia.
  - reflexivity.
  - rewrite rotated_repeat by exact Hi.
    f_equal. replace (i + tips) with (i + 1 * tips) by lia.
    rewrite Nat.Div0.mod_add. apply Nat.mod_small. exact Hi.
Qed.

(** X20: once the rotation has run while no tip was loaded (the
    length it divides by is 0), the index is [NaN] and stays [NaN]
    whatever the lengths of the list are from then on; the page then
    shows the first tip, as for index 0, and no longer rotates. *)
Theorem tips_stick_once_rotated_while_empty (start : Index) (later : list nat)
    (tips : list string) :
  rotated (0 :: later) start = NaN
  /\ shown_tip tips (rotated (0 :: later) start) = shown_tip tips (index 0).
Proof.
  assert (Hstuck : rotated later NaN = NaN).
  { induction later as [ | n later IH]; [reflexivity | exact IH]. }
  assert (Hnan : rotated (0 :: later) start = NaN).
  { cbn [rotated fold_left]. destruct start; exact Hstuck. }
  rewrite Hnan. split; [reflexivity | ].
  destruct tips as [ | tip rest]; [reflexivity | ]. cbn.
  destruct (String.eqb tip ""); reflexivity.
Qed.

End TipProofs.

(** ** Tracking a complaint *)

Section ComplaintProofs.
Context `{NumberOps} `{!Engine}.
Import TrackComplaint.

(** X21: [handleSearch] never rejects. With no complaint id and no
    email it makes no request and shows one toast; otherwise it makes
    exactly one request, whose query holds exactly the fields that are
    not empty, and ends with [isSearching] false. What it shows then
    follows from what [trackComplaint] resolved with: the [complaint]
    member of that response, and not "not found", exactly when the
    response has status ["success"] and that member is truthy; "not
    found" and no complaint otherwise, with an error toast only when
    the response is [null], whose [status] cannot be read. For an ok
    HTTP response with a body that parses, the response is that body;
    for a fetch that fails, the page shows "not found" and no toast. *)
Theorem search_asks_once_for_the_given_fields {S : Type}
    (net : S -> Request -> FetchOutcome * S) (s : S) (st : State) :
  let request := search_request (complaintId st) (email st) in
  exists st' requests s',
    run net s (handleSearch st) = (inr st', requests, s')
    /\ complaintId st' = complaintId st /\ email st' = email st
    /\ if String.eqb (complaintId st) "" && String.eqb (email st) "" then
         requests = [] /\ s' = s
         /\ complaint st' = complaint st /\ notFound st' = notFound st
         /\ isSearching st' = isSearching st
         /\ notices st' = notices st ++ [toast "Missing Information"
                                               "Please provide either Complaint ID or Email"
                                               "destructive"]
       else
         requests = [request] /\ s' = (net s request).2
         /\ isSearching st' = false
         /\ exists response,
              run net s (SupportApi.trackComplaint (or_undefined (complaintId st))
                                                   (or_undefined (email st)))
              = (inr response, [request], s')
              /\ match get_prop response "status" with
                 | inr response_status =>
                     notices st' = notices st
                     /\ if is_string response_status "success"
                           && truthy (get_prop_opt response "complaint")
                        then complaint st' = get_prop_opt response "complaint"
                             /\ notFound st' = false
                        else complaint st' = JNull /\ notFound st' = true
                 | inl thrown =>
                     complaint st' = JNull /\ notFound st' = true
                     /\ notices st'
                        = notices st ++ [toast "Error"
                                               (message_of thrown "Failed to track complaint")
                                               "destructive"]
                 end
              /\ (forall r data,
                    (net s request).1 = Resolves r -> ok r = true ->
                    body_json r = inr data -> response = data)
              /\ (fetch_failed (net s request).1 = true ->
                  notFound st' = true /\ complaint st' = JNull
                  /\ notices st' = notices st).
Proof.
  cbv zeta. unfold handleSearch.
  destruct (String.eqb (complaintId st) "" && String.eqb (email st) "") eqn:Hempty.
  { eexists _, _, _. split; [reflexivity | ]. cbn. repeat split. }
  set (c := Support_trackComplaint (or_undefined (complaintId st)) (or_undefined (email st))).
  assert (Hrequest : request_of c = search_request (complaintId st) (email st)).
  { unfold c, search_request, or_undefined. cbn. unfold SupportApi.trackComplaint_params.
    destruct (String.eqb_spec (complaintId st) "") as [E1 | E1],
             (String.eqb_spec (email st) "") as [E2 | E2]; cbn;
      rewrite ?(proj2 (String.eqb_neq _ _) E1), ?(proj2 (String.eqb_neq _ _) E2);
      reflexivity. }
  destruct (continuation_settles c (net s (request_of c)).1) as (v & Hk).
  assert (Hrun : run net s (perform c) = (inr v, [request_of c], (net s (request_of c)).2)).
  { rewrite perform_awaits_once. apply run_awaits_once. exact Hk. }
  assert (Hok : forall r data,
             (net s (request_of c)).1 = Resolves r -> ok r = true ->
             body_json r = inr data -> v = data).
  { intros r data Hnet Hr Hdata. rewrite Hnet in Hk.
    pose proof (continuation_passes_on c r Hr eq_refl) as Hpass.
    rewrite Hdata in Hpass. congruence. }
  assert (Hfailed : fetch_failed (net s (request_of c)).1 = true ->
                    get_prop v "status" = inr (JStr "error")).
  { intros Hfail.
    destruct (continuation_reports c _ Hfail) as (v' & Hk' & Hstatus & _).
    assert (v' = v) by congruence. subst v'.
    unfold result_status in Hstatus.
    destruct v; cbn in Hstatus |- *; try discriminate. now rewrite Hstatus. }
  rewrite Hrequest in *. cbn [perform c] in Hrun.
  unfold mbind, Async_bind.
  rewrite run_bind, run_try_catch, run_bind.
  cbn [setIsSearching setNotFound setComplaint complaintId email] in *.
  rewrite Hrun.
  destruct (get_prop v "status") as [thrown | response_status] eqn:Hstatus; cbn.
  { eexists _, _, _. split; [reflexivity | ]. cbn.
    split; [reflexivity | ]. split; [reflexivity | ]. split; [reflexivity | ].
    split; [reflexivity | ]. split; [reflexivity | ].
    exists v. split; [reflexivity | ]. rewrite Hstatus.
    split; [repeat split | ]. split; [exact Hok | ].
    intros Hfail. specialize (Hfailed Hfail). discriminate. }
  destruct (is_string response_status "success" && truthy (get_prop_opt v "complaint"))
    eqn:Hfound; cbn.
  - eexists _, _, _. split; [reflexivity | ]. cbn.
    split; [reflexivity | ]. split; [reflexivity | ]. split; [reflexivity | ].
    split; [reflexivity | ]. split; [reflexivity | ].
    exists v. split; [reflexivity | ]. rewrite Hstatus, Hfound.
    split; [repeat split | ]. split; [exact Hok | ].
    intros Hfail. specialize (Hfailed Hfail).
    injection Hfailed as ->. discriminate Hfound.
  - eexists _, _, _. split; [reflexivity | ]. cbn.
    split; [reflexivity | ]. split; [reflexivity | ]. split; [reflexivity | ].
    split; [reflexivity | ]. split; [reflexivity | ].
    exists v. split; [reflexivity | ]. rewrite Hstatus, Hfound.
    split; [repeat split | ]. split; [exact Hok | ].
    intros _. repeat split.
Qed.

End ComplaintProofs.

(** ** The profile page *)

Section ProfileViewProofs.
Import ProfileView.
Variable toUpperCase : string -> string.

Lemma split_not_empty (c : ascii) (shown : string) : split c shown <> [].
Proof.
  destruct shown as [ | a rest]; cbn; [discriminate | ].
  destruct (Ascii.eqb a c); [discriminate | ].
  destruct (split c rest); discriminate.
Qed.

Lemma first_piece_is_empty (c : ascii) (shown : string) :
  first_character (hd "" (split c shown)) = None <-> shown = "" \/ begins_with c shown = true.
Proof.
  destruct shown as [ | a rest]; cbn.
  - split; auto.
  - destruct (Ascii.eqb a c); cbn.
    + split; auto.
    + destruct (split c rest); cbn; split; try discriminate; intros [E | E]; discriminate.
Qed.

(** A text that is one piece does not end with the separator. *)
Lemma one_piece_does_not_end (c : ascii) (shown piece : string) :
  split c shown = [piece] -> ends_with c shown = false.
Proof.
  revert piece. induction shown as [ | x shown IH]; intros piece Hs; [reflexivity | ].
  cbn [split] in Hs. destruct (Ascii.eqb x c) eqn:Ex.
  - pose proof (split_not_empty c shown).
    destruct (split c shown); [contradiction | discriminate].
  - destruct (split c shown) as [ | p ps] eqn:Hsplit;
      [exfalso; now apply (split_not_empty c shown) | ].
    destruct ps; [ | discriminate].
    cbn [ends_with]. destruct shown as [ | y shown']; [exact Ex | ].
    eapply IH. reflexivity.
Qed.

Lemma last_piece_is_empty (c : ascii) (shown : string) :
  first_character (List.last (split c shown) "") = None
  <-> shown = "" \/ ends_with c shown = true.
Proof.
  induction shown as [ | a rest IH].
  - cbn. split; auto.
  - cbn [split ends_with].
    pose proof (split_not_empty c rest) as Hne.
    destruct (Ascii.eqb a c) eqn:Ea.
    + destruct (split c rest) as [ | piece pieces] eqn:Hs; [contradiction | ].
      change (List.last ("" :: piece :: pieces) "") with (List.last (piece :: pieces) "").
      rewrite IH. destruct rest as [ | b rest'].
      * split; auto.
      * split; intros [E | E]; try discriminate; auto.
    + destruct (split c rest) as [ | piece pieces] eqn:Hs; [contradiction | ].
      destruct pieces as [ | second pieces'].
      * cbn [List.last first_character].
        destruct rest as [ | b rest'].
        -- split; [discriminate | intros [E | E]; [discriminate | congruence]].
        -- split; [discriminate | ]. intros [E | E]; [discriminate | ].
           rewrite (one_piece_does_not_end c _ _ Hs) in E. discriminate.
      * change (List.last (String a piece :: second :: pieces') "")
          with (List.last (piece :: second :: pieces') "").
        rewrite IH.
        destruct rest as [ | b rest'].
        -- cbn in Hs. discriminate.
        -- split; intros [E | E]; try discriminate; auto.
Qed.

Lemma split_begins (c : ascii) (shown : string) :
  begins_with c shown = true -> 2 <= length (split c shown).
Proof.
  destruct shown as [ | a rest]; cbn; [discriminate | ].
  intros ->. pose proof (split_not_empty c rest).
  destruct (split c rest); [contradiction | cbn; lia].
Qed.

(** X22: [getInitials] throws exactly for the names that begin and end
    with a space (a single space among them); for every other name, and
    for the empty name, it returns a text. *)
Theorem getInitials_throws_between_two_spaces (name email : string) :
  getInitials toUpperCase name email = None
  <-> begins_with " " name = true /\ ends_with " " name = true.
Proof.
  unfold getInitials.
  destruct (String.eqb_spec name "") as [-> | Hname]; cbn [negb andb].
  { split; [discriminate | intros [E _]; discriminate]. }
  assert (Hlen : (0 <? String.length name)%nat = true).
  { destruct name; [contradiction | reflexivity]. }
  rewrite Hlen.
  pose proof (first_piece_is_empty " " name) as Hfirst.
  pose proof (last_piece_is_empty " " name) as Hlast.
  destruct (Nat.leb_spec 2 (length (split " " name))) as [Hparts | Hparts].
  - destruct (first_character (hd "" (split " " name))) as [a | ],
             (first_character (List.last (split " " name) "")) as [b | ].
    + split; [discriminate | ]. intros [E _].
      assert (Some a = None) by (apply Hfirst; auto). discriminate.
    + split; [discriminate | ]. intros [E _].
      assert (Some a = None) by (apply Hfirst; auto). discriminate.
    + split; [discriminate | ]. intros [_ E].
      assert (Some b = None) by (apply Hlast; auto). discriminate.
    + split; [intros _ | reflexivity].
      destruct (proj1 Hfirst eq_refl) as [E | E]; [contradiction | ].
      destruct (proj1 Hlast eq_refl) as [E' | E']; [contradiction | ]. auto.
  - split; [discriminate | ]. intros [E _].
    apply (split_begins " ") in E. lia.
Qed.

End ProfileViewProofs.

Section ProfileSaveProofs.
Context `{NumberOps}.
Import ProfileApi Profile ProfileView.

(** X23: [handleCancel] puts the profile's name back and empties the
    three password fields, and shows nothing. A save right after it
    passes the checks of [handleSave] and sends the backend an update
    with no member (the handler does not look for changes itself). *)
Theorem cancel_leaves_nothing_to_save {S : Type}
    (answer : forall R, Service R -> S -> R * S) (s : S)
    (u : AuthContext.User) (p : UserProfile) (st : Profile.State) :
  AuthContext.id u <> "" ->
  profile st = Some p ->
  Profile.name (handleCancel st) = profile_name p
  /\ currentPassword (handleCancel st) = "" /\ newPassword (handleCancel st) = ""
  /\ confirmPassword (handleCancel st) = ""
  /\ Profile.notices (handleCancel st) = Profile.notices st
  /\ exists later,
       (run_task answer s (handleSave (Some u) (handleCancel st))).1.2
       = existT _ (ProfileApiService_updateProfile (AuthContext.id u)
                     {| ProfileApi.name := None; password := None;
                        current_password := None |}) :: later.
Proof.
  intros Hid Hp.
  assert (Hdata : updateData p (handleCancel st)
                  = {| ProfileApi.name := None; password := None; current_password := None |}).
  { unfold updateData, handleCancel. rewrite Hp. cbn. rewrite String.eqb_refl. reflexivity. }
  unfold handleCancel at 1 2 3 4 5. rewrite Hp. cbn [Profile.name currentPassword newPassword
                                                     confirmPassword Profile.notices].
  repeat (split; [reflexivity | ]).
  unfold handleSave.
  assert (Hprofile : profile (handleCancel st) = Some p) by exact Hp.
  assert (Hcheck : password_check (handleCancel st) = None) by reflexivity.
  rewrite Hprofile, Hcheck.
  apply String.eqb_neq in Hid. rewrite Hid.
  change (updateData p (setIsSaving true (handleCancel st)))
    with (updateData p (handleCancel st)).
  rewrite Hdata. cbn [run_task].
  destruct (answer UpdateResponse _ s) as [response s1].
  destruct (run_task answer s1 _) as [[st' calls] s2]. cbn. eauto.
Qed.

(** X24: a save that passes the checks ends with [isSaving] false
    whatever the backend answers. On success it fetches the profile and
    calls [checkAuth], in this order, and empties the three password
    fields; on an error it calls nothing else, keeps the password
    fields, the name and the profile as they were, and shows the
    message twice (a sonner toast and a toast). *)
Theorem save_clears_the_passwords_only_on_success {S : Type}
    (answer : forall R, Service R -> S -> R * S) (s : S)
    (u : AuthContext.User) (p : UserProfile) (st : Profile.State) :
  AuthContext.id u <> "" ->
  profile st = Some p ->
  password_check st = None ->
  let outcome := run_task answer s (handleSave (Some u) st) in
  let update := ProfileApiService_updateProfile (AuthContext.id u) (updateData p st) in
  isSaving outcome.1.1 = false
  /\ match update_status (answer _ update s).1 with
     | success =>
         outcome.1.2 = [existT _ update;
                        existT _ (ProfileApiService_getProfile (AuthContext.id u));
                        existT _ useAuth_checkAuth]
         /\ currentPassword outcome.1.1 = "" /\ newPassword outcome.1.1 = ""
         /\ confirmPassword outcome.1.1 = ""
     | error =>
         outcome.1.2 = [existT _ update]
         /\ currentPassword outcome.1.1 = currentPassword st
         /\ newPassword outcome.1.1 = newPassword st
         /\ confirmPassword outcome.1.1 = confirmPassword st
         /\ Profile.name outcome.1.1 = Profile.name st
         /\ profile outcome.1.1 = profile st
         /\ exists reason,
              Profile.notices outcome.1.1
              = Profile.notices st ++ [sonner_error "❌ Failed to update profile" (Some reason);
                                       toast "Error" reason "destructive"]
     end.
Proof.
  intros Hid Hp Hcheck outcome update. subst outcome update.
  unfold handleSave. rewrite Hp, Hcheck.
  apply String.eqb_neq in Hid. rewrite Hid.
  cbn [run_task].
  destruct (answer UpdateResponse
              (ProfileApiService_updateProfile (AuthContext.id u)
                 (updateData p (setIsSaving true st))) s) as [response s1] eqn:Hanswer.
  change (updateData p (setIsSaving true st)) with (updateData p st) in Hanswer.
  rewrite Hanswer. cbn [fst snd].
  destruct (update_status response).
  - unfold fetchProfile. rewrite Hid. cbn [task_bind run_task].
    destruct (answer ProfileResponse (ProfileApiService_getProfile (AuthContext.id u)) s1)
      as [fetched s2].
    cbn [fst snd].
    destruct (answer unit useAuth_checkAuth s2) as [[] s3]. cbn [fst snd].
    destruct (ProfileApi.status fetched), (ProfileApi.profile fetched);
      cbn; rewrite <- ?app_assoc; repeat split.
  - cbn. rewrite <- ?app_assoc.
    repeat split; first [reflexivity | congruence | eexists; reflexivity].
Qed.

End ProfileSaveProofs.

(** ** The statistics and the layout of the admin page *)

Section StatisticsProofs.
Context `{NumberOps}.
Import AdminApi AdminStatistics.

Variable toUpperCase : string -> string.
Variable num_add : Number -> Number -> Number.
Variable Math_round : Number -> Number.
Variable Date_later : string -> string -> bool.

Lemma disjoint_filters_fit {A : Type} (p q : A -> bool) (l : list A) :
  (forall x, p x = true -> q x = false) ->
  length (List.filter p l) + length (List.filter q l) <= length l.
Proof.
  intros Hpq. induction l as [ | x l IH]; cbn; [lia | ].
  destruct (p x) eqn:Hp.
  - rewrite (Hpq x Hp). cbn. lia.
  - destruct (q x); cbn; lia.
Qed.

Lemma fake_is_not_real (x : Report) :
  predicted toUpperCase "FAKE" x = true -> predicted toUpperCase "REAL" x = false.
Proof.
  unfold predicted. intros E. apply String.eqb_eq in E. rewrite E. reflexivity.
Qed.

Lemma latest_is_listed (reports : list Report) (start : string) :
  fold_left (later_of Date_later) reports start = start
  \/ In (fold_left (later_of Date_later) reports start) (map created_at reports).
Proof.
  revert start. induction reports as [ | r reports IH]; intros start; cbn.
  - now left.
  - destruct (IH (later_of Date_later start r)) as [E | E]; [ | auto].
    rewrite E. unfold later_of. destruct (String.eqb start ""); [auto | ].
    destruct (Date_later (created_at r) start); auto.
Qed.

Lemma counts_add_up (l : list Report) :
  length (List.filter (predicted toUpperCase "FAKE") l)
  + length (List.filter (predicted toUpperCase "REAL") l) = length l
  <-> Forall (fun r => toUpperCase (prediction r) = "FAKE"
                       \/ toUpperCase (prediction r) = "REAL") l.
Proof.
  induction l as [ | x l IH]; cbn [List.filter length].
  - split; [constructor | reflexivity].
  - pose proof (disjoint_filters_fit _ _ l fake_is_not_real) as Hfit.
    destruct (predicted toUpperCase "FAKE" x) eqn:Ef.
    + rewrite (fake_is_not_real x Ef). cbn [length].
      apply String.eqb_eq in Ef. split.
      * intros E. constructor; [now left | ]. apply IH. lia.
      * intros Hall. apply Forall_cons in Hall as [_ Hall]. apply IH in Hall. lia.
    + destruct (predicted toUpperCase "REAL" x) eqn:Er; cbn [length].
      * apply String.eqb_eq in Er. split.
        -- intros E. constructor; [now right | ]. apply IH. lia.
        -- intros Hall. apply Forall_cons in Hall as [_ Hall]. apply IH in Hall. lia.
      * apply String.eqb_neq in Ef, Er. split.
        -- intros E. lia.
        -- intros Hall. apply Forall_cons in Hall as [[E | E] _]; contradiction.
Qed.

(** X25: [calculateStatistics] gives no statistics exactly for an
    empty list of reports. Otherwise the total is the number of
    reports, the fake and real counts are the numbers of reports whose
    prediction reads FAKE and REAL in upper case, the two counts
    together never exceed the total and reach it exactly when every
    report is one or the other, and the most recent date is the
    [created_at] of one of the reports. *)
Theorem statistics_count_the_listed_reports (reports : list Report) :
  match calculateStatistics toUpperCase num_add Math_round Date_later reports with
  | None => reports = []
  | Some s =>
      reports <> []
      /\ total_reports s = length reports
      /\ fake_reports s = length (List.filter (predicted toUpperCase "FAKE") reports)
      /\ real_reports s = length (List.filter (predicted toUpperCase "REAL") reports)
      /\ fake_reports s + real_reports s <= total_reports s
      /\ (fake_reports s + real_reports s = total_reports s <->
          Forall (fun r => toUpperCase (prediction r) = "FAKE"
                           \/ toUpperCase (prediction r) = "REAL") reports)
      /\ exists latest, most_recent s = Some latest /\ In latest (map created_at reports)
  end.
Proof.
  unfold calculateStatistics.
  destruct (Nat.eqb_spec (length reports) 0) as [Eempty | Hsome].
  { now apply length_zero_iff_nil. }
  assert (Hlen : (0 <? length reports)%nat = true) by (apply Nat.ltb_lt; lia).
  rewrite Hlen. cbn [total_reports fake_reports real_reports most_recent].
  split; [intros ->; contradiction | ]. split; [reflexivity | ].
  split; [reflexivity | ]. split; [reflexivity | ].
  split; [apply disjoint_filters_fit; exact fake_is_not_real | ].
  split; [apply counts_add_up | ].
  eexists. split; [reflexivity | ].
  destruct reports as [ | r reports]; [contradiction | ].
  cbn [fold_left map]. unfold later_of at 2. cbn [String.eqb].
  destruct (latest_is_listed reports (created_at r)) as [E | E].
  - rewrite E. now left.
  - now right.
Qed.

End StatisticsProofs.

Section LayoutProofs.
Context `{NumberOps} `{!Engine}.
Import AdminApi AdminContent.

Lemma cell_heights_app (a b : list PdfCall) :
  cell_heights (a ++ b) = cell_heights a ++ cell_heights b.
Proof.
  induction a as [ | call a IH]; [reflexivity | ].
  destruct call as [ | | role content x y centered | | ]; cbn; try exact IH.
  destruct role; cbn; try exact IH. now rewrite IH.
Qed.

Lemma header_cells_have_no_height (cells : list string) (i : nat) (x y : Q) :
  cell_heights (draw_cells role_column_header cells i x y) = [].
Proof.
  revert i x. induction cells as [ | cell cells IH]; intros i x; cbn; [reflexivity | apply IH].
Qed.

Lemma row_cells_share_a_height (index : nat) (cells : list string) (i : nat) (x y : Q) :
  cell_heights (draw_cells (role_cell index) cells i x y) = repeat y (length cells).
Proof.
  revert i x. induction cells as [ | cell cells IH]; intros i x; cbn; [reflexivity | ].
  now rewrite IH.
Qed.

Lemma page_break_has_no_cells (page_break : bool) :
  cell_heights (if page_break
                then ([addPage; setFont "bold"]
                      ++ draw_cells role_column_header pdf_headers 0 margin margin
                      ++ [setFont "normal"])%list
                else []) = [].
Proof.
  destruct page_break; [ | reflexivity].
  cbn [app]. change (cell_heights (addPage :: setFont "bold" :: ?l)) with (cell_heights l).
  rewrite cell_heights_app, header_cells_have_no_height. reflexivity.
Qed.

Lemma rows_stay_above_the_margin (pageHeight : Q) (shown : list Report) (index : nat) (yPos : Q) :
  Forall (fun y => (y <= pageHeight - 30)%Q \/ y = (margin + 8)%Q)
         (cell_heights (draw_rows pageHeight shown index yPos)).
Proof.
  revert index yPos. induction shown as [ | report shown IH]; intros index yPos.
  - constructor.
  - cbn [draw_rows]. rewrite !cell_heights_app, page_break_has_no_cells.
    cbn [app]. apply Forall_app. split; [ | apply IH].
    rewrite row_cells_share_a_height.
    apply List.Forall_forall. intros y Hy. apply repeat_spec in Hy. subst y.
    destruct (Qle_bool yPos (pageHeight - 30)) eqn:Hfits; cbn [negb].
    + left. now apply Qle_bool_iff.
    + now right.
Qed.

Lemma rows_have_six_cells (pageHeight : Q) (shown : list Report) (index : nat) (yPos : Q) :
  length (cell_heights (draw_rows pageHeight shown index yPos)) = 6 * length shown.
Proof.
  revert index yPos. induction shown as [ | report shown IH]; intros index yPos; [reflexivity | ].
  cbn [draw_rows]. rewrite !cell_heights_app, page_break_has_no_cells.
  rewrite row_cells_share_a_height, !length_app, IH, repeat_length. cbn. lia.
Qed.

(** X26: in the exported PDF every cell of the table is written at a
    height of at most the page height less 30, or at the height 28 of
    the first row of a fresh page; on a page at least 58 high no cell of
    the table is ever written below the page height less 30. The table
    has six cells for each of the first 25 filtered reports. *)
Theorem table_rows_stay_above_the_bottom_margin (pageWidth pageHeight : Q)
    (exportDate isoDate : string) (stats : option Statistics) (filtered : list Report) :
  let document := pdf_document pageWidth pageHeight exportDate isoDate stats filtered in
  Forall (fun y => (y <= pageHeight - 30)%Q \/ y = (margin + 8)%Q) (cell_heights document)
  /\ length (cell_heights document) = 6 * length (firstn 25 filtered)
  /\ ((58 <= pageHeight)%Q -> Forall (fun y => (y <= pageHeight - 30)%Q) (cell_heights document)).
Proof.
  cbv zeta.
  assert (Hheights : cell_heights (pdf_document pageWidth pageHeight exportDate isoDate
                                     stats filtered)
                     = cell_heights (draw_rows pageHeight (firstn 25 filtered) 0
                                       (pdf_preamble pageWidth exportDate stats).2)).
  { unfold pdf_document.
    destruct (pdf_preamble pageWidth exportDate stats) as [preamble yPos] eqn:Hpre.
    rewrite !cell_heights_app. cbn [snd].
    assert (Hp : cell_heights preamble = []).
    { unfold pdf_preamble in Hpre.
      destruct (draw_statistics stats (margin + 10 + 10 + 8)) as [summary yPos'] eqn:Hs.
      injection Hpre as <- _.
      assert (Hsum : cell_heights summary = []).
      { unfold draw_statistics in Hs. destruct stats; injection Hs as <- _; reflexivity. }
      cbn. rewrite cell_heights_app, Hsum. reflexivity. }
    assert (Hn : cell_heights (pdf_note filtered) = []).
    { unfold pdf_note. destruct (25 <? length filtered)%nat; reflexivity. }
    rewrite Hp, Hn. cbn. now rewrite app_nil_r. }
  rewrite Hheights.
  pose proof (rows_stay_above_the_margin pageHeight (firstn 25 filtered) 0
                (pdf_preamble pageWidth exportDate stats).2) as Hrows.
  split; [exact Hrows | ]. split; [apply rows_have_six_cells | ].
  intros Hpage. eapply List.Forall_impl; [ | exact Hrows].
  intros y [Hy | ->]; [exact Hy | ].
  unfold margin.
  apply Qle_trans with (58 - 30)%Q; [vm_compute; discriminate | ].
  apply Qplus_le_compat; [exact Hpage | apply Qle_refl].
Qed.

End LayoutProofs.

(** * The properties on concrete inputs *)

Import Sample Inputs.

(** The texts of the engine of the examples are not empty. *)
Lemma sample_texts_not_empty : engine_texts_not_empty.
Proof.
  assert (Hnat : forall n, nat_to_string n <> "").
  { intros n. unfold nat_to_string.
    assert (Hnorm : Nat.to_uint n = unorm (Nat.to_uint n)).
    { rewrite <- DecimalNat.Unsigned.to_of, DecimalNat.Unsigned.of_to. reflexivity. }
    pose proof (unorm_nonnil (Nat.to_uint n)) as Hnil. rewrite <- Hnorm in Hnil.
    destruct (Nat.to_uint n); [contradiction | discriminate ..]. }
  split; [ | split; [discriminate | intros k; discriminate]].
  intros n. cbn. destruct n as [ | p | p]; cbn; [discriminate | apply Hnat | discriminate].
Qed.

(** C1, on a fetch that rejects with "Failed to fetch": [deleteReport]
    returns the error object with that message after one fetch; and on
    a 400 response whose body carries an empty list as its message:
    [healthCheck], which does not read the body, reports the status. *)
Lemma service_call_reports_failure_witness :
  fetch_failed failed_to_fetch = true
  /\ (exists v,
        run (always failed_to_fetch) tt (perform (Admin_deleteReport "r1" "u1"))
        = (inr v, [request_of (Admin_deleteReport "r1" "u1")], tt)
        /\ result_status v = JStr "error"
        /\ result_message v = JStr "Failed to fetch")
  /\ reports_nothing Deepfake_healthCheck empty_list_message = false
  /\ (exists v,
        run (always empty_list_message) tt (perform Deepfake_healthCheck)
        = (inr v, [request_of Deepfake_healthCheck], tt)
        /\ result_status v = JStr "error"
        /\ result_message v = JStr "HTTP error! status: 400"
        /\ reported_text Deepfake_healthCheck empty_list_message <> "").
Proof.
  split; [reflexivity | ]. split; [ | split; [reflexivity | ]].
  - destruct (service_call_reports_failure (always failed_to_fetch) tt
                (Admin_deleteReport "r1" "u1") eq_refl)
      as (v & Hrun & Hstatus & Hmessage & _).
    exists v. auto.
  - destruct (service_call_reports_failure (always empty_list_message) tt
                Deepfake_healthCheck eq_refl)
      as (v & Hrun & Hstatus & Hmessage & _ & Hengine & _).
    exists v. split; [exact Hrun | ]. split; [exact Hstatus | ]. split; [exact Hmessage | ].
    exact (Hengine sample_texts_not_empty eq_refl).
Defined.

(** C1 as stated fails: when the fetch rejects with an [Error] whose
    message is empty, [resetUserData] returns an error object whose
    message is the empty string; so it does for a 400 response whose
    body carries an empty list as its message. *)
Lemma service_call_may_report_an_empty_message :
  run (always nameless_failure) tt (perform (Admin_resetUserData "u1"))
  = (inr (JObj [("status", JStr "error"); ("message", JStr "")]),
     [request_of (Admin_resetUserData "u1")], tt)
  /\ run (always empty_list_message) tt (perform (Admin_resetUserData "u1"))
     = (inr (JObj [("status", JStr "error"); ("message", JStr "")]),
        [request_of (Admin_resetUserData "u1")], tt).
Proof. split; reflexivity. Qed.

(** C2, on [createPost]: one JSON header and a serialised object. *)
Lemma requests_are_json_witness :
  is_private (Forum_createPost "u1" ForumApi.General "hello") = false
  /\ req_headers (request_of (Forum_createPost "u1" ForumApi.General "hello"))
     = [("Content-Type", "application/json")]
  /\ (req_body (request_of (Forum_createPost "u1" ForumApi.General "hello")) = None
      \/ exists fields,
           req_body (request_of (Forum_createPost "u1" ForumApi.General "hello"))
           = Some (BodyText (JSON_stringify (JObj fields)))).
Proof.
  split; [reflexivity | ].
  exact (requests_are_json_but_the_upload
           (Forum_createPost "u1" ForumApi.General "hello") eq_refl).
Defined.

(** C2 as stated fails: the request of [predictVideo] has no
    [Content-Type] header and its body is form data, not JSON. *)
Lemma predictVideo_sends_form_data :
  req_headers (request_of (Deepfake_predictVideo clip)) = []
  /\ req_body (request_of (Deepfake_predictVideo clip))
     = Some (BodyFormData [("file", clip)]).
Proof. split; reflexivity. Qed.

(** C3, on a login answered with status "success", a user and a
    token. *)
Lemma session_is_kept_witness :
  exists st',
    run (always login_succeeds) tt
        (AuthContext.login 1700000000000%Z "ann@example.org" "Secret123" signed_out)
    = (inr (true, st'), [login_request "ann@example.org" "Secret123"], tt)
    /\ AuthContext.localStorage st' !! "authSession" = Some (stringify sample_session)
    /\ AuthContext.user st' = sample_user.
Proof.
  destruct (proj1 session_is_kept_in_localStorage unit (always login_succeeds) tt
              1700000000000%Z "ann@example.org" "Secret123" signed_out
              _ sample_login_reply eq_refl eq_refl eq_refl eq_refl eq_refl)
    as (st' & Hrun & Hstored & Huser).
  exists st'. split; [exact Hrun | ]. split; [ | exact Huser].
  rewrite Hstored. apply lookup_insert_eq.
Defined.

(** C10, on a stored session whose verification cannot reach the
    backend: the stored user is taken over. *)
Lemma checkAuth_witness :
  exists st' requests s',
    run (always failed_to_fetch) tt (AuthContext.checkAuth session_stored)
    = (inr st', requests, s')
    /\ AuthContext.isLoading st' = false
    /\ (AuthContext.user session_stored = JNull ->
        truthy (AuthContext.user st') = true ->
        exists sessionRaw session,
          AuthContext.localStorage session_stored !! "authSession" = Some sessionRaw
          /\ JSON_parse sessionRaw = Some session
          /\ AuthContext.session_usable session = true).
Proof.
  destruct (checkAuth_keeps_only_usable_sessions (always failed_to_fetch) tt session_stored)
    as (st' & requests & s' & Hrun & Hloading & _ & Hnull).
  exists st', requests, s'. auto.
Defined.

(** C10 as stated fails: with the key absent, [checkAuth] leaves a
    signed-in user signed in; and with the empty string stored, it
    leaves the key in localStorage. *)
Lemma checkAuth_leaves_absent_and_empty_sessions :
  (AuthContext.localStorage signed_in_without_key !! "authSession" = None
   /\ exists st',
        run (always failed_to_fetch) tt (AuthContext.checkAuth signed_in_without_key)
        = (inr st', [], tt)
        /\ AuthContext.user st' = sample_user
        /\ AuthContext.isAuthenticated st' = true)
  /\ (JSON_parse "" = None
      /\ exists st',
           run (always failed_to_fetch) tt (AuthContext.checkAuth empty_text_stored)
           = (inr st', [], tt)
           /\ AuthContext.localStorage st' !! "authSession" = Some "").
Proof.
  split.
  - split; [reflexivity | ]. eexists. split; [reflexivity | ]. split; reflexivity.
  - split; [reflexivity | ]. eexists. split; [reflexivity | ]. reflexivity.
Qed.

(** C4, on a table of two reports of which the first is deleted. *)
Lemma deleted_report_witness :
  exists adminId filters,
    (run_task (Backend.answer every_report)
       {| Backend.report_rows := [report "r1" "a.mp4"; report "r2" "b.mp4"];
          Backend.reachable := [] |}
       (AdminContent.handleDeleteReport (Some ann)
          (admin_page [report "r1" "a.mp4"; report "r2" "b.mp4"]
                      (Some (report "r1" "a.mp4"))))).1.2
    = [existT _ (AdminContent.AdminApiService_deleteReport "r1" adminId);
       existT _ (AdminContent.AdminApiService_getAllReports adminId filters)]
    /\ Forall (fun r => AdminApi.id r <> "r1")
         (AdminContent.reports
            (run_task (Backend.answer every_report)
               {| Backend.report_rows := [report "r1" "a.mp4"; report "r2" "b.mp4"];
                  Backend.reachable := [] |}
               (AdminContent.handleDeleteReport (Some ann)
                  (admin_page [report "r1" "a.mp4"; report "r2" "b.mp4"]
                              (Some (report "r1" "a.mp4"))))).1.1).
Proof.
  destruct (deleted_report_leaves_the_listing every_report (Some ann)
              (admin_page [report "r1" "a.mp4"; report "r2" "b.mp4"]
                          (Some (report "r1" "a.mp4")))
              (report "r1" "a.mp4")
              {| Backend.report_rows := [report "r1" "a.mp4"; report "r2" "b.mp4"];
                 Backend.reachable := [] |}
              eq_refl eq_refl (List.Forall_nil _))
    as (adminId & filters & Hcalls & Hreports & _).
  exists adminId, filters. split; [exact Hcalls | exact Hreports].
Defined.

(** C5, for a signed-in user and no timer set yet. *)
Lemma pages_poll_witness :
  polls fetchNotifications 30000 no_timers (AppHeader.polling_effect (Some ann) true no_timers)
  /\ polls fetchDashboardData 30000 no_timers (Dashboard.polling_effect (Some ann) no_timers)
  /\ polls fetchPosts 10000 no_timers (Forum.polling_effect no_timers).
Proof.
  exact (pages_poll_on_fixed_intervals (Some ann) no_timers eq_refl (List.Forall_nil _)).
Defined.

(** C6, on two unread notifications of which the second is marked. *)
Lemma mark_as_read_witness :
  (exists requests s',
     run (always failed_to_fetch) tt (AppHeader.handleMarkAsRead (Some ann) "n2")
     = (inr (AppHeader.mark_as_read_update "n2"), requests, s'))
  /\ AppHeader.mark_as_read_update "n2"
       {| AppHeader.notifications := [unread "n1"; unread "n2"];
          AppHeader.unreadCount := 2 |}
     = {| AppHeader.notifications :=
            [unread "n1";
             {| DashboardApi.id := "n2"; DashboardApi.title := "Scan finished";
                DashboardApi.message := "Your video was analysed";
                DashboardApi.type := DashboardApi.info;
                DashboardApi.timestamp := "2025-01-02 03:04:05";
                DashboardApi.is_read := true |}];
          AppHeader.unreadCount := 1 |}.
Proof.
  split; [ | reflexivity].
  exact (proj1 (mark_as_read_touches_only_target (always failed_to_fetch) tt
                  (Some ann) "n2" eq_refl)).
Defined.


(** Lengths are counted in code units: a password of five letters and
    two Chinese characters has seven and is turned down for its length,
    whatever the number of its bytes; a character beyond U+FFFF counts
    two. *)
Lemma password_length_counts_code_units :
  length_utf16 "Pass1密码" = 7
  /\ Profile.validatePassword "Pass1密码"
     = Some "Password must be at least 8 characters long"
  /\ Login.calculatePasswordStrength "密码密码" = 25%Z
  /\ length_utf16 "😀" = 2.
Proof. repeat split. Qed.

(** C8, on one report whose cells hold no line feed: the CSV has the
    header line and one line for the report. *)
Lemma exports_witness :
  split LF (AdminContent.csvContent [report "r1" "a.mp4"])
  = [csv_header_line; AdminContent.csv_line (AdminContent.csv_row (report "r1" "a.mp4"))]
  /\ exists front,
       AdminContent.downloads
         (AdminContent.exportToPDF 210 297 "1/2/2025, 3:04:05 AM" "2025-01-02"
            (admin_page [report "r1" "a.mp4"] None))
       = [pdf_file (front ++ [save "reports_export_2025-01-02.pdf"])]
       /\ length (table_cells front) = 6.
Proof.
  destruct (exports_cover_the_filtered_reports 210 297 "1/2/2025, 3:04:05 AM" "2025-01-02"
              (admin_page [report "r1" "a.mp4"] None)
              (fun E => match E in _ = l return match l with [] => False | _ => True end
                        with eq_refl => I end))
    as ((_ & _ & _ & Hlines) & front & Hpdf & _ & Hcount & _).
  split; [exact (Hlines eq_refl) | ].
  exists front. split; [exact Hpdf | exact Hcount].
Defined.

(** C8 as stated fails: a single report whose file name holds a line
    feed makes a CSV of three lines, two of them for the report. *)
Lemma csv_row_may_span_lines :
  AdminContent.filteredReports (admin_page [report "r1" two_line_name] None)
  = [report "r1" two_line_name]
  /\ exists content,
       AdminContent.downloads
         (AdminContent.exportToCSV "2025-01-02" (admin_page [report "r1" two_line_name] None))
       = [csv_file "reports_export_2025-01-02.csv" "text/csv;charset=utf-8;" content]
       /\ length (split LF content) = 3.
Proof. split; [reflexivity | ]. eexists. split; reflexivity. Qed.

(** C9, on a video that passes and a picture that does not. *)
Lemma upload_is_guarded_witness :
  UploadPage.validateFile clip = None
  /\ (exists text, UploadPage.validateFile picture = Some text)
  /\ Dashboard.selectedFile (Dashboard.handleFileSelect picture dashboard_page) = None
  /\ Dashboard.page_timers (Dashboard.handleFileSelect picture dashboard_page) = no_timers
  /\ Dashboard.selectedFile (Dashboard.handleFileSelect clip dashboard_page) = Some clip.
Proof.
  destruct (upload_is_guarded picture dashboard_page) as [_ Hrejected].
  destruct (Hrejected (fun E => match E in _ = o return match o with None => False | _ => True end
                                with eq_refl => I end))
    as (Htext & Hfile & _ & _ & Htimers).
  split; [reflexivity | ]. split; [exact Htext | ].
  split; [exact Hfile | ]. split; [exact Htimers | reflexivity].
Defined.

(** ** The further properties on concrete inputs *)

Section FurtherCases.
Import Cases AuthContext.

(** The engine of the examples reads the sample session back from
    its text. *)
Lemma sample_session_is_read_back :
  JSON_parse (stringify sample_session) = Some sample_session
  /\ stringify sample_session <> "".
Proof.
  split.
  - cbn [JSON_parse engine]. unfold parse. rewrite String.eqb_refl. reflexivity.
  - unfold sample_session. cbn [stringify]. discriminate.
Qed.

(** The session that [login] writes for the sample reply is the sample
    session. *)
Lemma written_session_is_read_back :
  JSON_parse (JSON_stringify
                (session_object (get_prop_opt sample_login_reply "user")
                                (get_prop_opt sample_login_reply "token") 1700000000000%Z))
  = Some (session_object (get_prop_opt sample_login_reply "user")
                         (get_prop_opt sample_login_reply "token") 1700000000000%Z)
  /\ JSON_stringify
       (session_object (get_prop_opt sample_login_reply "user")
                       (get_prop_opt sample_login_reply "token") 1700000000000%Z) <> "".
Proof.
  change (session_object (get_prop_opt sample_login_reply "user")
                         (get_prop_opt sample_login_reply "token") 1700000000000%Z)
    with sample_session.
  exact sample_session_is_read_back.
Qed.

(** X2, on a stored session and a network that is down: the verify
    request is made, the session is not turned down, and the stored
    user is taken over. *)
Lemma checkAuth_clears_only_on_denial_witness :
  session_usable sample_session = true
  /\ denied (always failed_to_fetch) tt sample_session = false
  /\ exists st' s',
       run (always failed_to_fetch) tt (checkAuth session_stored)
       = (inr st', verify_requests sample_session, s')
       /\ length (verify_requests sample_session) <= 1
       /\ Forall (fun request =>
                    req_url request = API_BASE_URL +:+ "/auth/verify"
                    /\ req_method request = Some "POST"
                    /\ req_body request
                       = json_body [("token", get_prop_opt sample_session "token")])
                 (verify_requests sample_session)
       /\ isLoading st' = false
       /\ user st' = sample_user
       /\ localStorage st' = localStorage session_stored.
Proof.
  split; [reflexivity | ]. split; [reflexivity | ].
  exact (checkAuth_clears_only_on_denial (always failed_to_fetch) tt session_stored
           (stringify sample_session) sample_session
           (lookup_singleton_eq _ _) (proj2 sample_session_is_read_back)
           (proj1 sample_session_is_read_back) eq_refl).
Defined.

(** X3, on the login of the sample user and a backend that answers
    the verify request with success. *)
Lemma reload_after_login_restores_the_user_witness :
  exists st1 s1 st2 s2,
       run (always login_succeeds) tt
           (login 1700000000000%Z "ann@example.org" "Secret123" signed_out)
       = (inr (true, st1), [login_request "ann@example.org" "Secret123"], s1)
       /\ run (always login_succeeds) s1 (checkAuth (reload st1))
          = (inr st2, verify_requests sample_session, s2)
       /\ isLoading st2 = false
       /\ user st2 = user st1 /\ isAuthenticated st2 = true
       /\ localStorage st2 = localStorage st1.
Proof.
  exact (reload_after_login_restores_the_user (always login_succeeds) tt
           1700000000000%Z "ann@example.org" "Secret123" signed_out
           (reply sample_login_reply) sample_login_reply
           (proj1 written_session_is_read_back) (proj2 written_session_is_read_back)
           eq_refl eq_refl eq_refl eq_refl eq_refl).
Defined.

(** X6, on a list of users: [getAllUsers] returns the body. *)
Lemma service_call_passes_the_body_on_witness :
  reshapes_the_body (Admin_getAllUsers "u1") = false
  /\ run (always (answers two_users)) tt (perform (Admin_getAllUsers "u1"))
     = (inr two_users, [request_of (Admin_getAllUsers "u1")], tt).
Proof.
  split; [reflexivity | ].
  exact (service_call_passes_the_body_on (always (answers two_users)) tt
           (Admin_getAllUsers "u1") (reply two_users) eq_refl eq_refl eq_refl).
Defined.

(** X7, on a body with a list of analyses and no notifications. *)
Lemma getDashboard_defaults_its_lists_witness :
  exists v,
    run (always (answers (JObj dashboard_fields))) tt (DashboardApi.getDashboard "u1")
    = (inr v, [request_of (Dashboard_getDashboard "u1")], tt)
    /\ result_status v = JStr "success"
    /\ result_message v = JUndefined
    /\ exists numbers recentAnalyses notifications,
         get_prop_opt v "data"
         = JObj (numbers ++ [("recentAnalyses", recentAnalyses);
                             ("notifications", notifications)])
         /\ map fst numbers = ["totalAnalyses"; "deepfakesDetected"; "accuracyRate";
                               "avgProcessingTime"]
         /\ Forall (fun kv => kv.2 = default JUndefined (lookup_field kv.1 dashboard_fields))
                   numbers
         /\ recentAnalyses = JArr [JStr "a1"]
         /\ notifications = JArr []
         /\ truthy recentAnalyses = true /\ truthy notifications = true.
Proof.
  exact (getDashboard_defaults_its_lists (always (answers (JObj dashboard_fields))) tt "u1"
           (reply (JObj dashboard_fields)) dashboard_fields eq_refl eq_refl eq_refl).
Defined.

(** X12, on a page without timers: after eleven runs the file has
    been handed over once and no timer is left. *)
Lemma upload_timer_runs_eleven_times_witness :
  (UploadProgress.fire_times 11 0 (Dashboard.startUpload clip dashboard_page)).2 = [clip]
  /\ Dashboard.uploadProgress
       (UploadProgress.fire_times 11 0 (Dashboard.startUpload clip dashboard_page)).1 = 100%Z
  /\ Dashboard.uploading
       (UploadProgress.fire_times 11 0 (Dashboard.startUpload clip dashboard_page)).1 = false
  /\ active (Dashboard.page_timers
               (UploadProgress.fire_times 11 0 (Dashboard.startUpload clip dashboard_page)).1)
     = [].
Proof.
  exact (upload_timer_runs_eleven_times clip dashboard_page 11 (List.Forall_nil _)).
Defined.

(** X17, on the afternoon of 2 January 2025. *)
Lemma formatFullDate_shows_the_twelve_hour_time_witness :
  exists displayHour : nat,
    HistoryPage.formatFullDate (fun shown => shown) "2025-01-02 15:04:05"
    = "Jan 2, 2025, " +:+ two_digits displayHour +:+ ":04 PM"
    /\ 1 <= displayHour <= 12
    /\ displayHour mod 12 = 3.
Proof.
  exact (formatFullDate_shows_the_twelve_hour_time (fun shown => shown) 2025 1 2 15 4 5
           ltac:(lia) ltac:(lia) ltac:(lia) ltac:(lia) ltac:(lia) ltac:(lia)).
Defined.

(** X18, on a notification read 26 minutes after its timestamp. *)
Lemma formatTimestamp_tells_the_age_witness :
  (calendar 2025 0 2 15 30 - calendar 2025 0 2 15 4 = 26 * 60000)%Z
  /\ exists minutes,
       HeaderTime.formatTimestamp calendar (calendar 2025 0 2 15 30) "2025-01-02 15:04:05"
       = nat_to_string minutes +:+ "m ago"
       /\ 1 <= minutes <= 59
       /\ (60000 * Z.of_nat minutes <= 26 * 60000 < 60000 * (Z.of_nat minutes + 1))%Z.
Proof.
  split; [reflexivity | ].
  refine (proj1 (proj2 (formatTimestamp_tells_the_age calendar (calendar 2025 0 2 15 30)
                          2025 1 2 15 4 5 _ _ _ _ _ _)) _); try lia.
  unfold calendar. lia.
Defined.

(** X19, on three tips: five runs after the second tip the first one
    is shown. *)
Lemma tips_rotate_in_a_cycle_witness :
  exists j,
    rotated [3; 3; 3; 3; 3] (SupportCenter.index 1) = SupportCenter.index j
    /\ j < 3
    /\ j = 0
    /\ rotated [3; 3; 3] (SupportCenter.index 1) = SupportCenter.index 1.
Proof.
  exact (tips_rotate_in_a_cycle 3 1 5 ltac:(lia)).
Defined.

(** X23, on a form with a changed name and filled password fields. *)
Lemma cancel_leaves_nothing_to_save_witness :
  Profile.name (ProfileView.handleCancel edited_form) = "Ann"
  /\ Profile.currentPassword (ProfileView.handleCancel edited_form) = ""
  /\ Profile.newPassword (ProfileView.handleCancel edited_form) = ""
  /\ Profile.confirmPassword (ProfileView.handleCancel edited_form) = ""
  /\ Profile.notices (ProfileView.handleCancel edited_form) = []
  /\ exists later,
       (run_task profile_backend tt
          (Profile.handleSave (Some ann) (ProfileView.handleCancel edited_form))).1.2
       = existT _ (Profile.ProfileApiService_updateProfile "u1"
                     {| ProfileApi.name := None; ProfileApi.password := None;
                        ProfileApi.current_password := None |}) :: later.
Proof.
  exact (cancel_leaves_nothing_to_save profile_backend tt ann profile_of_ann edited_form
           ltac:(discriminate) eq_refl).
Defined.

(** X24, on a backend that accepts the update. *)
Lemma save_clears_the_passwords_only_on_success_witness :
  Profile.isSaving
    (run_task profile_backend tt (Profile.handleSave (Some ann) edited_form)).1.1 = false
  /\ (run_task profile_backend tt (Profile.handleSave (Some ann) edited_form)).1.2
     = [existT _ (Profile.ProfileApiService_updateProfile "u1"
                    (Profile.updateData profile_of_ann edited_form));
        existT _ (Profile.ProfileApiService_getProfile "u1");
        existT _ Profile.useAuth_checkAuth]
  /\ Profile.currentPassword
       (run_task profile_backend tt (Profile.handleSave (Some ann) edited_form)).1.1 = ""
  /\ Profile.newPassword
       (run_task profile_backend tt (Profile.handleSave (Some ann) edited_form)).1.1 = ""
  /\ Profile.confirmPassword
       (run_task profile_backend tt (Profile.handleSave (Some ann) edited_form)).1.1 = "".
Proof.
  exact (save_clears_the_passwords_only_on_success profile_backend tt ann profile_of_ann
           edited_form ltac:(discriminate) eq_refl eq_refl).
Defined.

End FurtherCases.
